(** * chat_app_cli: the interactive terminal session controller

    A shallow embedding of the raw-mode key loops of the friend-request
    flow ([waitForCtrlR], [handleFriendRequestResponse]) and of the
    conversation flow ([waitForCtrlRInReceiveMessage], [handleSendMessage]),
    with the terminal device, standard input and the HTTP back end as an
    explicit world that the Go functions thread through. *)

From Stdlib Require Import ZArith NArith Lia List Ascii String Strings.Byte Bool DecimalString.
From stdpp Require Import base list.
Import ListNotations.

Local Open Scope string_scope.
Local Open Scope Z_scope.

(** ** Go strings

    A Go string is a byte sequence; [string] is a list of 8-bit [ascii]
    values, and a literal holds the UTF-8 bytes of the source file. *)

Module GoStrings.

(** What the [unicode] tables decide.  The ASCII paths of [strings.ToLower]
    and [strings.TrimSpace] are written out below; a string with a byte
    >= [utf8.RuneSelf] leaves them for the rune-wise routines, which are
    kept abstract. *)
Record Unicode := {
  (** [strings.Map(unicode.ToLower, s)] *)
  mapToLower : string -> string;
  (** [strings.TrimFunc(s, unicode.IsSpace)] *)
  trimFuncIsSpace : string -> string;
  (** [strings.TrimRightFunc(s, unicode.IsSpace)] *)
  trimRightFuncIsSpace : string -> string
}.

Definition byteval (c : ascii) : N := N_of_ascii c.

(** [c >= utf8.RuneSelf] fails *)
Definition isASCII (c : ascii) : bool := (byteval c <? 128)%N.

(** ['A' <= c && c <= 'Z'] *)
Definition isUpper (c : ascii) : bool :=
  ((65 <=? byteval c) && (byteval c <=? 90))%N.

(** [c += 'a' - 'A'] on an upper-case byte *)
Definition lowerByte (c : ascii) : ascii :=
  if isUpper c then ascii_of_N (byteval c + 32) else c.

Fixpoint allb (p : ascii -> bool) (s : string) : bool :=
  match s with
  | EmptyString => true
  | String c s' => p c && allb p s'
  end.

Fixpoint existsb (p : ascii -> bool) (s : string) : bool :=
  match s with
  | EmptyString => false
  | String c s' => p c || existsb p s'
  end.

Fixpoint mapBytes (f : ascii -> ascii) (s : string) : string :=
  match s with
  | EmptyString => EmptyString
  | String c s' => String (f c) (mapBytes f s')
  end.

(** [strings.ToLower]: the first scan sets [isASCII] and [hasUpper]; an
    ASCII string without upper-case letters is returned as it is, an ASCII
    string with some has each of them moved to lower case, anything else
    goes through [strings.Map(unicode.ToLower, s)]. *)
Definition ToLower (u : Unicode) (s : string) : string :=
  if allb isASCII s then
    if existsb isUpper s then mapBytes lowerByte s else s
  else mapToLower u s.

(** The [asciiSpace] table: ['\t'], ['\n'], ['\v'], ['\f'], ['\r'], [' ']. *)
Definition asciiSpace (c : ascii) : bool :=
  let n := byteval c in
  ((n =? 9) || (n =? 10) || (n =? 11) || (n =? 12) || (n =? 13) || (n =? 32))%N.

(** One of the two scans of [strings.TrimSpace]: drop ASCII white space
    from the front and stop at the first other byte; the flag tells that
    this byte is not ASCII, where Go falls back to the rune-wise trim. *)
Fixpoint skipSpace (l : list ascii) : list ascii * bool :=
  match l with
  | [] => ([], false)
  | c :: l' =>
      if negb (isASCII c) then (l, true)
      else if asciiSpace c then skipSpace l'
      else (l, false)
  end.

(** [strings.TrimSpace]: scan from the start, then from the end. *)
Definition TrimSpace (u : Unicode) (s : string) : string :=
  match skipSpace (list_ascii_of_string s) with
  | (rest, true) => trimFuncIsSpace u (string_of_list_ascii rest)
  | (rest, false) =>
      match skipSpace (rev rest) with
      | (tser, true) => trimRightFuncIsSpace u (string_of_list_ascii (rev tser))
      | (tser, false) => string_of_list_ascii (rev tser)
      end
  end.

(** Decimal digits of [strconv.Atoi]: [ch -= '0'; if ch > 9] is a syntax
    error, else [n = n*10 + int(ch)]. *)
Fixpoint digits (s : string) (n : Z) : option Z :=
  match s with
  | EmptyString => Some n
  | String c s' =>
      let ch := Z.of_N (byteval c) - 48 in
      if (0 <=? ch) && (ch <=? 9) then digits s' (n * 10 + ch) else None
  end.

Definition maxInt : Z := 2 ^ 63 - 1.
Definition minInt : Z := - 2 ^ 63.

(** [strconv.Atoi] with a 64-bit [int]: an optional sign, then one or more
    decimal digits; [None] stands for a non-nil error, which is a syntax
    error ([ErrSyntax]: empty, sign alone, a byte that is no digit) or a
    value that does not fit ([ErrRange], from the [ParseInt] path). *)
Definition Atoi (s : string) : option Z :=
  match s with
  | EmptyString => None
  | String c s' =>
      let neg := Ascii.eqb c "-" in
      let body := if neg || Ascii.eqb c "+" then s' else s in
      match body with
      | EmptyString => None
      | _ =>
          match digits body 0 with
          | None => None
          | Some n =>
              let v := if neg then - n else n in
              if (minInt <=? v) && (v <=? maxInt) then Some v else None
          end
      end
  end.

(** The table-free instance: used to run the model on ASCII input. *)
Definition asciiOnly : Unicode :=
  {| mapToLower := fun s => s;
     trimFuncIsSpace := fun s => s;
     trimRightFuncIsSpace := fun s => s |}.

End GoStrings.

Import GoStrings.

(** ** Data model ([types.go]) *)

Module TokenData.
Record t := mk {
  Token : string;
  ExpiresIn : string;
  UserID : string;
  Username : string
}.
End TokenData.

Module Friend.
Record t := mk {
  FriendID : string;
  FriendUsername : string;
  FriendshipDate : string;
  FriendshipID : Z;
  UserID : string;
  Username : string
}.

Definition GetUserID (f : t) : string :=
  if negb (FriendID f =? "")%string then FriendID f else UserID f.

Definition GetUsername (f : t) : string :=
  if negb (FriendUsername f =? "")%string then FriendUsername f else Username f.
End Friend.

Module IncomingFriendRequest.
Record t := mk {
  RecipientUserID : string;
  RecipientUsername : string;
  RequestData : string;
  RequestID : Z;
  SenderUserID : string;
  SenderUsername : string;
  Status : string;
  Timestamp : string
}.
End IncomingFriendRequest.

Module IncomingFriendRequestsResponse.
Record t := mk {
  IncomingRequests : list IncomingFriendRequest.t;
  TotalIncoming : Z;
  Message : string;
  UserID : string
}.

(** The zero value a [var incomingResponse] starts from. *)
Definition zero : t := mk [] 0 "" "".
End IncomingFriendRequestsResponse.

(** The [termios] struct of the two files ([termiosReceiveMessage] has the
    same fields); the [uint32] and [uint8] fields are kept as [Z]. *)
Record termios := mkTermios {
  Iflag : Z;
  Oflag : Z;
  Cflag : Z;
  Lflag : Z;
  Cc : list Z;
  Ispeed : Z;
  Ospeed : Z
}.

(** [var oldState termios] *)
Definition zeroTermios : termios := mkTermios 0 0 0 0 (replicate 20 0) 0 0.

(** Go [error] values, as far as the flows build and print them. *)
Inductive error :=
| Errno (n : Z)                          (* a [syscall.Errno] *)
| ErrorString (msg : string)             (* any other error, by its text *)
| Errorf (format : string) (e : error).  (* [fmt.Errorf(format, e)] *)

(** ** The world: terminal device, standard input, back end, trace *)

Inductive Arg := AStr (s : string) | AInt (n : Z) | AErr (e : error).

Inductive NetCall :=
| GetConversation (token friendUserID : string)
| PostSendMessage (token message recipientUID : string)
| PostRespondFriendRequest (token username action : string)
| GetIncomingFriendRequests (token url : string).

(** What an execution leaves behind, in order: text written to standard
    output, calls of [makeRaw] (with the pointer it returned) and [restore]
    (with the pointer it was given), and requests sent to the back end. *)
Inductive Event :=
| Print (s : string)
| Println (s : string)
| Printf (format : string) (args : list Arg)
| MakeRaw (saved : option termios)
| Restore (oldState : option termios)
| Http (c : NetCall).

(** One [os.Stdin.Read(buffer)] with a one-byte buffer. *)
Inductive KeyRead :=
| KByte (b : byte)      (* n = 1, buffer[0] = b *)
| KNone                 (* n = 0, err = nil *)
| KErr (e : error).     (* err != nil *)

(** One [reader.ReadString('\n')]. *)
Inductive LineRead :=
| LLine (s : string)
| LErr (e : error).

(** The answer of the back end to one request. *)
Inductive Reply :=
| ReplyErr (e : error)
| ReplyOK
| ReplyIncoming (resp : IncomingFriendRequestsResponse.t).

(** The terminal behind standard input.  [faults] are errno values the
    kernel is going to answer the next ioctl calls with (0: none), so that a
    terminal can fail in the middle of a session. *)
Record Terminal := mkTerminal {
  isatty : bool;
  settings : termios;
  faults : list Z
}.

Record World := mkWorld {
  tty : Terminal;
  lines : list LineRead;
  replies : list Reply;
  log : list Event
}.

Definition set_tty (t : Terminal) (w : World) : World :=
  mkWorld t (lines w) (replies w) (log w).
Definition set_lines (l : list LineRead) (w : World) : World :=
  mkWorld (tty w) l (replies w) (log w).
Definition set_replies (r : list Reply) (w : World) : World :=
  mkWorld (tty w) (lines w) r (log w).
Definition emit (e : Event) (w : World) : World :=
  mkWorld (tty w) (lines w) (replies w) (log w ++ [e])%list.

(** How a Go function call ends: it returns, the process ends in
    [os.Exit(code)], it waits for input that never comes, or it panics. *)
Inductive Res (A : Type) :=
| Done (a : A) (w : World)
| Exit (code : Z) (w : World)
| Blocked (w : World)
| Panic (w : World).
Arguments Done {A} a w.
Arguments Exit {A} code w.
Arguments Blocked {A} w.
Arguments Panic {A} w.

Definition M (A : Type) : Type := World -> Res A.

Definition ret {A} (a : A) : M A := fun w => Done a w.

Definition bind {A B} (m : M A) (k : A -> M B) : M B := fun w =>
  match m w with
  | Done a w' => k a w'
  | Exit c w' => Exit c w'
  | Blocked w' => Blocked w'
  | Panic w' => Panic w'
  end.

Declare Scope go_scope.
Delimit Scope go_scope with go.
Notation "'let*' x ':=' m 'in' k" := (bind m (fun x => k))
  (at level 10, x pattern, m at level 100, k at level 200) : go_scope.
Notation "m ;;; k" := (bind m (fun _ => k))
  (at level 100, right associativity) : go_scope.
Local Open Scope go_scope.

Definition world_of {A} (r : Res A) : World :=
  match r with
  | Done _ w | Exit _ w | Blocked w | Panic w => w
  end.

Definition out (e : Event) : M unit := fun w => Done tt (emit e w).

(** [os.Exit(code)]: the process ends here; deferred calls do not run. *)
Definition osExit {A} (code : Z) : M A := fun w => Exit code w.

Definition panic {A} : M A := fun w => Panic w.

(** [defer d] followed by [body]: [d] runs when [body] returns or panics,
    and does not when the process exits or stays blocked inside [body]. *)
Definition defer {A B} (d : M B) (body : M A) : M A := fun w =>
  match body w with
  | Done a w' => bind d (fun _ => ret a) w'
  | Panic w' => bind d (fun _ => panic) w'
  | Exit c w' => Exit c w'
  | Blocked w' => Blocked w'
  end.

(** [reader.ReadString('\n')] on standard input in cooked mode. *)
Definition ReadString : M LineRead := fun w =>
  match lines w with
  | [] => Blocked w
  | l :: ls => Done l (set_lines ls w)
  end.

(** One call of a back-end collaborator: logged with what it sends, then
    answered; without an answer the call does not come back. *)
Definition roundTrip (c : NetCall) : M Reply := fun w =>
  let w := emit (Http c) w in
  match replies w with
  | [] => Blocked w
  | r :: rs => Done r (set_replies rs w)
  end.

(** ** Terminal Mode Switch *)

Definition TCGETS : Z := 0x5401.
Definition TCSETS : Z := 0x5402.
Definition ICANON : Z := 0x2.
Definition ECHO : Z := 0x8.
Definition VMIN : nat := 6.
Definition VTIME : nat := 5.
Definition EFAULT : Z := 14.
Definition ENOTTY : Z := 25.

(** [syscall.Syscall(syscall.SYS_IOCTL, fd, req, pointer)] on standard
    input: the result is what the pointer refers to afterwards, and errno.
    A descriptor that is no terminal answers [ENOTTY], a nil pointer
    [EFAULT]; neither changes the device. *)
Definition ioctl (req : Z) (arg : option termios) : M (option termios * Z) := fun w =>
  let t := tty w in
  let '(fault, t) :=
    match faults t with
    | [] => (0, t)
    | e :: fs => (e, mkTerminal (isatty t) (settings t) fs)
    end in
  let w := set_tty t w in
  if negb (fault =? 0) then Done (arg, fault) w
  else if negb (isatty t) then Done (arg, ENOTTY) w
  else
    match arg with
    | None => Done (None, EFAULT) w
    | Some s =>
        if req =? TCGETS then Done (Some (settings t), 0) w
        else if req =? TCSETS then
          Done (arg, 0) (set_tty (mkTerminal (isatty t) s (faults t)) w)
        else Done (arg, ENOTTY) w
    end.

(** [makeRaw] and [makeRawForReceiveMessage] (same text). *)
Definition makeRaw : M (option termios * option error) :=
  let* r :=
       (let* (mem, errno) := ioctl 0x5401 (Some zeroTermios) in
        if negb (errno =? 0) then ret (None, Some (Errno errno))
        else
          let oldState := default zeroTermios mem in
          let newState :=
            mkTermios (Iflag oldState) (Oflag oldState) (Cflag oldState)
              (Z.ldiff (Lflag oldState) (Z.lor ICANON ECHO))
              (<[VTIME := 0]> (<[VMIN := 1]> (Cc oldState)))
              (Ispeed oldState) (Ospeed oldState) in
          let* (_, errno) := ioctl 0x5402 (Some newState) in
          if negb (errno =? 0) then ret (None, Some (Errno errno))
          else ret (Some oldState, None)) in
  out (MakeRaw (fst r)) ;;;
  ret r.

Definition makeRawForReceiveMessage := makeRaw.

(** [restore] and [restoreForReceiveMessage] (same text): the pointer goes
    to the kernel as it is, nil included. *)
Definition restore (oldState : option termios) : M (option error) :=
  out (Restore oldState) ;;;
  let* (_, errno) := ioctl 0x5402 oldState in
  if negb (errno =? 0) then ret (Some (Errno errno)) else ret None.

Definition restoreForReceiveMessage := restore.

(** ** External collaborators

    Printed text and format strings are kept as the Go source spells them,
    escape sequences included.  Of a request to the back end the model keeps
    what is sent and whether the call ends in an error; building the
    request, the status check, decoding and the display of a fetched
    conversation stay with the collaborator. *)

Definition fetchConversation (token : TokenData.t) (friend : Friend.t) : M (option error) :=
  let friendUserID := Friend.GetUserID friend in
  let* r := roundTrip (GetConversation (TokenData.Token token) friendUserID) in
  match r with
  | ReplyErr e => ret (Some e)
  | _ => ret None
  end.

Definition sendMessageToFriend (token message recipientUID : string) : M (option error) :=
  let* r := roundTrip (PostSendMessage token message recipientUID) in
  match r with
  | ReplyErr e => ret (Some e)
  | _ => ret None
  end.

Definition respondToFriendRequest (token : TokenData.t) (username action : string) : M (option error) :=
  let* r := roundTrip (PostRespondFriendRequest (TokenData.Token token) username action) in
  match r with
  | ReplyErr e => ret (Some e)
  | _ => ret None
  end.

Definition fetchIncomingFriendRequests (token : TokenData.t) (url : string)
  : M (option IncomingFriendRequestsResponse.t * option error) :=
  let* r := roundTrip (GetIncomingFriendRequests (TokenData.Token token) url) in
  match r with
  | ReplyErr e => ret (None, Some e)
  | ReplyOK => ret (Some IncomingFriendRequestsResponse.zero, None)
  | ReplyIncoming resp => ret (Some resp, None)
  end.

(** [for i, x := range l { body }] *)
Fixpoint forRange {A} (body : nat -> A -> M unit) (i : nat) (l : list A) : M unit :=
  match l with
  | [] => ret tt
  | x :: l' => body i x ;;; forRange body (S i) l'
  end.

Definition displayIncomingFriendRequests (response : IncomingFriendRequestsResponse.t) : M unit :=
  let requests := IncomingFriendRequestsResponse.IncomingRequests response in
  out (Printf "\n=== Incoming Friend Requests ===\n" []) ;;;
  (if negb (IncomingFriendRequestsResponse.Message response =? "")%string
   then out (Printf "Message: %s\n" [AStr (IncomingFriendRequestsResponse.Message response)])
   else ret tt) ;;;
  out (Printf "Total incoming requests: %d\n"
         [AInt (IncomingFriendRequestsResponse.TotalIncoming response)]) ;;;
  out (Printf "Your User ID: %s\n" [AStr (IncomingFriendRequestsResponse.UserID response)]) ;;;
  if (length requests =? 0)%nat then
    out (Printf "No incoming friend requests found.\n" [])
  else
    out (Println "─────────────────────────────────────────────────") ;;;
    forRange (fun i request =>
      out (Printf "\n%d. Request ID: %d\n"
             [AInt (Z.of_nat i + 1); AInt (IncomingFriendRequest.RequestID request)]) ;;;
      out (Printf "   From: %s (ID: %s)\n"
             [AStr (IncomingFriendRequest.SenderUsername request);
              AStr (IncomingFriendRequest.SenderUserID request)]) ;;;
      out (Printf "   To: %s (ID: %s)\n"
             [AStr (IncomingFriendRequest.RecipientUsername request);
              AStr (IncomingFriendRequest.RecipientUserID request)]) ;;;
      out (Printf "   Status: %s\n" [AStr (IncomingFriendRequest.Status request)]) ;;;
      out (Printf "   Timestamp: %s\n" [AStr (IncomingFriendRequest.Timestamp request)]) ;;;
      out (Printf "   Request Data: %s\n" [AStr (IncomingFriendRequest.RequestData request)]) ;;;
      if Z.of_nat i <? Z.of_nat (length requests) - 1 then
        out (Println "   ─────────────────────────────")
      else ret tt) 0%nat requests ;;;
    out (Printf "\n=== End of Incoming Friend Requests ===\n" []).

Section Flows.

Context (u : Unicode).

(** ** Friend requests: the respond sub-flow *)

(** The test of the filter loop of [handleFriendRequestResponse]. *)
Definition canRespond (request : IncomingFriendRequest.t) : bool :=
  ((ToLower u (IncomingFriendRequest.Status request) =? "pending") ||
   (ToLower u (IncomingFriendRequest.Status request) =? "rejected"))%string.

(** The filter loop: [respondableRequests] starts nil and is appended to. *)
Definition respondable (requests : list IncomingFriendRequest.t)
  : list IncomingFriendRequest.t :=
  fold_left
    (fun respondableRequests request =>
       if canRespond request then (respondableRequests ++ [request])%list
       else respondableRequests)
    requests [].

Definition menuLine (i : nat) (request : IncomingFriendRequest.t) : Event :=
  Printf "%d. From: %s (Status: %s, Request ID: %d)\n"
    [AInt (Z.of_nat i + 1);
     AStr (IncomingFriendRequest.SenderUsername request);
     AStr (IncomingFriendRequest.Status request);
     AInt (IncomingFriendRequest.RequestID request)].

Definition handleFriendRequestResponse
    (token : TokenData.t) (requests : list IncomingFriendRequest.t) : M unit :=
  let respondableRequests := respondable requests in
  if (length respondableRequests =? 0)%nat then
    out (Println "\nNo pending or rejected friend requests to respond to.") ;;;
    out (Println "Only requests with 'pending' or 'rejected' status can be responded to.")
  else
    out (Println "\n=== Respond to Friend Requests ===") ;;;
    out (Println "Available requests (pending/rejected only):") ;;;
    forRange (fun i request => out (menuLine i request)) 0%nat respondableRequests ;;;
    out (Print "\nEnter the number of the request to respond to: ") ;;;
    let* r := ReadString in
    match r with
    | LErr err => out (Printf "Error reading input: %v\n" [AErr err])
    | LLine input =>
        let input := TrimSpace u input in
        match Atoi input with
        | None => out (Println "Invalid request number.")
        | Some requestIndex =>
            if (requestIndex <? 1) || (requestIndex >? Z.of_nat (length respondableRequests))
            then out (Println "Invalid request number.")
            else
              match respondableRequests !! Z.to_nat (requestIndex - 1) with
              | None => panic
              | Some selectedRequest =>
                  let sender := IncomingFriendRequest.SenderUsername selectedRequest in
                  out (Printf "\nSelected request from: %s\n" [AStr sender]) ;;;
                  out (Println "1. Accept") ;;;
                  out (Println "2. Reject") ;;;
                  out (Print "Enter your choice (1 or 2): ") ;;;
                  let* r := ReadString in
                  match r with
                  | LErr err => out (Printf "Error reading input: %v\n" [AErr err])
                  | LLine actionInput =>
                      let actionInput := TrimSpace u actionInput in
                      match Atoi actionInput with
                      | None => out (Println "Invalid choice.")
                      | Some actionChoice =>
                          if negb (actionChoice =? 1) && negb (actionChoice =? 2)
                          then out (Println "Invalid choice.")
                          else
                            let action := if actionChoice =? 1 then "accept" else "reject" in
                            let* err := respondToFriendRequest token sender action in
                            match err with
                            | Some err =>
                                out (Printf "Error responding to friend request: %v\n" [AErr err])
                            | None =>
                                out (Printf "Successfully %sed friend request from %s!\n"
                                       [AStr action; AStr sender]) ;;;
                                out (Println "Program will now exit.")
                            end
                      end
                  end
              end
        end
    end.

(** ** Friend requests: the key loop *)

(** The [for] loop of [waitForCtrlR], one [os.Stdin.Read] per round. *)
Fixpoint waitForCtrlR_loop (token : TokenData.t) (requests : list IncomingFriendRequest.t)
    (oldState : option termios) (keys : list KeyRead) : M unit :=
  match keys with
  | [] => fun w => Blocked w
  | KErr err :: _ => out (Printf "Error reading input: %v\n" [AErr err])
  | KNone :: keys' => waitForCtrlR_loop token requests oldState keys'
  | KByte b :: keys' =>
      if (Byte.to_N b =? 18)%N then
        restore oldState ;;;
        handleFriendRequestResponse token requests
      else if (Byte.to_N b =? 3)%N then
        out (Println "\nExiting...") ;;;
        osExit 0
      else waitForCtrlR_loop token requests oldState keys'
  end.

Definition waitForCtrlR (token : TokenData.t) (requests : list IncomingFriendRequest.t)
    (keys : list KeyRead) : M unit :=
  let* (oldState, err) := makeRaw in
  match err with
  | Some err => out (Printf "Error setting terminal to raw mode: %v\n" [AErr err])
  | None =>
      defer (restore oldState)
        (waitForCtrlR_loop token requests oldState keys)
  end.

Definition handleIncomingRequests (token : TokenData.t) (keys : list KeyRead)
  : M (option error) :=
  out (Println "\n📥 Fetching incoming friend requests...") ;;;
  let url := "https://wasalbackend-production.up.railway.app/auth/get_incoming_friend_requests" in
  let* (requests, err) := fetchIncomingFriendRequests token url in
  match err with
  | Some err => ret (Some (Errorf "failed to fetch incoming requests: %v" err))
  | None =>
      match requests with
      | None => panic
      | Some requests =>
          displayIncomingFriendRequests requests ;;;
          out (Println "\nPress CTRL+R to respond to friend requests or CTRL+C to exit...") ;;;
          waitForCtrlR token (IncomingFriendRequestsResponse.IncomingRequests requests) keys ;;;
          ret None
      end
  end.

(** ** Conversation: compose and send *)

Definition handleSendMessage (token : TokenData.t) (friend : Friend.t) : M (option error) :=
  let friendUsername := Friend.GetUsername friend in
  let friendUserID := Friend.GetUserID friend in
  out (Printf "Sending message to: %s\n" [AStr friendUsername]) ;;;
  out (Print "Enter your message: ") ;;;
  let* r := ReadString in
  match r with
  | LErr err => ret (Some (Errorf "error reading message input: %v" err))
  | LLine message =>
      let message := TrimSpace u message in
      if (message =? "")%string then
        out (Println "Message cannot be empty. Message sending cancelled.") ;;;
        ret None
      else
        out (Println "📤 Sending message...") ;;;
        let* err := sendMessageToFriend (TokenData.Token token) message friendUserID in
        match err with
        | Some err => ret (Some (Errorf "failed to send message: %v" err))
        | None =>
            out (Printf "✅ Message sent successfully to %s!\n" [AStr friendUsername]) ;;;
            out (Println "🔄 Refreshing conversation to show your message...") ;;;
            let* err := fetchConversation token friend in
            match err with
            | Some err => out (Printf "Error refreshing conversation: %v\n" [AErr err])
            | None => ret tt
            end ;;;
            ret None
        end
  end.

(** ** Conversation: the key loop *)

(** How one round of the loop ends: [return], or on to the next read with
    the current [oldState]. *)
Inductive Ctl := Return | Next (oldState : option termios).

Definition promptKeys : Event :=
  Println "\nPress CTRL+R to refresh conversation, CTRL+S to send message, or CTRL+C to exit...".

(** [oldState, err = makeRawForReceiveMessage(...)] and its [if err != nil]. *)
Definition reenterRaw : M Ctl :=
  let* (oldState, err) := makeRawForReceiveMessage in
  match err with
  | Some err =>
      out (Printf "Error setting terminal to raw mode: %v\n" [AErr err]) ;;;
      ret Return
  | None => ret (Next oldState)
  end.

(** [if buffer[0] == 18 { ... }] *)
Definition onCtrlR (token : TokenData.t) (friend : Friend.t)
    (oldState : option termios) : M Ctl :=
  restoreForReceiveMessage oldState ;;;
  out (Println "\n🔄 Refreshing conversation...") ;;;
  let* err := fetchConversation token friend in
  match err with
  | Some err => out (Printf "Error refreshing conversation: %v\n" [AErr err])
  | None => ret tt
  end ;;;
  out promptKeys ;;;
  reenterRaw.

(** [if buffer[0] == 19 { ... }] *)
Definition onCtrlS (token : TokenData.t) (friend : Friend.t)
    (oldState : option termios) : M Ctl :=
  restoreForReceiveMessage oldState ;;;
  out (Println "\n💬 Send Message Mode") ;;;
  let* err := handleSendMessage token friend in
  match err with
  | Some err => out (Printf "Error sending message: %v\n" [AErr err])
  | None => ret tt
  end ;;;
  out promptKeys ;;;
  reenterRaw.

(** The body of [if n > 0 { ... }]: three tests of [buffer[0]] in a row. *)
Definition onKey (token : TokenData.t) (friend : Friend.t)
    (b : byte) (oldState : option termios) : M Ctl :=
  let* c := (if (Byte.to_N b =? 18)%N then onCtrlR token friend oldState
             else ret (Next oldState)) in
  match c with
  | Return => ret Return
  | Next oldState =>
      let* c := (if (Byte.to_N b =? 19)%N then onCtrlS token friend oldState
                 else ret (Next oldState)) in
      match c with
      | Return => ret Return
      | Next oldState =>
          if (Byte.to_N b =? 3)%N then
            out (Println "\nExiting...") ;;;
            osExit 0
          else ret (Next oldState)
      end
  end.

(** The [for] loop of [waitForCtrlRInReceiveMessage]. *)
Fixpoint waitForCtrlRInReceiveMessage_loop (token : TokenData.t) (friend : Friend.t)
    (oldState : option termios) (keys : list KeyRead) : M unit :=
  match keys with
  | [] => fun w => Blocked w
  | KErr err :: _ => out (Printf "Error reading input: %v\n" [AErr err])
  | KNone :: keys' => waitForCtrlRInReceiveMessage_loop token friend oldState keys'
  | KByte b :: keys' =>
      let* c := onKey token friend b oldState in
      match c with
      | Return => ret tt
      | Next oldState => waitForCtrlRInReceiveMessage_loop token friend oldState keys'
      end
  end.

(** The deferred [restoreForReceiveMessage] keeps the [oldState] of the
    [defer] statement: later assignments to the variable do not reach it. *)
Definition waitForCtrlRInReceiveMessage (token : TokenData.t) (friend : Friend.t)
    (keys : list KeyRead) : M unit :=
  let* (oldState, err) := makeRawForReceiveMessage in
  match err with
  | Some err => out (Printf "Error setting terminal to raw mode: %v\n" [AErr err])
  | None =>
      defer (restoreForReceiveMessage oldState)
        (waitForCtrlRInReceiveMessage_loop token friend oldState keys)
  end.

End Flows.

(** ** Observations on a trace *)

Definition isEnter (e : Event) : bool :=
  match e with MakeRaw (Some _) => true | _ => false end.
Definition isRestore (e : Event) : bool :=
  match e with Restore _ => true | _ => false end.
Definition isHttp (e : Event) : bool :=
  match e with Http _ => true | _ => false end.
Definition isOutput (e : Event) : bool :=
  match e with Print _ | Println _ | Printf _ _ => true | _ => false end.

(** Successful raw-mode entries, calls of restore, requests to the back end. *)
Definition enters (l : list Event) : nat := length (List.filter isEnter l).
Definition restores (l : list Event) : nat := length (List.filter isRestore l).
Definition httpCalls (l : list Event) : list Event := List.filter isHttp l.

(** Canonical input and echo are both on / both off. *)
Definition cooked (t : termios) : bool := Z.land (Lflag t) (Z.lor ICANON ECHO) =? Z.lor ICANON ECHO.
Definition raw (t : termios) : bool := Z.land (Lflag t) (Z.lor ICANON ECHO) =? 0.

(** ** Sample data *)

Definition nl : string := String "010" "".

Definition cookedTermios : termios :=
  mkTermios 0x4500 0x5 0xbf 0x8a3b (replicate 20 0) 0xf 0xf.

Definition terminal0 : Terminal := mkTerminal true cookedTermios [].
Definition pipe0 : Terminal := mkTerminal false zeroTermios [].

Definition token0 : TokenData.t := TokenData.mk "tok" "3600" "u1" "alice".
Definition friend0 : Friend.t := Friend.mk "u2" "bob" "2025-01-01" 7 "" "".

Definition request0 (id : Z) (status : string) : IncomingFriendRequest.t :=
  IncomingFriendRequest.mk "u1" "alice" "" id "u9" "carol" status "2025-01-01 10:00:00".

Definition requests0 : list IncomingFriendRequest.t :=
  [request0 1 "accepted"; request0 2 "pending"; request0 3 "rejected"].

Definition world0 : World := mkWorld terminal0 [] [] [].

(** [s] spells [word] with each letter in either case. *)
Definition upperByte (c : ascii) : ascii :=
  if ((97 <=? byteval c) && (byteval c <=? 122))%N then ascii_of_N (byteval c - 32) else c.

Fixpoint isCapitalizationOf (word s : string) : bool :=
  match word, s with
  | EmptyString, EmptyString => true
  | String a word', String b s' =>
      (Ascii.eqb b a || Ascii.eqb b (upperByte a)) && isCapitalizationOf word' s'
  | _, _ => false
  end.

(** A word [strings.ToLower] leaves alone whatever the case of its letters:
    ASCII, no upper-case byte. *)
Definition isLowerWord (word : string) : bool :=
  allb isASCII word && negb (existsb isUpper word).

(** The statuses of the data model. *)
Definition knownStatus (s : string) : Prop :=
  s = "pending" \/ s = "accepted" \/ s = "rejected".

(** ** Vocabulary of the statements *)

(** The events of a loop that emits one event per element. *)
Fixpoint eventsFrom {A} (f : nat -> A -> Event) (i : nat) (l : list A) : list Event :=
  match l with
  | [] => []
  | x :: l' => f i x :: eventsFrom f (S i) l'
  end.

(** Bytes no key loop gives a meaning to. *)
Definition unrecognized (b : byte) : Prop :=
  Byte.to_N b <> 18%N /\ Byte.to_N b <> 19%N /\ Byte.to_N b <> 3%N.

Definition setupFailed : string := "Error setting terminal to raw mode: %v\n".

Definition answeredOK (r : Reply) : Prop := forall e, r <> ReplyErr e.



Definition printsOnly (m : M unit) : Prop :=
  forall w, exists evs,
    forallb isOutput evs = true /\
    m w = Done tt (mkWorld (tty w) (lines w) (replies w) (log w ++ evs)).

(** What [handleSendMessage] prints before it reads the message. *)
Definition composePrompt (friend : Friend.t) : list Event :=
  [Printf "Sending message to: %s\n" [AStr (Friend.GetUsername friend)];
   Print "Enter your message: "].

(** The numbered list, one line per eligible request. *)
Definition menuFrom (i : nat) (l : list IncomingFriendRequest.t) : list Event :=
  eventsFrom menuLine i l.

(** What the respond sub-flow prints up to its first read. *)
Definition respondMenu (u : Unicode) (requests : list IncomingFriendRequest.t) : list Event :=
  ([Println "\n=== Respond to Friend Requests ===";
    Println "Available requests (pending/rejected only):"] ++
   menuFrom 0 (respondable u requests) ++
   [Print "\nEnter the number of the request to respond to: "])%list.

(** The selection is no number, or a number outside [1, count]. *)
Definition invalidSelection (count : nat) (input : string) : Prop :=
  Atoi input = None \/
  exists n, Atoi input = Some n /\ (n < 1 \/ n > Z.of_nat count).

Definition incomingURL : string :=
  "https://wasalbackend-production.up.railway.app/auth/get_incoming_friend_requests".

(** A terminal-less standard input, and a back end with three requests. *)
Definition pipeWorld : World :=
  mkWorld pipe0 []
    [ReplyIncoming (IncomingFriendRequestsResponse.mk requests0 3 "" "u1")] [].

(** Code that neither enters raw mode nor restores: whatever way it ends,
    it has added no such call to the trace. *)
Definition quiet {A} (m : M A) : Prop :=
  forall w, exists evs,
    log (world_of (m w)) = (log w ++ evs)%list /\
    enters evs = 0%nat /\ restores evs = 0%nat.

(** Restore calls number the successful entries, or one more. *)
Definition restoredEach (evs : list Event) : Prop :=
  restores evs = enters evs \/ restores evs = S (enters evs).

(** A terminal whose fourth ioctl fails with EIO: raw mode is entered
    once and cannot be entered again. *)
Definition failingTerminal : Terminal := mkTerminal true cookedTermios [0; 0; 0; 5].

Definition readFailed : string := "Error reading input: %v\n".

(** A key read [waitForCtrlR] passes over: no byte, or a byte that is
    neither 18 nor 3. *)
Definition passedOver (k : KeyRead) : Prop :=
  match k with
  | KNone => True
  | KByte b => Byte.to_N b <> 18%N /\ Byte.to_N b <> 3%N
  | KErr _ => False
  end.

(** The ways a key loop function returns, read off what it added to the
    trace: raw mode could not be set up; a key read failed; raw mode could
    not be entered again after an action. *)
Definition setupFailedTrace (evs : list Event) : Prop :=
  exists e, evs = [MakeRaw None; Printf setupFailed [AErr e]].

Definition readFailedTrace (evs : list Event) : Prop :=
  exists pre e oldState,
    evs = (pre ++ [Printf readFailed [AErr e]; Restore oldState])%list.

Definition reentryFailedTrace (evs : list Event) : Prop :=
  exists pre e oldState,
    evs = (pre ++ [MakeRaw None; Printf setupFailed [AErr e]; Restore oldState])%list.

(** One action of the conversation loop that returns: restore, output and
    requests, then the attempt to enter raw mode again. *)
Definition actionTrace (oldState : option termios) (c : Ctl) (evs : list Event) : Prop :=
  exists mid,
    enters mid = 0%nat /\ restores mid = 0%nat /\
    match c with
    | Next _ => exists s, evs = (Restore oldState :: mid ++ [MakeRaw (Some s)])%list
    | Return =>
        exists e, evs = (Restore oldState :: mid ++
                           [MakeRaw None; Printf setupFailed [AErr e]])%list
    end.

(** How the loop of [waitForCtrlRInReceiveMessage] returns: a key read
    failed, with as many restores as entries since the loop began; or raw
    mode could not be entered again after an action, with one restore more. *)
Definition loopReturn (evs : list Event) : Prop :=
  (restores evs = enters evs /\
   exists pre e, evs = (pre ++ [Printf readFailed [AErr e]])%list) \/
  (restores evs = S (enters evs) /\
   exists pre e, evs = (pre ++ [MakeRaw None; Printf setupFailed [AErr e]])%list).

(** The first key read [waitForCtrlR] does not pass over is a failed read,
    or the respond key. *)
Definition readFailedFirst (keys : list KeyRead) : Prop :=
  exists pre e rest, keys = (pre ++ KErr e :: rest)%list /\ Forall passedOver pre.

Definition respondKeyFirst (keys : list KeyRead) : Prop :=
  exists pre b rest,
    keys = (pre ++ KByte b :: rest)%list /\ Byte.to_N b = 18%N /\ Forall passedOver pre.

(** What the respond sub-flow prints once a request is selected. *)
Definition actionMenu (selected : IncomingFriendRequest.t) : list Event :=
  [Printf "\nSelected request from: %s\n"
     [AStr (IncomingFriendRequest.SenderUsername selected)];
   Println "1. Accept";
   Println "2. Reject";
   Print "Enter your choice (1 or 2): "].

(** ** More of the two files: friends, conversations, menus

    The functions below take as arguments what the environment hands them
    outside standard input and the back-end calls of the world: the word
    [fmt.Scanln] left in [choice] (its error is dropped by the code), the
    result of reading the token file, and the results of
    [fetchFriendsFromAPI] and [fetchOutgoingFriendRequests]. *)

Module FriendsData.
Record t := mk { Friends : list Friend.t }.
End FriendsData.

Module Message.
Record t := mk {
  Direction : string;
  IsRead : bool;
  Message : string;
  MessageID : Z;
  Recipient : string;
  Sender : string;
  Timestamp : string
}.
End Message.

Module ConversationResponse.
Record t := mk {
  Conversation : list Message.t;
  Participants : list string;
  TotalMessages : Z
}.
End ConversationResponse.

Module OutgoingFriendRequest.
Record t := mk {
  RecipientUserID : string;
  RecipientUsername : string;
  RequestData : string;
  RequestID : Z;
  SenderUserID : string;
  SenderUsername : string;
  Status : string;
  Timestamp : string
}.
End OutgoingFriendRequest.

Module OutgoingFriendRequestsResponse.
Record t := mk {
  OutgoingRequests : list OutgoingFriendRequest.t;
  TotalOutgoing : Z;
  Message : string;
  UserID : string
}.
End OutgoingFriendRequestsResponse.

(** [%d] of a length. *)
Definition decimal (n : nat) : string := NilEmpty.string_of_uint (Nat.to_uint n).

(** [selectFriendForReceiveMessage]; [&friends.Friends[choiceNum-1]] is the
    friend at that index, and an index out of range would panic. *)
Definition selectFriendForReceiveMessage (friends : FriendsData.t) (choice : string)
  : M (option Friend.t * option error) :=
  out (Println "\n--- Your Friends ---") ;;;
  forRange (fun i friend =>
    let username := Friend.GetUsername friend in
    let userID := Friend.GetUserID friend in
    out (Printf "%d. %s (ID: %s)\n" [AInt (Z.of_nat i + 1); AStr username; AStr userID]))
    0%nat (FriendsData.Friends friends) ;;;
  out (Print "\nEnter the number of the friend whose conversation you want to view: ") ;;;
  match Atoi choice with
  | None => ret (None, Some (ErrorString "invalid choice: please enter a number"))
  | Some choiceNum =>
      if (choiceNum <? 1) || (choiceNum >? Z.of_nat (length (FriendsData.Friends friends)))
      then ret (None,
                Some (ErrorString
                        ("invalid choice: please select a number between 1 and " ++
                         decimal (length (FriendsData.Friends friends)))))
      else
        match FriendsData.Friends friends !! Z.to_nat (choiceNum - 1) with
        | None => panic
        | Some selectedFriend =>
            out (Printf "Selected: %s\n" [AStr (Friend.GetUsername selectedFriend)]) ;;;
            ret (Some selectedFriend, None)
        end
  end.

(** [displayFriendRequestMenu] *)
Definition displayFriendRequestMenu (choice : string) : M (Z * option error) :=
  out (Println "\n=== Friend Requests Management ===") ;;;
  out (Println "1. View Incoming Friend Requests") ;;;
  out (Println "2. View Outgoing Friend Requests") ;;;
  out (Print "\nEnter your choice (1 or 2): ") ;;;
  match Atoi choice with
  | None => ret (0, Some (ErrorString "invalid choice: please enter a number"))
  | Some choiceNum =>
      if (choiceNum <? 1) || (choiceNum >? 2)
      then ret (0, Some (ErrorString "invalid choice: please select 1 or 2"))
      else ret (choiceNum, None)
  end.

Definition displayOutgoingFriendRequests (response : OutgoingFriendRequestsResponse.t) : M unit :=
  let requests := OutgoingFriendRequestsResponse.OutgoingRequests response in
  out (Printf "\n=== Outgoing Friend Requests ===\n" []) ;;;
  (if negb (OutgoingFriendRequestsResponse.Message response =? "")%string
   then out (Printf "Message: %s\n" [AStr (OutgoingFriendRequestsResponse.Message response)])
   else ret tt) ;;;
  out (Printf "Total outgoing requests: %d\n"
         [AInt (OutgoingFriendRequestsResponse.TotalOutgoing response)]) ;;;
  out (Printf "Your User ID: %s\n" [AStr (OutgoingFriendRequestsResponse.UserID response)]) ;;;
  if (length requests =? 0)%nat then
    out (Printf "No outgoing friend requests found.\n" [])
  else
    out (Println "─────────────────────────────────────────────────") ;;;
    forRange (fun i request =>
      out (Printf "\n%d. Request ID: %d\n"
             [AInt (Z.of_nat i + 1); AInt (OutgoingFriendRequest.RequestID request)]) ;;;
      out (Printf "   From: %s (ID: %s)\n"
             [AStr (OutgoingFriendRequest.SenderUsername request);
              AStr (OutgoingFriendRequest.SenderUserID request)]) ;;;
      out (Printf "   To: %s (ID: %s)\n"
             [AStr (OutgoingFriendRequest.RecipientUsername request);
              AStr (OutgoingFriendRequest.RecipientUserID request)]) ;;;
      out (Printf "   Status: %s\n" [AStr (OutgoingFriendRequest.Status request)]) ;;;
      out (Printf "   Timestamp: %s\n" [AStr (OutgoingFriendRequest.Timestamp request)]) ;;;
      out (Printf "   Request Data: %s\n" [AStr (OutgoingFriendRequest.RequestData request)]) ;;;
      if Z.of_nat i <? Z.of_nat (length requests) - 1 then
        out (Println "   ─────────────────────────────")
      else ret tt) 0%nat requests ;;;
    out (Printf "\n=== End of Outgoing Friend Requests ===\n" []).

(** [handleOutgoingRequests], on the result of [fetchOutgoingFriendRequests]. *)
Definition handleOutgoingRequests (fetched : OutgoingFriendRequestsResponse.t + error)
  : M (option error) :=
  out (Println "\n📤 Fetching outgoing friend requests...") ;;;
  match fetched with
  | inr err => ret (Some (Errorf "failed to fetch outgoing requests: %v" err))
  | inl requests =>
      displayOutgoingFriendRequests requests ;;;
      ret None
  end.

(** One run through the body of [manageFriendRequests]: the token file as
    read, and the word typed at the menu. *)
Definition Round : Type := (TokenData.t + error) * string.

(** [manageFriendRequests]; the [default] branch calls the function again,
    which reads the token and the menu choice anew: one round each.  With
    no round left the call waits for input. *)
Fixpoint manageFriendRequests (u : Unicode) (rounds : list Round)
    (outgoing : OutgoingFriendRequestsResponse.t + error) (keys : list KeyRead)
  : M (option error) :=
  match rounds with
  | [] => fun w => Blocked w
  | (inr err, _) :: _ =>
      out (Printf "Error reading token: %v\n" [AErr err]) ;;;
      osExit 1
  | (inl token, typed) :: rounds' =>
      let* (choice, err) := displayFriendRequestMenu typed in
      match err with
      | Some err =>
          out (Printf "Error getting user choice: %v\n" [AErr err]) ;;;
          osExit 1
      | None =>
          let afterSwitch (err : option error) : M (option error) :=
            match err with
            | Some err =>
                out (Printf "Error handling friend requests: %v\n" [AErr err]) ;;;
                osExit 1
            | None => ret None
            end in
          if choice =? 1 then
            let* err := handleIncomingRequests u token keys in
            afterSwitch err
          else if choice =? 2 then
            let* err := handleOutgoingRequests outgoing in
            afterSwitch err
          else
            out (Println "Invalid choice. Please try again.") ;;;
            manageFriendRequests u rounds' outgoing keys
      end
  end.

(** [receive_message], on the token file as read, the result of
    [fetchFriendsFromAPI] and the word typed at the friends list. *)
Definition receive_message (u : Unicode) (tokenRead : TokenData.t + error)
    (friendsFetched : FriendsData.t + error) (choice : string) (keys : list KeyRead)
  : M (option error) :=
  match tokenRead with
  | inr err =>
      out (Printf "Error reading token: %v\n" [AErr err]) ;;;
      osExit 1
  | inl token =>
      match friendsFetched with
      | inr err =>
          out (Printf "Error fetching friends: %v\n" [AErr err]) ;;;
          osExit 1
      | inl friends =>
          if (length (FriendsData.Friends friends) =? 0)%nat then
            out (Println "No friends found in your friends list.") ;;;
            osExit 1
          else
            let* (selectedFriend, err) := selectFriendForReceiveMessage friends choice in
            match err with
            | Some err =>
                out (Printf "Error selecting friend: %v\n" [AErr err]) ;;;
                osExit 1
            | None =>
                match selectedFriend with
                | None => panic
                | Some selectedFriend =>
                    let* err := fetchConversation token selectedFriend in
                    match err with
                    | Some err =>
                        out (Printf "Error fetching conversation: %v\n" [AErr err]) ;;;
                        osExit 1
                    | None =>
                        out promptKeys ;;;
                        waitForCtrlRInReceiveMessage u token selectedFriend keys ;;;
                        ret None
                    end
                end
            end
      end
  end.

(** What the clock and the time formats give [displayConversation]. *)
Record Clock := mkClock {
  (** [time.Now().Format("Jan 2, 2006 at 3:04 PM")] *)
  lastUpdated : string;
  (** [time.Parse("2006-01-02 15:04:05", s)] and, when it succeeds,
      [timestamp.Format("Jan 2, 2006 at 3:04 PM")] *)
  reformat : string -> option string
}.

(** [strings.Repeat] *)
Fixpoint Repeat (s : string) (count : nat) : string :=
  match count with
  | O => EmptyString
  | S n => s ++ Repeat s n
  end.

(** [%v] of a [[]string]. *)
Definition formatStrings (l : list string) : string :=
  "[" ++ String.concat " " l ++ "]".

(** The test of the filter loop of [displayConversation]. *)
Definition exchanged (token : TokenData.t) (friendUserID : string) (msg : Message.t) : bool :=
  ((Message.Sender msg =? TokenData.UserID token)%string &&
   (Message.Recipient msg =? friendUserID)%string) ||
  ((Message.Sender msg =? friendUserID)%string &&
   (Message.Recipient msg =? TokenData.UserID token)%string).

Definition filteredMessages (token : TokenData.t) (friendUserID : string)
    (conversation : list Message.t) : list Message.t :=
  fold_left
    (fun filtered msg =>
       if exchanged token friendUserID msg then (filtered ++ [msg])%list else filtered)
    conversation [].

(** The body of the display loop of [displayConversation]. *)
Definition displayMessage (clock : Clock) (token : TokenData.t) (friendUsername : string)
    (msg : Message.t) : M unit :=
  let timeStr :=
    match reformat clock (Message.Timestamp msg) with
    | None => Message.Timestamp msg
    | Some formatted => formatted
    end in
  (if (Message.Sender msg =? TokenData.UserID token)%string then
     out (Printf "📤 [%s] You: %s\n" [AStr timeStr; AStr (Message.Message msg)]) ;;;
     if negb (Message.IsRead msg) then out (Printf "   Status: Delivered\n" [])
     else out (Printf "   Status: Read\n" [])
   else
     out (Printf "📥 [%s] %s: %s\n"
            [AStr timeStr; AStr friendUsername; AStr (Message.Message msg)]) ;;;
     if negb (Message.IsRead msg) then out (Printf "   Status: Unread\n" [])
     else out (Printf "   Status: Read\n" [])) ;;;
  out (Printf "   Message ID: %d\n" [AInt (Message.MessageID msg)]) ;;;
  out (Println (Repeat "-" 40)).

(** [displayConversation], which [fetchConversation] calls on a decoded
    answer. *)
Definition displayConversation (clock : Clock) (token : TokenData.t) (friend : Friend.t)
    (conversation : ConversationResponse.t) : M unit :=
  let friendUsername := Friend.GetUsername friend in
  let friendUserID := Friend.GetUserID friend in
  out (Printf "\n=== Conversation with %s ===\n" [AStr friendUsername]) ;;;
  out (Printf "Total messages in conversation: %d\n"
         [AInt (ConversationResponse.TotalMessages conversation)]) ;;;
  out (Printf "Participants: %v\n"
         [AStr (formatStrings (ConversationResponse.Participants conversation))]) ;;;
  out (Printf "Last updated: %s\n" [AStr (lastUpdated clock)]) ;;;
  out (Println (Repeat "=" 50)) ;;;
  let filtered :=
    filteredMessages token friendUserID (ConversationResponse.Conversation conversation) in
  if (length filtered =? 0)%nat then
    out (Printf "No messages found between you and %s.\n" [AStr friendUsername])
  else
    out (Printf "\nMessages between you and %s (%d messages):\n\n"
           [AStr friendUsername; AInt (Z.of_nat (length filtered))]) ;;;
    forRange (fun _ msg => displayMessage clock token friendUsername msg) 0%nat filtered ;;;
    out (Printf "\nEnd of conversation with %s\n" [AStr friendUsername]).

(** ** Vocabulary of the further statements *)

(** The settings [makeRaw] writes: its [newState]. *)
Definition rawOf (s : termios) : termios :=
  mkTermios (Iflag s) (Oflag s) (Cflag s)
    (Z.ldiff (Lflag s) (Z.lor ICANON ECHO))
    (<[VTIME := 0]> (<[VMIN := 1]> (Cc s)))
    (Ispeed s) (Ospeed s).

(** A terminal with no failure ahead. *)
Definition sound (t : Terminal) : Prop := isatty t = true /\ faults t = [].

(** How the kernel reads the bytes of the struct, for the requests 0x5401
    and 0x5402 (Linux, [struct termios] of asm-generic/termbits.h): after
    the four flag words comes the line discipline, one byte, and then the
    19 control characters.  The struct of the program declares no line
    discipline, so its [Cc] begins one byte early: [Cc[0]] is the line
    discipline and [Cc[i+1]] is control character [i] of the device. *)
Module Kernel.
Definition VEOF : nat := 4.
Definition VTIME : nat := 5.
Definition VMIN : nat := 6.
Definition c_line (t : termios) : option Z := Cc t !! 0%nat.
Definition c_cc (t : termios) (i : nat) : option Z := Cc t !! S i.
End Kernel.

(** Settings of a terminal as a login shell finds them, in the struct of
    the program: line discipline 0, then the control characters (interrupt
    3, quit 28, erase 127, kill 21, end of file 4, time 0, min 1, ...). *)
Definition shellTermios : termios :=
  mkTermios 0x4500 0x5 0xbf 0x8a3b
    [0; 3; 28; 127; 21; 4; 0; 1; 0; 17; 19; 26; 0; 18; 15; 23; 22; 0; 0; 0] 0 0.

(** The rest of [handleFriendRequestResponse] once [selectedRequest] is
    set: the accept/reject menu, the second line read, the request. *)
Definition afterSelection (u : Unicode) (token : TokenData.t)
    (selectedRequest : IncomingFriendRequest.t) : M unit :=
  let sender := IncomingFriendRequest.SenderUsername selectedRequest in
  out (Printf "\nSelected request from: %s\n" [AStr sender]) ;;;
  out (Println "1. Accept") ;;;
  out (Println "2. Reject") ;;;
  out (Print "Enter your choice (1 or 2): ") ;;;
  let* r := ReadString in
  match r with
  | LErr err => out (Printf "Error reading input: %v\n" [AErr err])
  | LLine actionInput =>
      let actionInput := TrimSpace u actionInput in
      match Atoi actionInput with
      | None => out (Println "Invalid choice.")
      | Some actionChoice =>
          if negb (actionChoice =? 1) && negb (actionChoice =? 2)
          then out (Println "Invalid choice.")
          else
            let action := if actionChoice =? 1 then "accept" else "reject" in
            let* err := respondToFriendRequest token sender action in
            match err with
            | Some err =>
                out (Printf "Error responding to friend request: %v\n" [AErr err])
            | None =>
                out (Printf "Successfully %sed friend request from %s!\n"
                       [AStr action; AStr sender]) ;;;
                out (Println "Program will now exit.")
            end
      end
  end.

(** What the sub-flow prints after the answer to its request. *)
Definition respondReport (action sender : string) (r : Reply) : list Event :=
  match r with
  | ReplyErr e => [Printf "Error responding to friend request: %v\n" [AErr e]]
  | _ => [Printf "Successfully %sed friend request from %s!\n" [AStr action; AStr sender];
          Println "Program will now exit."]
  end.

(** The action choice is no number, or a number other than 1 and 2. *)
Definition invalidAction (input : string) : Prop :=
  Atoi input = None \/ exists n, Atoi input = Some n /\ n <> 1 /\ n <> 2.

(** At most one request, which answers an eligible friend request with
    accept or reject. *)
Definition respondsToEligible (u : Unicode) (token : TokenData.t)
    (requests : list IncomingFriendRequest.t) (evs : list Event) : Prop :=
  httpCalls evs = [] \/
  exists selected action,
    In selected (respondable u requests) /\
    (action = "accept" \/ action = "reject") /\
    httpCalls evs =
      [Http (PostRespondFriendRequest (TokenData.Token token)
               (IncomingFriendRequest.SenderUsername selected) action)].

(** The terminal in raw mode with [s] saved, and back at [s]; no failure
    ahead in either. *)
Definition raised (s : termios) : Terminal := mkTerminal true (rawOf s) [].
Definition lowered (s : termios) : Terminal := mkTerminal true s [].



(** Code that leaves the terminal device alone. *)
Definition keepsTty {A} (m : M A) : Prop :=
  forall w, tty (world_of (m w)) = tty w.

(** The numbered friends list and the prompt under it. *)
Definition friendLine (i : nat) (friend : Friend.t) : Event :=
  Printf "%d. %s (ID: %s)\n"
    [AInt (Z.of_nat i + 1); AStr (Friend.GetUsername friend); AStr (Friend.GetUserID friend)].

Definition friendsMenu (friends : FriendsData.t) : list Event :=
  ([Println "\n--- Your Friends ---"] ++
   eventsFrom friendLine 0 (FriendsData.Friends friends) ++
   [Print "\nEnter the number of the friend whose conversation you want to view: "])%list.

(** The word typed is no number, or a number outside [1, count]. *)
Definition invalidChoice (count : nat) (choice : string) : Prop :=
  Atoi choice = None \/
  exists n, Atoi choice = Some n /\ (n < 1 \/ n > Z.of_nat count).

(** The error [selectFriendForReceiveMessage] returns for such a word. *)
Definition choiceError (count : nat) (choice : string) : error :=
  match Atoi choice with
  | None => ErrorString "invalid choice: please enter a number"
  | Some _ =>
      ErrorString ("invalid choice: please select a number between 1 and " ++ decimal count)
  end.

(** What [displayFriendRequestMenu] prints. *)
Definition requestsMenu : list Event :=
  [Println "\n=== Friend Requests Management ===";
   Println "1. View Incoming Friend Requests";
   Println "2. View Outgoing Friend Requests";
   Print "\nEnter your choice (1 or 2): "].

(** The word typed at that menu is no number, or a number other than 1 and 2. *)
Definition invalidMenuChoice (typed : string) : Prop :=
  Atoi typed = None \/ exists n, Atoi typed = Some n /\ (n < 1 \/ n > 2).

(** The error [displayFriendRequestMenu] returns for such a word. *)
Definition menuError (typed : string) : error :=
  match Atoi typed with
  | None => ErrorString "invalid choice: please enter a number"
  | Some _ => ErrorString "invalid choice: please select 1 or 2"
  end.

(** The message ids an output shows, in the order of their lines. *)
Definition shownID (e : Event) : option Z :=
  match e with
  | Printf fmt [AInt id] =>
      if (fmt =? "   Message ID: %d\n")%string then Some id else None
  | _ => None
  end.

Definition shownIDs (evs : list Event) : list Z :=
  flat_map (fun e => match shownID e with Some id => [id] | None => [] end) evs.

(** * Properties *)

(** ** Strings *)

Lemma lowerByte_cases (a b : ascii) :
  isASCII a = true -> isUpper a = false ->
  (Ascii.eqb b a || Ascii.eqb b (upperByte a)) = true ->
  isASCII b = true /\ lowerByte b = a /\ (isUpper b = false -> b = a).
Proof.
  intros Ha Hu Hb.
  apply orb_true_iff in Hb as [Hb | Hb]; apply Ascii.eqb_eq in Hb; subst b.
  - unfold lowerByte. rewrite Hu. auto.
  - revert Ha Hu.
    destruct a as [[] [] [] [] [] [] [] []]; vm_compute; intros; try discriminate;
      repeat split; auto; intros; discriminate.
Qed.

Lemma capitalization_scan (word s : string) :
  isLowerWord word = true -> isCapitalizationOf word s = true ->
  allb isASCII s = true /\ mapBytes lowerByte s = word /\
  (existsb isUpper s = false -> s = word).
Proof.
  unfold isLowerWord. revert s.
  induction word as [| a word IH]; intros [| b s] Hw Hc; simpl in *; try discriminate; auto.
  apply andb_true_iff in Hw as [Hw1 Hw2].
  apply andb_true_iff in Hw1 as [Ha Hw1].
  apply negb_true_iff, orb_false_iff in Hw2 as [Hu Hw2].
  apply andb_true_iff in Hc as [Hb Hc].
  destruct (lowerByte_cases a b Ha Hu Hb) as (Hb1 & Hb2 & Hb3).
  destruct (IH s) as (IH1 & IH2 & IH3); auto.
  { rewrite Hw1, Hw2. reflexivity. }
  rewrite Hb1, IH1, Hb2, IH2. repeat split; auto.
  intros Hx. apply orb_false_iff in Hx as [Hx1 Hx2].
  rewrite (Hb3 Hx1), (IH3 Hx2). reflexivity.
Qed.

Lemma ToLower_capitalization (u : Unicode) (word s : string) :
  isLowerWord word = true -> isCapitalizationOf word s = true ->
  ToLower u s = word.
Proof.
  intros Hw Hc. destruct (capitalization_scan word s Hw Hc) as (H1 & H2 & H3).
  unfold ToLower. rewrite H1.
  destruct (existsb isUpper s) eqn:E; auto.
Qed.

(** ** The eligibility filter *)

Section Filter.

Context (u : Unicode).

Lemma respondable_acc (requests acc : list IncomingFriendRequest.t) :
  fold_left
    (fun respondableRequests request =>
       if canRespond u request then (respondableRequests ++ [request])%list
       else respondableRequests)
    requests acc
  = (acc ++ List.filter (canRespond u) requests)%list.
Proof.
  revert acc. induction requests as [| r requests IH]; intros acc; simpl.
  - now rewrite app_nil_r.
  - rewrite IH. destruct (canRespond u r); simpl; auto.
    now rewrite <- app_assoc.
Qed.

Lemma respondable_filter (requests : list IncomingFriendRequest.t) :
  respondable u requests = List.filter (canRespond u) requests.
Proof. unfold respondable. now rewrite respondable_acc. Qed.

Lemma filter_sublist {A} (p : A -> bool) (l : list A) : sublist (List.filter p l) l.
Proof.
  induction l as [| x l IH]; simpl.
  - constructor.
  - destruct (p x); now constructor.
Qed.

Lemma canRespond_status (r : IncomingFriendRequest.t) :
  canRespond u r = true <->
  ToLower u (IncomingFriendRequest.Status r) = "pending" \/
  ToLower u (IncomingFriendRequest.Status r) = "rejected".
Proof.
  unfold canRespond. rewrite orb_true_iff, !String.eqb_eq. tauto.
Qed.

Lemma canRespond_known (r : IncomingFriendRequest.t) :
  knownStatus (IncomingFriendRequest.Status r) ->
  canRespond u r =
    ((IncomingFriendRequest.Status r =? "pending") ||
     (IncomingFriendRequest.Status r =? "rejected"))%string.
Proof.
  unfold canRespond. intros [H | [H | H]]; rewrite H; reflexivity.
Qed.

End Filter.

(** ** The world and the terminal *)

Lemma enters_app (l l' : list Event) : enters (l ++ l') = (enters l + enters l')%nat.
Proof. unfold enters. now rewrite List.filter_app, length_app. Qed.

Lemma restores_app (l l' : list Event) : restores (l ++ l') = (restores l + restores l')%nat.
Proof. unfold restores. now rewrite List.filter_app, length_app. Qed.

Lemma httpCalls_app (l l' : list Event) : httpCalls (l ++ l') = (httpCalls l ++ httpCalls l')%list.
Proof. unfold httpCalls. now rewrite List.filter_app. Qed.

Lemma raw_ldiff (flags : Z) : Z.land (Z.ldiff flags (Z.lor ICANON ECHO)) (Z.lor ICANON ECHO) = 0.
Proof. apply Z.land_ldiff. Qed.

Ltac crunch :=
  repeat (simpl;
    match goal with
    | H : (?x =? 0) = _ |- context [?x =? 0] => rewrite H
    | |- context [match ?fs with [] => _ | _ :: _ => _ end] => is_var fs; destruct fs
    | |- context [if negb (?x =? 0) then _ else _] => destruct (x =? 0) eqn:?
    | |- context [if negb ?b then _ else _] => is_var b; destruct b
    | |- context [match ?o with Some _ => _ | None => _ end] => is_var o; destruct o
    end).

Ltac nonzero :=
  first [ discriminate
        | match goal with H : (?x =? 0) = false |- ?x <> 0 => apply Z.eqb_neq; exact H end ].

Ltac raw_ok :=
  eexists; split;
  [ right; split; [reflexivity |];
    split; [unfold raw; simpl; rewrite raw_ldiff; reflexivity | reflexivity]
  | reflexivity ].

Ltac raw_fails :=
  eexists; split;
  [ left; eexists; split; [reflexivity |]; split; [nonzero | reflexivity]
  | reflexivity ].

(** [makeRaw] always returns: with an errno and the terminal as it was, or
    with the settings it found, the terminal now in raw mode. *)
Lemma makeRaw_spec (w : World) :
  exists t',
    ((exists n,
        makeRaw w = Done (None, Some (Errno n))
                      (mkWorld t' (lines w) (replies w) (log w ++ [MakeRaw None])) /\
        n <> 0 /\ settings t' = settings (tty w))
     \/
     (makeRaw w = Done (Some (settings (tty w)), None)
                    (mkWorld t' (lines w) (replies w)
                       (log w ++ [MakeRaw (Some (settings (tty w)))])) /\
      raw (settings t') = true /\ isatty t' = true))
    /\ isatty t' = isatty (tty w).
Proof.
  destruct w as [[tt0 st fs] ls rs lg].
  unfold makeRaw, bind, ioctl, out, ret, emit, set_tty.
  crunch; first [raw_ok | raw_fails].
Qed.

Ltac restore_case :=
  eexists _, _; split; [reflexivity |];
  simpl; repeat split; intros; congruence.

(** [restore] always returns; what it does to the device is up to the
    kernel, and a call that ends in an errno changes nothing. *)
Lemma restore_spec (oldState : option termios) (w : World) :
  exists err t',
    restore oldState w =
      Done err (mkWorld t' (lines w) (replies w) (log w ++ [Restore oldState])) /\
    isatty t' = isatty (tty w) /\
    (err <> None -> settings t' = settings (tty w)) /\
    (err = None -> oldState = Some (settings t')) /\
    (oldState = None -> err <> None).
Proof.
  destruct w as [[tt0 st fs] ls rs lg].
  unfold restore, bind, ioctl, out, ret, emit, set_tty.
  crunch; restore_case.
Qed.

Lemma makeRaw_sound (w : World) :
  sound (tty w) ->
  makeRaw w =
    Done (Some (settings (tty w)), None)
      (mkWorld (mkTerminal true (rawOf (settings (tty w))) []) (lines w) (replies w)
         (log w ++ [MakeRaw (Some (settings (tty w)))])).
Proof.
  destruct w as [[tt0 st fs] ls rs lg]. intros [Ht Hf]. simpl in *. subst.
  reflexivity.
Qed.

Lemma restore_sound (w : World) (s : termios) :
  sound (tty w) ->
  restore (Some s) w =
    Done None (mkWorld (mkTerminal true s []) (lines w) (replies w)
                 (log w ++ [Restore (Some s)])).
Proof.
  destruct w as [[tt0 st fs] ls rs lg]. intros [Ht Hf]. simpl in *. subst.
  reflexivity.
Qed.


Ltac wsimpl :=
  unfold emit, set_lines, set_replies, set_tty; simpl;
  rewrite <- ?app_assoc; simpl.

(** Unfold the monad and the collaborators, then compute. *)
Ltac run :=
  cbv beta iota zeta delta
    [bind ret out osExit panic ReadString roundTrip emit set_lines set_replies
     set_tty world_of sendMessageToFriend fetchConversation respondToFriendRequest
     fetchIncomingFriendRequests];
  simpl.

(** ** Compose and send *)

Section Compose.

Context (u : Unicode) (token : TokenData.t) (friend : Friend.t).

Lemma handleSendMessage_empty (w : World) (line : string) (rest : list LineRead) :
  lines w = LLine line :: rest ->
  TrimSpace u line = "" ->
  handleSendMessage u token friend w =
    Done None
      (mkWorld (tty w) rest (replies w)
         (log w ++ composePrompt friend ++
            [Println "Message cannot be empty. Message sending cancelled."])).
Proof.
  intros Hl Ht.
  unfold handleSendMessage. run.
  rewrite Hl; simpl. rewrite Ht; simpl.
  wsimpl. reflexivity.
Qed.

(** Every request [handleSendMessage] sends that posts a message carries
    the trimmed line read, and that body is not empty. *)
Lemma handleSendMessage_sends (w : World) :
  exists evs,
    log (world_of (handleSendMessage u token friend w)) = (log w ++ evs)%list /\
    forall tok body uid,
      In (Http (PostSendMessage tok body uid)) evs ->
      body <> "" /\
      exists line rest, lines w = LLine line :: rest /\ body = TrimSpace u line.
Proof.
  unfold handleSendMessage. run.
  destruct (lines w) as [| [line | err] rest] eqn:Hl; simpl.
  - eexists; split; [wsimpl; reflexivity |].
    simpl; intros; intuition discriminate.
  - destruct (TrimSpace u line =? "")%string eqn:Ht; run.
    + eexists; split; [wsimpl; reflexivity |].
      simpl; intros; intuition discriminate.
    + apply String.eqb_neq in Ht.
      assert (Hsent : forall tok body uid,
                 Http (PostSendMessage (TokenData.Token token) (TrimSpace u line)
                         (Friend.GetUserID friend)) = Http (PostSendMessage tok body uid) ->
                 body <> "" /\
                 exists line0 rest0,
                   LLine line :: rest = LLine line0 :: rest0 /\ body = TrimSpace u line0).
      { intros tok body uid E. inversion E; subst. split; eauto. }
      destruct (replies w) as [| r1 rs] eqn:Hr; run.
      * eexists; split; [wsimpl; reflexivity |].
        simpl; intros tok body uid H.
        repeat (destruct H as [H | H]; try discriminate; eauto). contradiction.
      * destruct r1 as [e | | resp]; run;
          try (eexists; split; [wsimpl; reflexivity |];
               simpl; intros tok body uid H;
               repeat (destruct H as [H | H]; try discriminate; eauto); contradiction);
          destruct rs as [| r2 rs]; run;
          try (eexists; split; [wsimpl; reflexivity |];
               simpl; intros tok body uid H;
               repeat (destruct H as [H | H]; try discriminate; eauto); contradiction);
          destruct r2 as [e2 | | resp2]; run;
          (eexists; split; [wsimpl; reflexivity |];
           simpl; intros tok body uid H;
           repeat (destruct H as [H | H]; try discriminate; eauto); contradiction).
  - eexists; split; [wsimpl; reflexivity |].
    simpl; intros; intuition discriminate.
Qed.

End Compose.

(** ** Monad steps *)

Lemma bind_done {A B} (m : M A) (k : A -> M B) (w w' : World) (a : A) :
  m w = Done a w' -> bind m k w = k a w'.
Proof. unfold bind. now intros ->. Qed.

Lemma forRange_out {A} (f : nat -> A -> Event) (body : nat -> A -> M unit)
    (l : list A) (i : nat) (w : World) :
  (forall i x w, body i x w = Done tt (emit (f i x) w)) ->
  forRange body i l w =
    Done tt (mkWorld (tty w) (lines w) (replies w) (log w ++ eventsFrom f i l)).
Proof.
  intros Hbody. revert i w. induction l as [| x l IH]; intros i w; simpl.
  - unfold ret. rewrite app_nil_r. now destruct w.
  - unfold bind. rewrite Hbody, IH. wsimpl. reflexivity.
Qed.

(** ** The respond sub-flow *)

Section Respond.

Context (u : Unicode) (token : TokenData.t).

Lemma respondable_nonempty (requests : list IncomingFriendRequest.t) :
  respondable u requests <> [] ->
  (length (respondable u requests) =? 0)%nat = false.
Proof.
  intros Hne. apply Nat.eqb_neq. intros H0.
  apply Hne. now apply length_zero_iff_nil.
Qed.

Lemma handleFriendRequestResponse_menu (requests : list IncomingFriendRequest.t) (w : World) :
  respondable u requests <> [] ->
  lines w = [] ->
  handleFriendRequestResponse u token requests w =
    Blocked (mkWorld (tty w) [] (replies w) (log w ++ respondMenu u requests)).
Proof.
  intros Hne Hl. unfold handleFriendRequestResponse, respondMenu, menuFrom.
  rewrite (respondable_nonempty requests Hne).
  run. rewrite (forRange_out menuLine) by reflexivity. run.
  rewrite Hl. wsimpl. reflexivity.
Qed.

Lemma handleFriendRequestResponse_invalid
    (requests : list IncomingFriendRequest.t) (w : World)
    (line : string) (rest : list LineRead) :
  respondable u requests <> [] ->
  lines w = LLine line :: rest ->
  invalidSelection (length (respondable u requests)) (TrimSpace u line) ->
  handleFriendRequestResponse u token requests w =
    Done tt (mkWorld (tty w) rest (replies w)
               (log w ++ respondMenu u requests ++ [Println "Invalid request number."])).
Proof.
  intros Hne Hl Hbad. unfold handleFriendRequestResponse, respondMenu, menuFrom.
  rewrite (respondable_nonempty requests Hne).
  run. rewrite (forRange_out menuLine) by reflexivity. run.
  rewrite Hl. simpl.
  destruct Hbad as [Hnone | (n & Hn & Hrange)].
  - rewrite Hnone. wsimpl. reflexivity.
  - rewrite Hn.
    assert (Hb : (n <? 1) || (n >? Z.of_nat (length (respondable u requests))) = true).
    { apply orb_true_iff.
      destruct Hrange; [left; apply Z.ltb_lt | right; apply Z.gtb_lt]; lia. }
    rewrite Hb. wsimpl. reflexivity.
Qed.

(** A selection within [1, count]: the request at that place of the
    eligible list is the one the sub-flow goes on with. *)
Lemma handleFriendRequestResponse_selected
    (requests : list IncomingFriendRequest.t) (w : World) (line : string) (n : Z) :
  lines w = [LLine line] ->
  Atoi (TrimSpace u line) = Some n ->
  1 <= n <= Z.of_nat (length (respondable u requests)) ->
  exists selected,
    respondable u requests !! Z.to_nat (n - 1) = Some selected /\
    handleFriendRequestResponse u token requests w =
      Blocked (mkWorld (tty w) [] (replies w)
                 (log w ++ respondMenu u requests ++ actionMenu selected)).
Proof.
  intros Hl Hn Hrange.
  assert (Hne : respondable u requests <> []).
  { intros E. rewrite E in Hrange. simpl in Hrange. lia. }
  destruct (lookup_lt_is_Some_2 (respondable u requests) (Z.to_nat (n - 1)))
    as (selected & Hsel); [lia |].
  exists selected. split; [exact Hsel |].
  unfold handleFriendRequestResponse, respondMenu, menuFrom, actionMenu.
  rewrite (respondable_nonempty requests Hne).
  run. rewrite (forRange_out menuLine) by reflexivity. run.
  rewrite Hl. simpl. rewrite Hn.
  assert (Hb : (n <? 1) || (n >? Z.of_nat (length (respondable u requests))) = false).
  { apply orb_false_iff. split; [apply Z.ltb_ge | rewrite Z.gtb_ltb; apply Z.ltb_ge]; lia. }
  rewrite Hb, Hsel. run. wsimpl. reflexivity.
Qed.

End Respond.

(** ** The key loops *)

Section Loops.

Context (u : Unicode) (token : TokenData.t).

Lemma loop_next (friend : Friend.t) (b : byte) (keys : list KeyRead)
    (oldState oldState' : option termios) (w w' : World) :
  onKey u token friend b oldState w = Done (Next oldState') w' ->
  waitForCtrlRInReceiveMessage_loop u token friend oldState (KByte b :: keys) w =
  waitForCtrlRInReceiveMessage_loop u token friend oldState' keys w'.
Proof. intros H. simpl. now rewrite (bind_done _ _ _ _ _ H). Qed.


Lemma loop_exit (friend : Friend.t) (b : byte) (keys : list KeyRead)
    (oldState : option termios) (code : Z) (w w' : World) :
  onKey u token friend b oldState w = Exit code w' ->
  waitForCtrlRInReceiveMessage_loop u token friend oldState (KByte b :: keys) w =
  Exit code w'.
Proof. intros H. simpl. unfold bind. now rewrite H. Qed.

Lemma onKey_unrecognized (friend : Friend.t) (b : byte)
    (oldState : option termios) (w : World) :
  unrecognized b ->
  onKey u token friend b oldState w = Done (Next oldState) w.
Proof.
  intros (H18 & H19 & H3). unfold onKey.
  apply N.eqb_neq in H18, H19, H3. rewrite H18, H19, H3. reflexivity.
Qed.

Lemma onKey_interrupt (friend : Friend.t) (oldState : option termios) (w : World) :
  onKey u token friend x03 oldState w = Exit 0 (emit (Println "\nExiting...") w).
Proof. reflexivity. Qed.

Lemma loop_skips (friend : Friend.t) (bs : list byte) (keys : list KeyRead)
    (oldState : option termios) (w : World) :
  Forall unrecognized bs ->
  waitForCtrlRInReceiveMessage_loop u token friend oldState (map KByte bs ++ keys) w =
  waitForCtrlRInReceiveMessage_loop u token friend oldState keys w.
Proof.
  induction 1 as [| b bs Hb Hbs IH]; [reflexivity |].
  change (map KByte (b :: bs) ++ keys)%list with (KByte b :: (map KByte bs ++ keys))%list.
  rewrite (loop_next friend b _ oldState oldState w w); auto.
  now apply onKey_unrecognized.
Qed.

Lemma waitForCtrlR_loop_skips (requests : list IncomingFriendRequest.t)
    (bs : list byte) (keys : list KeyRead) (oldState : option termios) (w : World) :
  Forall (fun b => Byte.to_N b <> 18%N /\ Byte.to_N b <> 3%N) bs ->
  waitForCtrlR_loop u token requests oldState (map KByte bs ++ keys) w =
  waitForCtrlR_loop u token requests oldState keys w.
Proof.
  induction 1 as [| b bs (H18 & H3) Hbs IH]; [reflexivity |].
  simpl. apply N.eqb_neq in H18, H3. rewrite H18, H3. exact IH.
Qed.

(** A failed setup: one line of output, then [return]. *)
Lemma waitForCtrlR_setup (requests : list IncomingFriendRequest.t) (keys : list KeyRead)
    (w w1 : World) (p : option termios) (e : error) :
  makeRaw w = Done (p, Some e) w1 ->
  waitForCtrlR u token requests keys w = Done tt (emit (Printf setupFailed [AErr e]) w1).
Proof. intros H. unfold waitForCtrlR. now rewrite (bind_done _ _ _ _ _ H). Qed.

Lemma waitForCtrlRInReceiveMessage_setup (friend : Friend.t) (keys : list KeyRead)
    (w w1 : World) (p : option termios) (e : error) :
  makeRaw w = Done (p, Some e) w1 ->
  waitForCtrlRInReceiveMessage u token friend keys w =
    Done tt (emit (Printf setupFailed [AErr e]) w1).
Proof.
  intros H. unfold waitForCtrlRInReceiveMessage, makeRawForReceiveMessage.
  now rewrite (bind_done _ _ _ _ _ H).
Qed.

(** The interrupt key as first key: the process exits inside the loop,
    the deferred restore never runs. *)
Lemma waitForCtrlRInReceiveMessage_interrupt (friend : Friend.t) (keys : list KeyRead)
    (w w1 : World) (saved : option termios) :
  makeRaw w = Done (saved, None) w1 ->
  waitForCtrlRInReceiveMessage u token friend (KByte x03 :: keys) w =
    Exit 0 (emit (Println "\nExiting...") w1).
Proof.
  intros H. unfold waitForCtrlRInReceiveMessage, makeRawForReceiveMessage.
  rewrite (bind_done _ _ _ _ _ H). unfold defer.
  now rewrite (loop_exit friend x03 keys saved 0 w1 _ (onKey_interrupt friend saved w1)).
Qed.

Lemma waitForCtrlR_interrupt (requests : list IncomingFriendRequest.t) (keys : list KeyRead)
    (w w1 : World) (saved : option termios) :
  makeRaw w = Done (saved, None) w1 ->
  waitForCtrlR u token requests (KByte x03 :: keys) w =
    Exit 0 (emit (Println "\nExiting...") w1).
Proof.
  intros H. unfold waitForCtrlR.
  rewrite (bind_done _ _ _ _ _ H). reflexivity.
Qed.

End Loops.

(** ** A message that is sent *)

Section Sent.

Context (u : Unicode) (token : TokenData.t) (friend : Friend.t).




End Sent.

(** ** Code that only prints *)

Lemma printsOnly_ret : printsOnly (ret tt).
Proof.
  intros w. exists []. split; [reflexivity |].
  unfold ret. rewrite app_nil_r. now destruct w.
Qed.

Lemma printsOnly_out (e : Event) : isOutput e = true -> printsOnly (out e).
Proof. intros He w. exists [e]. split; [simpl; now rewrite He | reflexivity]. Qed.

Lemma printsOnly_seq (m k : M unit) :
  printsOnly m -> printsOnly k -> printsOnly (m ;;; k).
Proof.
  intros Hm Hk w.
  destruct (Hm w) as (e1 & H1 & E1).
  destruct (Hk (mkWorld (tty w) (lines w) (replies w) (log w ++ e1))) as (e2 & H2 & E2).
  exists (e1 ++ e2)%list. split.
  - rewrite forallb_app, H1, H2. reflexivity.
  - unfold bind. rewrite E1, E2. simpl. now rewrite app_assoc.
Qed.

Lemma printsOnly_forRange {A} (body : nat -> A -> M unit) (l : list A) (i : nat) :
  (forall i x, printsOnly (body i x)) -> printsOnly (forRange body i l).
Proof.
  intros Hb. revert i. induction l as [| x l IH]; intros i; simpl.
  - apply printsOnly_ret.
  - apply printsOnly_seq; auto.
Qed.

Create HintDb prints.
#[local] Hint Resolve printsOnly_ret printsOnly_out printsOnly_seq : prints.

Lemma displayIncomingFriendRequests_prints (response : IncomingFriendRequestsResponse.t) :
  printsOnly (displayIncomingFriendRequests response).
Proof.
  unfold displayIncomingFriendRequests.
  repeat (apply printsOnly_seq; [auto with prints |]).
  - destruct (negb _); auto with prints.
  - destruct (_ =? _)%nat; [auto with prints |].
    repeat (apply printsOnly_seq; [auto with prints |]); auto with prints.
    apply printsOnly_forRange. intros i x.
    repeat (apply printsOnly_seq; [auto with prints |]).
    destruct (_ <? _); auto with prints.
Qed.

(** Whether [makeRaw] fails is decided by the terminal alone. *)
Lemma makeRaw_fails_tty (w w' w1 : World) (p : option termios) (e : error) :
  tty w' = tty w ->
  makeRaw w = Done (p, Some e) w1 ->
  makeRaw w' =
    Done (None, Some e) (mkWorld (tty w1) (lines w') (replies w') (log w' ++ [MakeRaw None])).
Proof.
  destruct w as [[tt0 st fs] ls rs lg], w' as [t' ls' rs' lg']. simpl. intros ->.
  unfold makeRaw, bind, ioctl, out, ret, emit, set_tty.
  crunch; intros H; inversion H; subst; reflexivity.
Qed.

Lemma outputs_no_switch (evs : list Event) :
  forallb isOutput evs = true ->
  enters evs = 0%nat /\ restores evs = 0%nat /\ httpCalls evs = [].
Proof.
  unfold enters, restores, httpCalls.
  induction evs as [| e evs IH]; simpl; [auto |].
  intros H. apply andb_true_iff in H as [He H].
  destruct (IH H) as (IH1 & IH2 & IH3).
  destruct e; simpl in *; try discriminate; auto.
Qed.

Lemma menu_is_output (l : list IncomingFriendRequest.t) (i : nat) :
  forallb isOutput (eventsFrom menuLine i l) = true.
Proof. revert i. induction l as [| r l IH]; intros i; simpl; auto. Qed.

Section Caller.

Context (u : Unicode) (token : TokenData.t).

(** [handleIncomingRequests] up to the key loop, when the terminal cannot
    be put in raw mode: the failure is printed, and nil is returned. *)
Lemma handleIncomingRequests_setup (keys : list KeyRead) (w w1 : World)
    (p : option termios) (e : error) (r : Reply) (rs : list Reply) :
  makeRaw w = Done (p, Some e) w1 ->
  replies w = r :: rs ->
  answeredOK r ->
  exists evs,
    forallb isOutput evs = true /\
    handleIncomingRequests u token keys w =
      Done None
        (mkWorld (tty w1) (lines w) rs
           (log w ++
            [Println "\n📥 Fetching incoming friend requests...";
             Http (GetIncomingFriendRequests (TokenData.Token token) incomingURL)] ++
            evs ++ [MakeRaw None; Printf setupFailed [AErr e]])).
Proof.
  intros Hm Hr Hok.
  set (resp := match r with
               | ReplyIncoming resp => resp
               | _ => IncomingFriendRequestsResponse.zero
               end).
  set (wa := mkWorld (tty w) (lines w) rs
               (log w ++
                [Println "\n📥 Fetching incoming friend requests...";
                 Http (GetIncomingFriendRequests (TokenData.Token token) incomingURL)])).
  destruct (displayIncomingFriendRequests_prints resp wa) as (ev1 & Hev1 & Hd).
  set (wb := mkWorld (tty wa) (lines wa) (replies wa) (log wa ++ ev1)) in *.
  set (wc := emit (Println "\nPress CTRL+R to respond to friend requests or CTRL+C to exit...") wb).
  assert (Hw := waitForCtrlR_setup u token
                  (IncomingFriendRequestsResponse.IncomingRequests resp) keys wc _ None e
                  (makeRaw_fails_tty w wc w1 p e eq_refl Hm)).
  exists (ev1 ++
          [Println "\nPress CTRL+R to respond to friend requests or CTRL+C to exit..."])%list.
  split.
  { rewrite forallb_app, Hev1. reflexivity. }
  assert (Hfetch : handleIncomingRequests u token keys w =
            bind (displayIncomingFriendRequests resp)
              (fun _ =>
                 out (Println "\nPress CTRL+R to respond to friend requests or CTRL+C to exit...") ;;;
                 waitForCtrlR u token
                   (IncomingFriendRequestsResponse.IncomingRequests resp) keys ;;;
                 ret None) wa).
  { unfold handleIncomingRequests. unfold bind at 1. unfold out at 1.
    unfold bind at 1. unfold fetchIncomingFriendRequests. unfold bind at 1.
    unfold roundTrip. simpl. rewrite Hr.
    subst resp wa. unfold incomingURL.
    destruct r as [e0 | | resp0]; [now destruct (Hok e0) | |];
      wsimpl; reflexivity. }
  rewrite Hfetch. unfold bind at 1. rewrite Hd.
  unfold bind at 1. unfold out at 1. fold wc.
  unfold bind at 1. rewrite Hw. unfold ret.
  subst wc wb wa. wsimpl. reflexivity.
Qed.

End Caller.

(** ** Code that leaves the terminal mode alone *)

Lemma quiet_ret {A} (a : A) : quiet (ret a).
Proof. intros w. exists []. simpl. now rewrite app_nil_r. Qed.

Lemma quiet_out (e : Event) : isEnter e = false -> isRestore e = false -> quiet (out e).
Proof.
  intros H1 H2 w. exists [e]. unfold enters, restores. simpl.
  now rewrite H1, H2.
Qed.

Lemma quiet_bind {A B} (m : M A) (k : A -> M B) :
  quiet m -> (forall a, quiet (k a)) -> quiet (bind m k).
Proof.
  intros Hm Hk w. destruct (Hm w) as (e1 & L1 & E1 & R1).
  unfold bind. destruct (m w) as [a w1 | c w1 | w1 | w1]; simpl in L1;
    try (exists e1; simpl; now auto).
  destruct (Hk a w1) as (e2 & L2 & E2 & R2).
  exists (e1 ++ e2)%list. rewrite L2, L1, enters_app, restores_app, E1, E2, R1, R2.
  now rewrite app_assoc.
Qed.

Lemma quiet_ReadString : quiet ReadString.
Proof.
  intros w. exists []. unfold ReadString.
  destruct (lines w); simpl; now rewrite app_nil_r.
Qed.

Lemma quiet_roundTrip (c : NetCall) : quiet (roundTrip c).
Proof.
  intros w. exists [Http c]. unfold roundTrip. simpl.
  destruct (replies w); simpl; auto.
Qed.

Lemma quiet_panic {A} : quiet (@panic A).
Proof. intros w. exists []. simpl. now rewrite app_nil_r. Qed.

Lemma quiet_forRange {A} (body : nat -> A -> M unit) (l : list A) (i : nat) :
  (forall i x, quiet (body i x)) -> quiet (forRange body i l).
Proof.
  intros Hb. revert i. induction l as [| x l IH]; intros i; simpl.
  - apply quiet_ret.
  - apply quiet_bind; auto.
Qed.

Ltac quiet_steps :=
  repeat first
    [ apply quiet_ret
    | apply quiet_ReadString
    | apply quiet_roundTrip
    | apply quiet_panic
    | apply quiet_out; reflexivity
    | apply quiet_forRange; intros
    | apply quiet_bind; [| intros]
    | match goal with
      | |- quiet (match ?x with _ => _ end) => destruct x
      | |- quiet (if ?b then _ else _) => destruct b
      end ].

Lemma fetchConversation_quiet (token : TokenData.t) (friend : Friend.t) :
  quiet (fetchConversation token friend).
Proof. unfold fetchConversation. quiet_steps. Qed.

Lemma handleSendMessage_quiet (u : Unicode) (token : TokenData.t) (friend : Friend.t) :
  quiet (handleSendMessage u token friend).
Proof.
  unfold handleSendMessage, sendMessageToFriend, fetchConversation. quiet_steps.
Qed.

Lemma handleFriendRequestResponse_quiet (u : Unicode) (token : TokenData.t)
    (requests : list IncomingFriendRequest.t) :
  quiet (handleFriendRequestResponse u token requests).
Proof.
  unfold handleFriendRequestResponse, respondToFriendRequest. quiet_steps.
Qed.

Lemma quiet_done {A} (m : M A) (w w' : World) (a : A) :
  quiet m -> m w = Done a w' ->
  exists evs, log w' = (log w ++ evs)%list /\ enters evs = 0%nat /\ restores evs = 0%nat.
Proof. intros Hq H. destruct (Hq w) as (evs & L & E). rewrite H in L. eauto. Qed.

(** ** Entries and restores on the paths that return *)

Lemma bind_inv {A B} (m : M A) (k : A -> M B) (w w' : World) (b : B) :
  bind m k w = Done b w' ->
  exists a w1, m w = Done a w1 /\ k a w1 = Done b w'.
Proof. unfold bind. destruct (m w) as [a w1 | | |]; try discriminate. eauto. Qed.

Lemma out_inv (e : Event) (w w' : World) (x : unit) :
  out e w = Done x w' -> w' = emit e w.
Proof. unfold out. now inversion 1. Qed.

Lemma makeRaw_inv (w w1 : World) (r : option termios * option error) :
  makeRaw w = Done r w1 ->
  (exists s, r = (Some s, None) /\ log w1 = (log w ++ [MakeRaw (Some s)])%list) \/
  (exists e, r = (None, Some e) /\ log w1 = (log w ++ [MakeRaw None])%list).
Proof.
  intros H.
  destruct (makeRaw_spec w) as (t' & [(n & Hf & _) | (Hok & _)] & _);
    rewrite H in *; [right | left].
  - inversion Hf; subst. eauto.
  - inversion Hok; subst. eauto.
Qed.

Lemma restore_inv (oldState : option termios) (w w1 : World) (err : option error) :
  restore oldState w = Done err w1 -> log w1 = (log w ++ [Restore oldState])%list.
Proof.
  intros H. destruct (restore_spec oldState w) as (err' & t' & Hr & _).
  rewrite H in Hr. now inversion Hr.
Qed.

Lemma reenterRaw_inv (w w' : World) (c : Ctl) :
  reenterRaw w = Done c w' ->
  match c with
  | Next _ => exists s, log w' = (log w ++ [MakeRaw (Some s)])%list
  | Return => exists e, log w' = (log w ++ [MakeRaw None; Printf setupFailed [AErr e]])%list
  end.
Proof.
  unfold reenterRaw, makeRawForReceiveMessage. intros H.
  apply bind_inv in H as ([o err] & w1 & Hm & H).
  apply makeRaw_inv in Hm as [(s & Hr & Hl) | (e & Hr & Hl)]; inversion Hr; subst.
  - inversion H; subst. eauto.
  - apply bind_inv in H as (x & w2 & Ho & H). apply out_inv in Ho. subst.
    inversion H; subst. exists e. simpl. rewrite Hl, <- app_assoc. reflexivity.
Qed.

Lemma enters_cons (e : Event) (l : list Event) :
  enters (e :: l) = ((if isEnter e then 1 else 0) + enters l)%nat.
Proof. unfold enters. simpl. now destruct (isEnter e). Qed.

Lemma restores_cons (e : Event) (l : list Event) :
  restores (e :: l) = ((if isRestore e then 1 else 0) + restores l)%nat.
Proof. unfold restores. simpl. now destruct (isRestore e). Qed.

Lemma enters_nil : enters [] = 0%nat.
Proof. reflexivity. Qed.

Lemma restores_nil : restores [] = 0%nat.
Proof. reflexivity. Qed.

Ltac counts :=
  repeat rewrite ?enters_app, ?restores_app, ?enters_cons, ?restores_cons,
    ?enters_nil, ?restores_nil; simpl.

Section Balance.

Context (u : Unicode) (token : TokenData.t).

Lemma action_inv (oldState : option termios) (first : Event) (m : M (option error))
    (format : string) (w w' : World) (c : Ctl) :
  isEnter first = false -> isRestore first = false -> quiet m ->
  (restoreForReceiveMessage oldState ;;;
   out first ;;;
   let* err := m in
   match err with
   | Some err => out (Printf format [AErr err])
   | None => ret tt
   end ;;;
   out promptKeys ;;;
   reenterRaw) w = Done c w' ->
  exists evs, log w' = (log w ++ evs)%list /\ actionTrace oldState c evs.
Proof.
  intros F1 F2 Hq H.
  apply bind_inv in H as (e1 & w1 & Hres & H). apply restore_inv in Hres.
  apply bind_inv in H as (x2 & w2 & Ho & H). apply out_inv in Ho.
  apply bind_inv in H as (err & w3 & Hm & H).
  apply (quiet_done m w2 w3 err Hq) in Hm as (ev3 & L3 & E3 & R3).
  apply bind_inv in H as (x3 & w3' & Hrep & H).
  assert (Hrep' : exists ev3', log w3' = (log w3 ++ ev3')%list /\
                    enters ev3' = 0%nat /\ restores ev3' = 0%nat).
  { destruct err as [err |].
    - apply out_inv in Hrep. subst w3'. eexists; split; [reflexivity | split; reflexivity].
    - inversion Hrep; subst. exists []. rewrite app_nil_r. auto. }
  destruct Hrep' as (ev3' & L3' & E3' & R3').
  apply bind_inv in H as (x4 & w4 & Ho4 & H). apply out_inv in Ho4.
  apply reenterRaw_inv in H.
  set (mid := (first :: (ev3 ++ ev3') ++ [promptKeys])%list).
  assert (L4 : log w4 = (log w ++ Restore oldState :: mid)%list).
  { subst w4 w2 mid. simpl. rewrite L3', L3. simpl. rewrite Hres.
    rewrite <- !app_assoc. reflexivity. }
  assert (Hmid : enters mid = 0%nat /\ restores mid = 0%nat).
  { unfold mid. counts. rewrite F1, F2, E3, R3, E3', R3'. auto. }
  destruct Hmid as [Em Rm].
  destruct c as [| o]; destruct H as (z & Hz); rewrite Hz, L4;
    eexists; (split; [rewrite <- app_assoc; reflexivity |]);
    exists mid; repeat split; auto;
    exists z; simpl; rewrite <- !app_assoc; reflexivity.
Qed.

Lemma onCtrlR_inv (friend : Friend.t) (oldState : option termios) (w w' : World) (c : Ctl) :
  onCtrlR token friend oldState w = Done c w' ->
  exists evs, log w' = (log w ++ evs)%list /\ actionTrace oldState c evs.
Proof.
  unfold onCtrlR. apply action_inv; try reflexivity.
  apply fetchConversation_quiet.
Qed.

Lemma onCtrlS_inv (friend : Friend.t) (oldState : option termios) (w w' : World) (c : Ctl) :
  onCtrlS u token friend oldState w = Done c w' ->
  exists evs, log w' = (log w ++ evs)%list /\ actionTrace oldState c evs.
Proof.
  unfold onCtrlS. apply action_inv; try reflexivity.
  apply handleSendMessage_quiet.
Qed.

Lemma actionTrace_counts (oldState : option termios) (c : Ctl) (evs : list Event) :
  actionTrace oldState c evs ->
  match c with
  | Next _ => restores evs = enters evs
  | Return =>
      restores evs = S (enters evs) /\
      exists pre e, evs = (pre ++ [MakeRaw None; Printf setupFailed [AErr e]])%list
  end.
Proof.
  intros (mid & Em & Rm & H). destruct c as [| o]; destruct H as (z & ->).
  - split; [counts; rewrite Em, Rm; reflexivity |].
    exists (Restore oldState :: mid), z. reflexivity.
  - counts. rewrite Em, Rm. reflexivity.
Qed.

Lemma onKey_inv (friend : Friend.t) (b : byte) (oldState : option termios)
    (w w' : World) (c : Ctl) :
  onKey u token friend b oldState w = Done c w' ->
  exists evs,
    log w' = (log w ++ evs)%list /\
    match c with
    | Next _ => restores evs = enters evs
    | Return =>
        restores evs = S (enters evs) /\
        exists pre e, evs = (pre ++ [MakeRaw None; Printf setupFailed [AErr e]])%list
    end.
Proof.
  unfold onKey. intros H.
  destruct (Byte.to_N b =? 18)%N eqn:E18.
  - apply N.eqb_eq in E18. rewrite E18 in H. simpl in H.
    apply bind_inv in H as (c1 & w1 & Hr & H).
    apply onCtrlR_inv in Hr as (evs & L & Ha). apply actionTrace_counts in Ha.
    destruct c1 as [| o]; inversion H; subst; eauto.
  - apply bind_inv in H as (c1 & w1 & Hr & H). inversion Hr; subst c1 w1. clear Hr.
    destruct (Byte.to_N b =? 19)%N eqn:E19.
    + apply N.eqb_eq in E19. rewrite E19 in H. simpl in H.
      apply bind_inv in H as (c2 & w2 & Hs & H).
      apply onCtrlS_inv in Hs as (evs & L & Ha). apply actionTrace_counts in Ha.
      destruct c2 as [| o]; inversion H; subst; eauto.
    + apply bind_inv in H as (c2 & w2 & Hr & H). inversion Hr; subst c2 w2. clear Hr.
      destruct (Byte.to_N b =? 3)%N.
      * apply bind_inv in H as (x & w2 & _ & H). discriminate.
      * inversion H; subst. exists []. rewrite app_nil_r. auto.
Qed.

Lemma loop_inv (friend : Friend.t) (keys : list KeyRead) (oldState : option termios)
    (w w' : World) (x : unit) :
  waitForCtrlRInReceiveMessage_loop u token friend oldState keys w = Done x w' ->
  exists evs, log w' = (log w ++ evs)%list /\ loopReturn evs.
Proof.
  revert oldState w. induction keys as [| k keys IH]; intros oldState w H; simpl in H.
  - discriminate.
  - destruct k as [b | | e].
    + apply bind_inv in H as (c & w1 & Hk & H).
      apply onKey_inv in Hk as (ev1 & L1 & Hc).
      destruct c as [| o].
      * inversion H; subst. exists ev1. split; [exact L1 |]. right. exact Hc.
      * apply IH in H as (ev2 & L2 & Hret).
        exists (ev1 ++ ev2)%list. split; [rewrite L2, L1; now rewrite app_assoc |].
        destruct Hret as [(Hb & pre & e & ->) | (Hb & pre & e & ->)]; [left | right];
          (split; [revert Hb; counts; lia |]);
          exists (ev1 ++ pre)%list, e; now rewrite app_assoc.
    + now apply IH in H.
    + apply out_inv in H. subst. eexists. split; [reflexivity |].
      left. split; [reflexivity |]. exists [], e. reflexivity.
Qed.

Lemma defer_inv {A B} (d : M B) (body : M A) (w w' : World) (a : A) :
  defer d body w = Done a w' ->
  exists w1 x, body w = Done a w1 /\ d w1 = Done x w'.
Proof.
  unfold defer. destruct (body w) as [a1 w1 | | | w1]; try discriminate; intros H.
  - apply bind_inv in H as (x & w2 & Hd & H). inversion H; subst. eauto.
  - apply bind_inv in H as (x & w2 & Hd & H). discriminate.
Qed.

Lemma waitForCtrlRInReceiveMessage_inv (friend : Friend.t) (keys : list KeyRead)
    (w w' : World) (x : unit) :
  waitForCtrlRInReceiveMessage u token friend keys w = Done x w' ->
  exists evs,
    log w' = (log w ++ evs)%list /\
    ((setupFailedTrace evs /\ enters evs = 0%nat /\ restores evs = 0%nat) \/
     (readFailedTrace evs /\ restores evs = enters evs) \/
     (reentryFailedTrace evs /\ restores evs = S (enters evs))).
Proof.
  unfold waitForCtrlRInReceiveMessage, makeRawForReceiveMessage. intros H.
  apply bind_inv in H as ([o err] & w1 & Hm & H).
  apply makeRaw_inv in Hm as [(s & Hr & L1) | (e & Hr & L1)]; inversion Hr; subst.
  - apply defer_inv in H as (w2 & err & Hloop & Hres).
    apply loop_inv in Hloop as (ev2 & L2 & Hret). apply restore_inv in Hres.
    exists (MakeRaw (Some s) :: ev2 ++ [Restore (Some s)])%list.
    split; [rewrite Hres, L2, L1; now rewrite <- !app_assoc |].
    right.
    destruct Hret as [(Hb & pre & e & ->) | (Hb & pre & e & ->)]; [left | right];
      (split; [| revert Hb; counts; lia]);
      exists (MakeRaw (Some s) :: pre)%list, e, (Some s); simpl;
      now rewrite <- !app_assoc.
  - apply out_inv in H. subst. eexists. split.
    + simpl. rewrite L1, <- app_assoc. reflexivity.
    + left. split; [exists e; reflexivity | split; reflexivity].
Qed.

Lemma waitForCtrlR_loop_inv (requests : list IncomingFriendRequest.t)
    (keys : list KeyRead) (oldState : option termios) (w w' : World) (x : unit) :
  waitForCtrlR_loop u token requests oldState keys w = Done x w' ->
  exists evs,
    log w' = (log w ++ evs)%list /\
    ((readFailedFirst keys /\ enters evs = 0%nat /\ restores evs = 0%nat) \/
     (respondKeyFirst keys /\ enters evs = 0%nat /\ restores evs = 1%nat)).
Proof.
  revert w. induction keys as [| k keys IH]; intros w H; simpl in H.
  - discriminate.
  - assert (Hpass : passedOver k ->
              waitForCtrlR_loop u token requests oldState keys w = Done x w' ->
              exists evs,
                log w' = (log w ++ evs)%list /\
                ((readFailedFirst (k :: keys) /\ enters evs = 0%nat /\ restores evs = 0%nat) \/
                 (respondKeyFirst (k :: keys) /\ enters evs = 0%nat /\ restores evs = 1%nat))).
    { intros Hk H'. apply IH in H' as (evs & L & Hc). exists evs. split; [exact L |].
      destruct Hc as [((pre & e & rest & -> & Hp) & Hn) | ((pre & b & rest & -> & Hb & Hp) & Hn)];
        [left | right]; (split; [| exact Hn]).
      - exists (k :: pre), e, rest. split; [reflexivity | now constructor].
      - exists (k :: pre), b, rest. repeat split; auto. }
    destruct k as [b | | e].
    + destruct (Byte.to_N b =? 18)%N eqn:E18.
      * apply N.eqb_eq in E18.
        apply bind_inv in H as (err & w1 & Hres & H). apply restore_inv in Hres.
        apply (quiet_done _ _ _ _ (handleFriendRequestResponse_quiet u token requests)) in H
          as (ev & L & En & Rn).
        exists (Restore oldState :: ev). split; [rewrite L, Hres; now rewrite <- app_assoc |].
        right. split; [| counts; rewrite En, Rn; auto].
        exists [], b, keys. repeat split; auto.
      * destruct (Byte.to_N b =? 3)%N eqn:E3.
        -- apply bind_inv in H as (y & w1 & _ & H). discriminate.
        -- apply Hpass; [| exact H]. apply N.eqb_neq in E18, E3. now split.
    + apply Hpass; [exact I | exact H].
    + apply out_inv in H. subst. eexists. split; [reflexivity |].
      left. split; [| split; reflexivity]. exists [], e, keys. now split.
Qed.

Lemma waitForCtrlR_inv (requests : list IncomingFriendRequest.t) (keys : list KeyRead)
    (w w' : World) (x : unit) :
  waitForCtrlR u token requests keys w = Done x w' ->
  exists evs,
    log w' = (log w ++ evs)%list /\
    ((setupFailedTrace evs /\ enters evs = 0%nat /\ restores evs = 0%nat) \/
     (readFailedFirst keys /\ enters evs = 1%nat /\ restores evs = 1%nat) \/
     (respondKeyFirst keys /\ enters evs = 1%nat /\ restores evs = 2%nat)).
Proof.
  unfold waitForCtrlR. intros H.
  apply bind_inv in H as ([o err] & w1 & Hm & H).
  apply makeRaw_inv in Hm as [(s & Hr & L1) | (e & Hr & L1)]; inversion Hr; subst.
  - apply defer_inv in H as (w2 & err & Hloop & Hres).
    apply waitForCtrlR_loop_inv in Hloop as (ev2 & L2 & Hret). apply restore_inv in Hres.
    exists (MakeRaw (Some s) :: ev2 ++ [Restore (Some s)])%list.
    split; [rewrite Hres, L2, L1; now rewrite <- !app_assoc |].
    right.
    destruct Hret as [(Hk & En & Rn) | (Hk & En & Rn)]; [left | right];
      (split; [exact Hk |]); counts; rewrite En, Rn; auto.
  - apply out_inv in H. subst. eexists. split.
    + simpl. rewrite L1, <- app_assoc. reflexivity.
    + left. split; [exists e; reflexivity | split; reflexivity].
Qed.

End Balance.

(** * The claims *)

(** C1 (as amended).  On every path where a key loop function returns,
    restore has been called for each successful raw-mode entry, counted on
    what the call added to the trace: as often as raw mode was entered when
    the function returns after a failed key read (and neither was called
    when raw mode could not be set up), once more when it returns after an
    action, which is the respond action of [waitForCtrlR] or an action of
    [waitForCtrlRInReceiveMessage] after which raw mode could not be entered
    again: restore is called in the branch and again by the defer. *)
Theorem returning_key_loop_restores_each_entry (u : Unicode) (token : TokenData.t)
    (friend : Friend.t) (requests : list IncomingFriendRequest.t)
    (keys : list KeyRead) (w w' : World) :
  (waitForCtrlRInReceiveMessage u token friend keys w = Done tt w' ->
   exists evs,
     log w' = (log w ++ evs)%list /\ restoredEach evs /\
     ((setupFailedTrace evs /\ enters evs = 0%nat /\ restores evs = 0%nat) \/
      (readFailedTrace evs /\ restores evs = enters evs) \/
      (reentryFailedTrace evs /\ restores evs = S (enters evs)))) /\
  (waitForCtrlR u token requests keys w = Done tt w' ->
   exists evs,
     log w' = (log w ++ evs)%list /\ restoredEach evs /\
     ((setupFailedTrace evs /\ enters evs = 0%nat /\ restores evs = 0%nat) \/
      (readFailedFirst keys /\ enters evs = 1%nat /\ restores evs = 1%nat) \/
      (respondKeyFirst keys /\ enters evs = 1%nat /\ restores evs = 2%nat))).
Proof.
  split; intros H.
  - apply waitForCtrlRInReceiveMessage_inv in H as (evs & L & Hc).
    exists evs. repeat split; auto.
    unfold restoredEach. destruct Hc as [(_ & -> & ->) | [(_ & ->) | (_ & ->)]]; auto.
  - apply waitForCtrlR_inv in H as (evs & L & Hc).
    exists evs. repeat split; auto.
    unfold restoredEach. destruct Hc as [(_ & -> & ->) | [(_ & -> & ->) | (_ & -> & ->)]]; auto.
Qed.

(** C2 (fails on the code).  The interrupt key (byte 3) as first key, on a
    terminal in cooked mode: the farewell line is printed, the process ends
    with exit code 0 and no request was sent, but [os.Exit] leaves the
    deferred restore behind: raw mode was entered once, restore is never
    called and the terminal is left in raw mode, in both key loops.  The
    same on any terminal that raw mode can be entered on: the loops exit
    with code 0 after the farewell, with no call of restore. *)
Theorem interrupt_exits_with_terminal_raw :
  let r := waitForCtrlRInReceiveMessage asciiOnly token0 friend0 [KByte x03] world0 in
  let r' := waitForCtrlR asciiOnly token0 requests0 [KByte x03] world0 in
  cooked (settings (tty world0)) = true /\
  (exists w', r = Exit 0 w' /\
     last (log w') = Some (Println "\nExiting...") /\
     httpCalls (log w') = [] /\
     enters (log w') = 1%nat /\ restores (log w') = 0%nat /\
     raw (settings (tty w')) = true /\ cooked (settings (tty w')) = false) /\
  (exists w', r' = Exit 0 w' /\
     last (log w') = Some (Println "\nExiting...") /\
     httpCalls (log w') = [] /\
     enters (log w') = 1%nat /\ restores (log w') = 0%nat /\
     raw (settings (tty w')) = true /\ cooked (settings (tty w')) = false) /\
  (forall u token friend requests keys w saved w1,
     makeRaw w = Done (saved, None) w1 ->
     waitForCtrlRInReceiveMessage u token friend (KByte x03 :: keys) w =
       Exit 0 (emit (Println "\nExiting...") w1) /\
     waitForCtrlR u token requests (KByte x03 :: keys) w =
       Exit 0 (emit (Println "\nExiting...") w1) /\
     restores (log (emit (Println "\nExiting...") w1)) = restores (log w)).
Proof.
  cbv zeta. split; [reflexivity |].
  do 2 (split; [eexists; (split; [vm_compute; reflexivity |]); vm_compute; repeat split |]).
  intros u token friend requests keys w saved w1 Hm.
  split; [now apply (waitForCtrlRInReceiveMessage_interrupt u token friend keys w w1 saved) |].
  split; [now apply (waitForCtrlR_interrupt u token requests keys w w1 saved) |].
  apply makeRaw_inv in Hm as [(s & _ & L) | (e & Hr & _)]; [| discriminate].
  simpl. rewrite L. counts. lia.
Qed.

(** C3.  The filter loop of the respond sub-flow keeps the records whose
    status reads pending or rejected and drops the others, in the order of
    the fetched sequence: a request is kept exactly when its status, in
    lower case, is pending or rejected - whatever the other statuses of
    the sequence are; a request with status pending or rejected is kept,
    none with status accepted is, and over the three statuses of the data
    model the list is the one selected by status.  The numbered menu
    the sub-flow prints lists that list and nothing else, and a selection
    within its range picks one of its members.  For
    [accepted 1; pending 2; rejected 3] the list, and the menu, are
    requests 2 and 3. *)
Theorem respondable_selects_pending_rejected (u : Unicode) (token : TokenData.t)
    (requests : list IncomingFriendRequest.t) :
  respondable u requests = List.filter (canRespond u) requests /\
  sublist (respondable u requests) requests /\
  (forall r, In r requests ->
     IncomingFriendRequest.Status r = "pending" \/
     IncomingFriendRequest.Status r = "rejected" ->
     In r (respondable u requests)) /\
  (forall r, In r (respondable u requests) ->
     In r requests /\ IncomingFriendRequest.Status r <> "accepted") /\
  (forall r, In r (respondable u requests) <->
     In r requests /\
     (ToLower u (IncomingFriendRequest.Status r) = "pending" \/
      ToLower u (IncomingFriendRequest.Status r) = "rejected")) /\
  (Forall (fun r => knownStatus (IncomingFriendRequest.Status r)) requests ->
   respondable u requests =
     List.filter (fun r => ((IncomingFriendRequest.Status r =? "pending") ||
                            (IncomingFriendRequest.Status r =? "rejected"))%string)
       requests) /\
  (forall w, respondable u requests <> [] -> lines w = [] ->
     handleFriendRequestResponse u token requests w =
       Blocked (mkWorld (tty w) [] (replies w) (log w ++ respondMenu u requests))) /\
  (forall w line n,
     lines w = [LLine line] -> Atoi (TrimSpace u line) = Some n ->
     1 <= n <= Z.of_nat (length (respondable u requests)) ->
     exists selected,
       In selected (respondable u requests) /\
       handleFriendRequestResponse u token requests w =
         Blocked (mkWorld (tty w) [] (replies w)
                    (log w ++ respondMenu u requests ++ actionMenu selected))) /\
  respondable u requests0 = [request0 2 "pending"; request0 3 "rejected"] /\
  handleFriendRequestResponse u token requests0 world0 =
    Blocked (mkWorld terminal0 [] []
               [Println "\n=== Respond to Friend Requests ===";
                Println "Available requests (pending/rejected only):";
                menuLine 0 (request0 2 "pending");
                menuLine 1 (request0 3 "rejected");
                Print "\nEnter the number of the request to respond to: "]).
Proof.
  split; [apply respondable_filter |].
  split; [rewrite respondable_filter; apply filter_sublist |].
  split.
  { intros r Hin Hs. rewrite respondable_filter. apply filter_In. split; [exact Hin |].
    apply canRespond_status. destruct Hs as [-> | ->]; [left | right]; reflexivity. }
  split.
  { intros r Hin. rewrite respondable_filter in Hin. apply filter_In in Hin as [Hin Hc].
    split; [exact Hin |]. intros Hacc.
    apply canRespond_status in Hc. rewrite Hacc in Hc. destruct Hc; discriminate. }
  split.
  { intros r. rewrite respondable_filter, filter_In, canRespond_status. reflexivity. }
  split.
  { intros Hknown. rewrite respondable_filter. apply filter_ext_in. intros r Hin.
    apply canRespond_known. rewrite Forall_forall in Hknown. apply Hknown.
    now apply list_elem_of_In. }
  split.
  { intros w Hne Hl. now apply handleFriendRequestResponse_menu. }
  split.
  { intros w line n Hl Hn Hr.
    destruct (handleFriendRequestResponse_selected u token requests w line n Hl Hn Hr)
      as (selected & Hsel & Hrun).
    exists selected. split; [| exact Hrun].
    apply list_elem_of_In. eapply list_elem_of_lookup_2. exact Hsel. }
  split; reflexivity.
Qed.

(** C4.  Key bytes other than 18, 19 and 3 leave the key loop where it
    was: the world after them is the world before them (nothing printed,
    no request sent, terminal untouched, [oldState] kept), the loop goes on
    with the keys that follow, and with none to follow it is blocked in the
    next read.  The same holds for the loop of [waitForCtrlR]. *)
Theorem unrecognized_keys_are_ignored (u : Unicode) (token : TokenData.t)
    (friend : Friend.t) (requests : list IncomingFriendRequest.t)
    (bs : list byte) (keys : list KeyRead) (oldState : option termios) (w : World) :
  Forall unrecognized bs ->
  waitForCtrlRInReceiveMessage_loop u token friend oldState (map KByte bs ++ keys) w =
    waitForCtrlRInReceiveMessage_loop u token friend oldState keys w /\
  waitForCtrlRInReceiveMessage_loop u token friend oldState (map KByte bs) w = Blocked w /\
  waitForCtrlR_loop u token requests oldState (map KByte bs) w = Blocked w.
Proof.
  intros Hbs. split; [now apply loop_skips |]. split.
  - rewrite <- (app_nil_r (map KByte bs)). now rewrite loop_skips.
  - rewrite <- (app_nil_r (map KByte bs)). rewrite waitForCtrlR_loop_skips; [reflexivity |].
    eapply Forall_impl; [exact Hbs |]. intros b (H18 & _ & H3). now split.
Qed.

(** C5.  [handleSendMessage] on a line that is empty once trimmed prints
    the validation message and returns nil, with no request sent and no
    reply consumed; and whatever the input, a send request it issues
    carries the trimmed line, which is then not empty. *)
Theorem empty_message_is_rejected_unsent (u : Unicode) (token : TokenData.t)
    (friend : Friend.t) (w : World) (line : string) (rest : list LineRead) :
  lines w = LLine line :: rest ->
  (TrimSpace u line = "" ->
   handleSendMessage u token friend w =
     Done None
       (mkWorld (tty w) rest (replies w)
          (log w ++ composePrompt friend ++
             [Println "Message cannot be empty. Message sending cancelled."])) /\
   httpCalls (log (world_of (handleSendMessage u token friend w))) = httpCalls (log w)) /\
  (exists evs,
     log (world_of (handleSendMessage u token friend w)) = (log w ++ evs)%list /\
     forall tok body uid,
       In (Http (PostSendMessage tok body uid)) evs ->
       body = TrimSpace u line /\ body <> "").
Proof.
  intros Hl. split.
  - intros Ht. rewrite (handleSendMessage_empty u token friend w line rest Hl Ht).
    split; [reflexivity |]. simpl. rewrite httpCalls_app. simpl. now rewrite app_nil_r.
  - destruct (handleSendMessage_sends u token friend w) as (evs & Hlog & Hsent).
    exists evs. split; [exact Hlog |].
    intros tok body uid Hin.
    destruct (Hsent tok body uid Hin) as (Hne & line' & rest' & Hl' & Hb).
    rewrite Hl in Hl'. inversion Hl'; subst. auto.
Qed.

(** C6.  In the respond sub-flow a selection that is no number, or a number
    outside [1, count] for the count of eligible requests, gets the line
    "Invalid request number."; the sub-flow returns, and no request is
    sent to the back end. *)
Theorem invalid_selection_is_rejected (u : Unicode) (token : TokenData.t)
    (requests : list IncomingFriendRequest.t) (w : World)
    (line : string) (rest : list LineRead) :
  respondable u requests <> [] ->
  lines w = LLine line :: rest ->
  invalidSelection (length (respondable u requests)) (TrimSpace u line) ->
  handleFriendRequestResponse u token requests w =
    Done tt (mkWorld (tty w) rest (replies w)
               (log w ++ respondMenu u requests ++ [Println "Invalid request number."])) /\
  httpCalls (log (world_of (handleFriendRequestResponse u token requests w))) =
    httpCalls (log w).
Proof.
  intros Hne Hl Hbad.
  rewrite (handleFriendRequestResponse_invalid u token requests w line rest Hne Hl Hbad).
  split; [reflexivity |]. cbn [world_of log].
  rewrite !httpCalls_app.
  assert (Hmenu : httpCalls (respondMenu u requests) = []).
  { apply outputs_no_switch. unfold respondMenu, menuFrom. simpl.
    rewrite forallb_app. simpl. rewrite andb_true_r. apply menu_is_output. }
  rewrite Hmenu. simpl. now rewrite app_nil_r.
Qed.


(** C8 (as amended).  When [makeRaw] fails at the start of a key loop, the
    loop function prints the failure and returns before any read, whatever
    the keys, with no call of restore and the terminal as it was; it has no
    result, and [handleIncomingRequests], its caller, returns nil. *)
Theorem raw_setup_failure_is_printed (u : Unicode) (token : TokenData.t)
    (friend : Friend.t) (requests : list IncomingFriendRequest.t)
    (keys : list KeyRead) (w w1 : World) (p : option termios) (e : error) :
  makeRaw w = Done (p, Some e) w1 ->
  waitForCtrlR u token requests keys w =
    Done tt (emit (Printf setupFailed [AErr e]) w1) /\
  waitForCtrlRInReceiveMessage u token friend keys w =
    Done tt (emit (Printf setupFailed [AErr e]) w1) /\
  log w1 = (log w ++ [MakeRaw None])%list /\
  settings (tty w1) = settings (tty w) /\
  (forall r rs,
     replies w = r :: rs -> answeredOK r ->
     exists evs,
       forallb isOutput evs = true /\
       handleIncomingRequests u token keys w =
         Done None
           (mkWorld (tty w1) (lines w) rs
              (log w ++
               [Println "\n📥 Fetching incoming friend requests...";
                Http (GetIncomingFriendRequests (TokenData.Token token) incomingURL)] ++
               evs ++ [MakeRaw None; Printf setupFailed [AErr e]]))).
Proof.
  intros Hm.
  split; [now apply (waitForCtrlR_setup u token requests keys w w1 p) |].
  split; [now apply (waitForCtrlRInReceiveMessage_setup u token friend keys w w1 p) |].
  destruct (makeRaw_spec w) as (t' & [(n & Hf & _ & Hs) | (Hok & _)] & _);
    rewrite Hm in *; [| discriminate].
  inversion Hf; subst. repeat split; auto.
  intros r rs Hr Hans.
  eapply handleIncomingRequests_setup; eauto.
Qed.

(** C9.  [restore] with a nil [oldState] returns; the kernel answers the
    nil pointer with an errno, which the function hands back, and the
    settings of the terminal are what they were. *)
Theorem restore_nil_is_noop (w : World) :
  exists err t',
    restore None w =
      Done (Some err) (mkWorld t' (lines w) (replies w) (log w ++ [Restore None])) /\
    settings t' = settings (tty w) /\
    isatty t' = isatty (tty w) /\
    restoreForReceiveMessage None w = restore None w.
Proof.
  destruct (restore_spec None w) as (err & t' & Hr & Htty & Hset & _ & Hnil).
  destruct err as [err |]; [| now destruct (Hnil eq_refl)].
  exists err, t'. repeat split; auto.
Qed.

(** C10.  The filter test lowers the status before it compares: a status
    that spells pending or rejected in any mix of upper and lower case is
    eligible, and is kept by the filter; one that spells accepted in any
    mix is not. *)
Theorem canRespond_ignores_case (u : Unicode) (r : IncomingFriendRequest.t)
    (requests : list IncomingFriendRequest.t) :
  (isCapitalizationOf "pending" (IncomingFriendRequest.Status r) = true \/
   isCapitalizationOf "rejected" (IncomingFriendRequest.Status r) = true ->
   canRespond u r = true /\ (In r requests -> In r (respondable u requests))) /\
  (isCapitalizationOf "accepted" (IncomingFriendRequest.Status r) = true ->
   canRespond u r = false /\ ~ In r (respondable u requests)) /\
  canRespond u (request0 1 "Pending") = true /\
  canRespond u (request0 2 "REJECTED") = true /\
  canRespond u (request0 3 "AccepteD") = false.
Proof.
  split; [| split; [| repeat split]].
  - intros Hcap.
    assert (Hc : canRespond u r = true).
    { apply canRespond_status.
      destruct Hcap as [H | H]; [left | right];
        now apply ToLower_capitalization. }
    split; [exact Hc |]. intros Hin.
    rewrite respondable_filter. apply filter_In. now split.
  - intros Hcap.
    assert (Hc : canRespond u r = false).
    { unfold canRespond.
      now rewrite (ToLower_capitalization u "accepted" _ eq_refl Hcap). }
    split; [exact Hc |]. rewrite respondable_filter. intros Hin.
    apply filter_In in Hin as [_ Hin]. congruence.
Qed.

(** ** The claims at concrete inputs *)

Example ToLower_mixed : ToLower asciiOnly "PenDing" = "pending".
Proof. reflexivity. Qed.

Example TrimSpace_line : TrimSpace asciiOnly ("  hi there " ++ nl) = "hi there".
Proof. reflexivity. Qed.

Example Atoi_examples :
  Atoi "abc" = None /\ Atoi "5" = Some 5 /\ Atoi "+1" = Some 1 /\
  Atoi "-7" = Some (-7) /\ Atoi "" = None /\ Atoi "-" = None /\
  Atoi "1_0" = None /\ Atoi "9223372036854775808" = None /\
  Atoi "9223372036854775807" = Some maxInt.
Proof. repeat split; reflexivity. Qed.

(** C8, the claim as stated fails.  Standard input is no terminal:
    [makeRaw] fails with ENOTTY, the failure is printed, and
    [handleIncomingRequests], the caller of the key loop, returns nil as it
    does after a session that went well. *)
Lemma raw_setup_failure_returns_nil :
  (exists w1, makeRaw pipeWorld = Done (None, Some (Errno ENOTTY)) w1) /\
  (exists w',
     handleIncomingRequests asciiOnly token0 [KByte x12] pipeWorld = Done None w' /\
     In (MakeRaw None) (log w') /\
     In (Printf setupFailed [AErr (Errno ENOTTY)]) (log w') /\
     enters (log w') = 0%nat).
Proof.
  split; eexists; [vm_compute; reflexivity |].
  split; [vm_compute; reflexivity |].
  cbn [log]. repeat split.
  - repeat first [left; reflexivity | right].
  - repeat first [left; reflexivity | right].
Qed.

Lemma unrecognized_keys_are_ignored_witness :
  Forall unrecognized [x61; x0d; x1b] /\
  waitForCtrlRInReceiveMessage_loop asciiOnly token0 friend0 None
    (map KByte [x61; x0d; x1b]) world0 = Blocked world0.
Proof.
  assert (H : Forall unrecognized [x61; x0d; x1b]).
  { repeat (constructor; [cbv; repeat split; discriminate |]). constructor. }
  split; [exact H |].
  exact (proj1 (proj2 (unrecognized_keys_are_ignored asciiOnly token0 friend0 requests0
                         [x61; x0d; x1b] [] None world0 H))).
Defined.

Lemma empty_message_is_rejected_unsent_witness :
  let w := mkWorld terminal0 [LLine ("   " ++ nl)] [ReplyOK; ReplyOK] [] in
  TrimSpace asciiOnly ("   " ++ nl) = "" /\
  handleSendMessage asciiOnly token0 friend0 w =
    Done None
      (mkWorld terminal0 [] [ReplyOK; ReplyOK]
         (composePrompt friend0 ++
            [Println "Message cannot be empty. Message sending cancelled."])).
Proof.
  split; [reflexivity |].
  exact (proj1 (proj1 (empty_message_is_rejected_unsent asciiOnly token0 friend0
                         (mkWorld terminal0 [LLine ("   " ++ nl)] [ReplyOK; ReplyOK] [])
                         ("   " ++ nl) [] eq_refl) eq_refl)).
Defined.

Lemma invalid_selection_is_rejected_witness :
  length (respondable asciiOnly requests0) = 2%nat /\
  httpCalls (log (world_of (handleFriendRequestResponse asciiOnly token0 requests0
                              (mkWorld terminal0 [LLine ("abc" ++ nl)] [ReplyOK] [])))) = [] /\
  httpCalls (log (world_of (handleFriendRequestResponse asciiOnly token0 requests0
                              (mkWorld terminal0 [LLine ("5" ++ nl)] [ReplyOK] [])))) = [].
Proof.
  assert (Hne : respondable asciiOnly requests0 <> []) by (vm_compute; discriminate).
  split; [reflexivity |]. split.
  - exact (proj2 (invalid_selection_is_rejected asciiOnly token0 requests0
                    (mkWorld terminal0 [LLine ("abc" ++ nl)] [ReplyOK] [])
                    ("abc" ++ nl) [] Hne eq_refl (or_introl eq_refl))).
  - exact (proj2 (invalid_selection_is_rejected asciiOnly token0 requests0
                    (mkWorld terminal0 [LLine ("5" ++ nl)] [ReplyOK] [])
                    ("5" ++ nl) [] Hne eq_refl
                    (or_intror (ex_intro _ 5 (conj eq_refl (or_intror eq_refl)))))).
Defined.


Lemma raw_setup_failure_is_printed_witness :
  let w1 := mkWorld pipe0 (lines pipeWorld) (replies pipeWorld) [MakeRaw None] in
  makeRaw pipeWorld = Done (None, Some (Errno ENOTTY)) w1 /\
  waitForCtrlR asciiOnly token0 requests0 [KByte x12] pipeWorld =
    Done tt (emit (Printf setupFailed [AErr (Errno ENOTTY)]) w1).
Proof.
  split; [reflexivity |].
  exact (proj1 (raw_setup_failure_is_printed asciiOnly token0 friend0 requests0 [KByte x12]
                  pipeWorld _ None (Errno ENOTTY) eq_refl)).
Defined.

(** C1, the claim as stated fails.  [waitForCtrlR] after the respond key
    (and a selection that is refused), and [waitForCtrlRInReceiveMessage]
    after a refresh on a terminal that cannot enter raw mode again, both
    return with one raw-mode entry and two calls of restore. *)
Lemma returns_after_action_restore_twice :
  let r := waitForCtrlR asciiOnly token0 requests0 [KByte x12]
             (mkWorld terminal0 [LLine ("5" ++ nl)] [] []) in
  let r' := waitForCtrlRInReceiveMessage asciiOnly token0 friend0 [KByte x12]
              (mkWorld failingTerminal [] [ReplyOK] []) in
  (exists w', r = Done tt w' /\ enters (log w') = 1%nat /\ restores (log w') = 2%nat) /\
  (exists w', r' = Done tt w' /\ enters (log w') = 1%nat /\ restores (log w') = 2%nat).
Proof.
  cbv zeta. split; eexists; (split; [vm_compute; reflexivity |]); vm_compute; auto.
Qed.

Lemma returning_key_loop_restores_each_entry_witness :
  let w' := world_of (waitForCtrlRInReceiveMessage asciiOnly token0 friend0
                        [KByte x61; KErr (ErrorString "EOF")] world0) in
  exists evs,
    log w' = (log world0 ++ evs)%list /\ restoredEach evs /\
    ((setupFailedTrace evs /\ enters evs = 0%nat /\ restores evs = 0%nat) \/
     (readFailedTrace evs /\ restores evs = enters evs) \/
     (reentryFailedTrace evs /\ restores evs = S (enters evs))).
Proof.
  exact (proj1 (returning_key_loop_restores_each_entry asciiOnly token0 friend0 requests0
                  [KByte x61; KErr (ErrorString "EOF")] world0 _) eq_refl).
Defined.

(** * Further properties *)

(** ** The terminal mode switch *)

(** X1.  On a terminal with no failure ahead, [makeRaw] succeeds and
    [restore] of the state it saved succeeds too and puts the settings back
    exactly as they were, whatever was done to the rest of the world in
    between. *)
Theorem makeRaw_restore_round_trip (w : World) :
  sound (tty w) ->
  exists saved w1,
    makeRaw w = Done (Some saved, None) w1 /\
    sound (tty w1) /\
    forall w2, tty w2 = tty w1 ->
      exists w3, restore (Some saved) w2 = Done None w3 /\
                 settings (tty w3) = settings (tty w) /\ sound (tty w3).
Proof.
  intros Hs. eexists _, _. split; [apply makeRaw_sound, Hs |].
  split; [split; reflexivity |].
  intros w2 Ht. eexists. split.
  - apply restore_sound. rewrite Ht. split; reflexivity.
  - split; [reflexivity | split; reflexivity].
Qed.

Lemma makeRaw_restore_round_trip_witness :
  sound (tty world0) /\
  exists saved w1,
    makeRaw world0 = Done (Some saved, None) w1 /\
    sound (tty w1) /\
    forall w2, tty w2 = tty w1 ->
      exists w3, restore (Some saved) w2 = Done None w3 /\
                 settings (tty w3) = settings (tty world0) /\ sound (tty w3).
Proof.
  assert (H : sound (tty world0)) by (split; reflexivity).
  split; [exact H | exact (makeRaw_restore_round_trip world0 H)].
Defined.

Lemma testbit_mask (n : Z) :
  Z.testbit (Z.lor ICANON ECHO) n = (n =? 1) || (n =? 3).
Proof.
  change (Z.lor ICANON ECHO) with 10.
  destruct (Z.ltb_spec n 0) as [Hneg | Hpos].
  - rewrite Z.testbit_neg_r by lia.
    destruct (n =? 1) eqn:E1; [apply Z.eqb_eq in E1; lia |].
    destruct (n =? 3) eqn:E3; [apply Z.eqb_eq in E3; lia | reflexivity].
  - destruct (Z.ltb_spec n 4) as [Hlt | Hge].
    + assert (n = 0 \/ n = 1 \/ n = 2 \/ n = 3) as [-> | [-> | [-> | ->]]] by lia;
        reflexivity.
    + destruct (n =? 1) eqn:E1; [apply Z.eqb_eq in E1; lia |].
      destruct (n =? 3) eqn:E3; [apply Z.eqb_eq in E3; lia |].
      apply (Z.bits_above_log2 10 n); [lia |]. change (Z.log2 10) with 3. lia.
Qed.

(** X2.  A successful [makeRaw] writes the struct it read with two
    changes only: the canonical-input and echo bits of [Lflag] are cleared,
    and the bytes of [Cc] at the places the source calls VMIN (6) and VTIME
    (5) are set to 1 and 0; every other local flag (signal keys among
    them), the input, output and control flags, the speed fields and the
    other bytes of [Cc] are as read.  As the kernel lays the struct out,
    with the line discipline before the control characters, those two bytes
    are the device's VTIME and VEOF: the device gets VTIME 1 and VEOF 0,
    while its VMIN, its line discipline and its other control characters
    are left as they were.  A [makeRaw] that fails returns a nil state and
    leaves the settings alone. *)
Theorem makeRaw_changes_only_raw_mode_settings (w w1 : World)
    (saved : option termios) (err : option error) :
  makeRaw w = Done (saved, err) w1 ->
  (err = None ->
   saved = Some (settings (tty w)) /\
   let old := settings (tty w) in
   let new := settings (tty w1) in
   Iflag new = Iflag old /\ Oflag new = Oflag old /\ Cflag new = Cflag old /\
   Ispeed new = Ispeed old /\ Ospeed new = Ospeed old /\
   Z.testbit (Lflag new) 1 = false /\ Z.testbit (Lflag new) 3 = false /\
   (forall n, n <> 1 -> n <> 3 -> Z.testbit (Lflag new) n = Z.testbit (Lflag old) n) /\
   length (Cc new) = length (Cc old) /\
   (forall i, i <> VMIN -> i <> VTIME -> Cc new !! i = Cc old !! i) /\
   (length (Cc old) = 20%nat -> Cc new !! VMIN = Some 1 /\ Cc new !! VTIME = Some 0) /\
   Kernel.c_line new = Kernel.c_line old /\
   Kernel.c_cc new Kernel.VMIN = Kernel.c_cc old Kernel.VMIN /\
   (forall i, i <> Kernel.VTIME -> i <> Kernel.VEOF ->
      Kernel.c_cc new i = Kernel.c_cc old i) /\
   (length (Cc old) = 20%nat ->
    Kernel.c_cc new Kernel.VTIME = Some 1 /\ Kernel.c_cc new Kernel.VEOF = Some 0)) /\
  (err <> None -> saved = None /\ settings (tty w1) = settings (tty w)).
Proof.
  intros H.
  assert (Hraw : forall t',
             makeRaw w = Done (Some (settings (tty w)), None)
                           (mkWorld t' (lines w) (replies w)
                              (log w ++ [MakeRaw (Some (settings (tty w)))])) ->
             isatty t' = true -> settings t' = rawOf (settings (tty w))).
  { destruct w as [[tt0 st fs] ls rs lg].
    unfold makeRaw, bind, ioctl, out, ret, emit, set_tty.
    crunch; intros t' E; inversion E; subst; try reflexivity; discriminate. }
  destruct (makeRaw_spec w) as (t' & [(n & Hf & Hn & Hs) | (Hok & _ & Htty)] & _).
  - rewrite H in Hf. inversion Hf; subst. split; [discriminate |]. auto.
  - pose proof (Hraw t' Hok Htty) as Hset.
    rewrite H in Hok. inversion Hok; subst. split; [| congruence].
    intros _. split; [reflexivity |]. cbn zeta. cbn [tty]. rewrite Hset.
    unfold rawOf, Kernel.c_line, Kernel.c_cc, Kernel.VMIN, Kernel.VTIME, Kernel.VEOF.
    cbn [Iflag Oflag Cflag Lflag Cc Ispeed Ospeed settings tty].
    repeat split; auto.
    + rewrite Z.ldiff_spec, testbit_mask. simpl. apply andb_false_r.
    + rewrite Z.ldiff_spec, testbit_mask. simpl. apply andb_false_r.
    + intros n H1 H3. rewrite Z.ldiff_spec, testbit_mask.
      apply Z.eqb_neq in H1, H3. rewrite H1, H3. simpl. apply andb_true_r.
    + now rewrite !length_insert.
    + intros i Hi Hj.
      rewrite list_lookup_insert_ne by auto. now rewrite list_lookup_insert_ne by auto.
    + rewrite list_lookup_insert_ne by discriminate.
      apply list_lookup_insert_eq. unfold VMIN. lia.
    + apply list_lookup_insert_eq. rewrite length_insert. unfold VTIME. lia.
    + rewrite list_lookup_insert_ne by discriminate.
      now rewrite list_lookup_insert_ne by discriminate.
    + rewrite list_lookup_insert_ne by discriminate.
      now rewrite list_lookup_insert_ne by discriminate.
    + intros i Hi Hj.
      rewrite list_lookup_insert_ne by (unfold VTIME; lia).
      now rewrite list_lookup_insert_ne by (unfold VMIN; lia).
    + rewrite list_lookup_insert_ne by discriminate.
      apply list_lookup_insert_eq. unfold VMIN. lia.
    + apply list_lookup_insert_eq. rewrite length_insert. unfold VTIME. lia.
Qed.

Lemma makeRaw_changes_only_raw_mode_settings_witness :
  let w := mkWorld (mkTerminal true shellTermios []) [] [] [] in
  exists w1,
    makeRaw w = Done (Some shellTermios, None) w1 /\
    Z.testbit (Lflag (settings (tty w1))) 0 = Z.testbit (Lflag shellTermios) 0 /\
    Z.testbit (Lflag (settings (tty w1))) 1 = false /\
    Kernel.c_cc (settings (tty w1)) Kernel.VMIN = Some 1 /\
    Kernel.c_cc shellTermios Kernel.VMIN = Some 1 /\
    Kernel.c_cc (settings (tty w1)) Kernel.VTIME = Some 1 /\
    Kernel.c_cc shellTermios Kernel.VTIME = Some 0 /\
    Kernel.c_cc (settings (tty w1)) Kernel.VEOF = Some 0 /\
    Kernel.c_cc shellTermios Kernel.VEOF = Some 4.
Proof.
  cbv zeta. eexists. split; [reflexivity |].
  pose proof (proj1 (makeRaw_changes_only_raw_mode_settings
                       (mkWorld (mkTerminal true shellTermios []) [] [] []) _ _ _ eq_refl)
                eq_refl)
    as (_ & H).
  cbv zeta in H.
  destruct H as (_ & _ & _ & _ & _ & H1 & _ & Hn & _ & _ & _ & _ & Hmin & _ & Hset).
  destruct (Hset eq_refl) as (Htime & Heof).
  split; [apply Hn; discriminate |].
  split; [exact H1 |].
  split; [rewrite Hmin; reflexivity |].
  split; [reflexivity |].
  split; [exact Htime |].
  split; [reflexivity |].
  split; [exact Heof | reflexivity].
Defined.

(** ** The respond sub-flow, all the way *)

Section RespondAll.

Context (u : Unicode) (token : TokenData.t).

Lemma respondMenu_httpCalls (requests : list IncomingFriendRequest.t) :
  httpCalls (respondMenu u requests) = [].
Proof.
  apply outputs_no_switch. unfold respondMenu, menuFrom. simpl.
  rewrite forallb_app. simpl. rewrite andb_true_r. apply menu_is_output.
Qed.

Lemma handleFriendRequestResponse_valid
    (requests : list IncomingFriendRequest.t) (w : World)
    (line : string) (rest : list LineRead) (n : Z) :
  lines w = LLine line :: rest ->
  Atoi (TrimSpace u line) = Some n ->
  1 <= n <= Z.of_nat (length (respondable u requests)) ->
  exists selected,
    respondable u requests !! Z.to_nat (n - 1) = Some selected /\
    handleFriendRequestResponse u token requests w =
      afterSelection u token selected
        (mkWorld (tty w) rest (replies w) (log w ++ respondMenu u requests)).
Proof.
  intros Hl Hn Hrange.
  assert (Hne : respondable u requests <> []).
  { intros E. rewrite E in Hrange. simpl in Hrange. lia. }
  destruct (lookup_lt_is_Some_2 (respondable u requests) (Z.to_nat (n - 1)))
    as (selected & Hsel); [lia |].
  exists selected. split; [exact Hsel |].
  unfold handleFriendRequestResponse, respondMenu, menuFrom.
  rewrite (respondable_nonempty u requests Hne).
  unfold bind at 1. unfold out at 1. unfold bind at 1. unfold out at 1.
  unfold bind at 1. rewrite (forRange_out menuLine) by reflexivity.
  unfold bind at 1. unfold out at 1. unfold bind at 1. unfold ReadString.
  cbn [lines emit tty replies log]. rewrite Hl. cbn iota beta. rewrite Hn.
  assert (Hb : (n <? 1) || (n >? Z.of_nat (length (respondable u requests))) = false).
  { apply orb_false_iff. split; [apply Z.ltb_ge | rewrite Z.gtb_ltb; apply Z.ltb_ge]; lia. }
  rewrite Hb, Hsel. unfold afterSelection, set_lines.
  cbn [lines emit tty replies log]. rewrite <- !app_assoc. reflexivity.
Qed.

Lemma handleFriendRequestResponse_read_error
    (requests : list IncomingFriendRequest.t) (w : World)
    (e : error) (rest : list LineRead) :
  respondable u requests <> [] ->
  lines w = LErr e :: rest ->
  handleFriendRequestResponse u token requests w =
    Done tt (mkWorld (tty w) rest (replies w)
               (log w ++ respondMenu u requests ++ [Printf readFailed [AErr e]])).
Proof.
  intros Hne Hl. unfold handleFriendRequestResponse, respondMenu, menuFrom.
  rewrite (respondable_nonempty u requests Hne).
  run. rewrite (forRange_out menuLine) by reflexivity. run.
  rewrite Hl. wsimpl. reflexivity.
Qed.

(** X3.  With no eligible request - an empty list, or accepted requests
    only - the respond sub-flow prints that there is nothing to respond to
    and returns: no menu, no line read, no request sent. *)
Theorem nothing_to_respond_to (requests : list IncomingFriendRequest.t) (w : World) :
  Forall (fun r => IncomingFriendRequest.Status r = "accepted") requests ->
  respondable u requests = [] /\
  handleFriendRequestResponse u token requests w =
    Done tt (mkWorld (tty w) (lines w) (replies w)
               (log w ++
                [Println "\nNo pending or rejected friend requests to respond to.";
                 Println "Only requests with 'pending' or 'rejected' status can be responded to."])).
Proof.
  intros Hacc.
  assert (He : respondable u requests = []).
  { rewrite respondable_filter.
    induction Hacc as [| r l Hr Hl IH]; [reflexivity |].
    simpl. unfold canRespond at 1. rewrite Hr. simpl. exact IH. }
  split; [exact He |].
  unfold handleFriendRequestResponse. rewrite He. run. wsimpl. reflexivity.
Qed.

Lemma afterSelection_answered (selected : IncomingFriendRequest.t) (w : World)
    (actionLine : string) (rest : list LineRead) (c : Z) (r : Reply) (rs : list Reply) :
  lines w = LLine actionLine :: rest ->
  Atoi (TrimSpace u actionLine) = Some c ->
  c = 1 \/ c = 2 ->
  replies w = r :: rs ->
  let sender := IncomingFriendRequest.SenderUsername selected in
  let action := if c =? 1 then "accept" else "reject" in
  afterSelection u token selected w =
    Done tt (mkWorld (tty w) rest rs
               (log w ++ actionMenu selected ++
                [Http (PostRespondFriendRequest (TokenData.Token token) sender action)] ++
                respondReport action sender r)).
Proof.
  intros Hl Hc Hc12 Hr. unfold afterSelection, actionMenu. run.
  rewrite Hl. simpl. rewrite Hc.
  destruct Hc12 as [-> | ->]; simpl; rewrite Hr;
    destruct r; wsimpl; reflexivity.
Qed.

Lemma afterSelection_invalid (selected : IncomingFriendRequest.t) (w : World)
    (actionLine : string) (rest : list LineRead) :
  lines w = LLine actionLine :: rest ->
  invalidAction (TrimSpace u actionLine) ->
  afterSelection u token selected w =
    Done tt (mkWorld (tty w) rest (replies w)
               (log w ++ actionMenu selected ++ [Println "Invalid choice."])).
Proof.
  intros Hl Hbad. unfold afterSelection, actionMenu. run.
  rewrite Hl. simpl.
  destruct Hbad as [-> | (n & -> & H1 & H2)]; [wsimpl; reflexivity |].
  apply Z.eqb_neq in H1, H2. rewrite H1, H2. wsimpl. reflexivity.
Qed.

Lemma actionMenu_httpCalls (selected : IncomingFriendRequest.t) :
  httpCalls (actionMenu selected) = [].
Proof. reflexivity. Qed.

Lemma respondReport_httpCalls (action sender : string) (r : Reply) :
  httpCalls (respondReport action sender r) = [].
Proof. destruct r; reflexivity. Qed.

Lemma afterSelection_cases (selected : IncomingFriendRequest.t) (w : World) :
  (forall w', afterSelection u token selected w <> Panic w') /\
  exists evs,
    log (world_of (afterSelection u token selected w)) = (log w ++ evs)%list /\
    (httpCalls evs = [] \/
     exists action,
       (action = "accept" \/ action = "reject") /\
       httpCalls evs =
         [Http (PostRespondFriendRequest (TokenData.Token token)
                  (IncomingFriendRequest.SenderUsername selected) action)]).
Proof.
  destruct (lines w) as [| [actionLine | e] rest] eqn:Hl.
  - unfold afterSelection. run. rewrite Hl. split; [discriminate |].
    eexists. split; [wsimpl; reflexivity |]. left. reflexivity.
  - destruct (Atoi (TrimSpace u actionLine)) as [c |] eqn:Hc.
    + destruct (Z.eq_dec c 1) as [E1 | N1]; [| destruct (Z.eq_dec c 2) as [E2 | N2]].
      * destruct (replies w) as [| r rs] eqn:Hr.
        -- unfold afterSelection. run. rewrite Hl. simpl. rewrite Hc, E1. simpl.
           rewrite Hr. split; [discriminate |].
           eexists. split; [wsimpl; reflexivity |]. right. exists "accept".
           split; [now left | reflexivity].
        -- rewrite (afterSelection_answered selected w actionLine rest c r rs Hl Hc
                      (or_introl E1) Hr).
           split; [discriminate |]. eexists. split; [reflexivity |].
           right. exists "accept". split; [now left |].
           rewrite E1. rewrite !httpCalls_app, actionMenu_httpCalls, respondReport_httpCalls.
           reflexivity.
      * destruct (replies w) as [| r rs] eqn:Hr.
        -- unfold afterSelection. run. rewrite Hl. simpl. rewrite Hc, E2. simpl.
           rewrite Hr. split; [discriminate |].
           eexists. split; [wsimpl; reflexivity |]. right. exists "reject".
           split; [now right | reflexivity].
        -- rewrite (afterSelection_answered selected w actionLine rest c r rs Hl Hc
                      (or_intror E2) Hr).
           split; [discriminate |]. eexists. split; [reflexivity |].
           right. exists "reject". split; [now right |].
           rewrite E2. rewrite !httpCalls_app, actionMenu_httpCalls, respondReport_httpCalls.
           reflexivity.
      * rewrite (afterSelection_invalid selected w actionLine rest Hl).
        -- split; [discriminate |]. eexists. split; [reflexivity |]. left.
           rewrite httpCalls_app. reflexivity.
        -- right. exists c. auto.
    + rewrite (afterSelection_invalid selected w actionLine rest Hl); [| now left].
      split; [discriminate |]. eexists. split; [reflexivity |]. left.
      rewrite httpCalls_app. reflexivity.
  - unfold afterSelection. run. rewrite Hl. split; [discriminate |].
    eexists. split; [wsimpl; reflexivity |]. left. reflexivity.
Qed.

(** X4.  A selection within range and the choice 1 or 2: the sub-flow
    sends one request, for the sender of the eligible request at the
    selected place, with action accept for 1 and reject for 2; it reports
    the answer (success, or the error of the back end) and returns. *)
Theorem respond_sends_selected_action (requests : list IncomingFriendRequest.t) (w : World)
    (line actionLine : string) (rest : list LineRead) (n c : Z)
    (r : Reply) (rs : list Reply) :
  lines w = LLine line :: LLine actionLine :: rest ->
  Atoi (TrimSpace u line) = Some n ->
  1 <= n <= Z.of_nat (length (respondable u requests)) ->
  Atoi (TrimSpace u actionLine) = Some c ->
  c = 1 \/ c = 2 ->
  replies w = r :: rs ->
  exists selected,
    respondable u requests !! Z.to_nat (n - 1) = Some selected /\
    let sender := IncomingFriendRequest.SenderUsername selected in
    let action := if c =? 1 then "accept" else "reject" in
    handleFriendRequestResponse u token requests w =
      Done tt (mkWorld (tty w) rest rs
                 (log w ++ respondMenu u requests ++ actionMenu selected ++
                  [Http (PostRespondFriendRequest (TokenData.Token token) sender action)] ++
                  respondReport action sender r)).
Proof.
  intros Hl Hn Hrange Hc Hc12 Hr.
  destruct (handleFriendRequestResponse_valid requests w line (LLine actionLine :: rest) n
              Hl Hn Hrange) as (selected & Hsel & Hrun).
  exists selected. split; [exact Hsel |]. cbv zeta. rewrite Hrun.
  rewrite (afterSelection_answered selected
             (mkWorld (tty w) (LLine actionLine :: rest) (replies w)
                (log w ++ respondMenu u requests))
             actionLine rest c r rs eq_refl Hc Hc12 Hr).
  cbn [tty log]. rewrite <- !app_assoc. reflexivity.
Qed.

(** X5.  A valid selection followed by an action choice that is no number
    or a number other than 1 and 2: "Invalid choice." is printed and the
    sub-flow returns with no request sent and no answer consumed. *)
Theorem respond_rejects_invalid_action (requests : list IncomingFriendRequest.t) (w : World)
    (line actionLine : string) (rest : list LineRead) (n : Z) :
  lines w = LLine line :: LLine actionLine :: rest ->
  Atoi (TrimSpace u line) = Some n ->
  1 <= n <= Z.of_nat (length (respondable u requests)) ->
  invalidAction (TrimSpace u actionLine) ->
  exists selected,
    respondable u requests !! Z.to_nat (n - 1) = Some selected /\
    handleFriendRequestResponse u token requests w =
      Done tt (mkWorld (tty w) rest (replies w)
                 (log w ++ respondMenu u requests ++ actionMenu selected ++
                  [Println "Invalid choice."])) /\
    httpCalls (log (world_of (handleFriendRequestResponse u token requests w))) =
      httpCalls (log w).
Proof.
  intros Hl Hn Hrange Hbad.
  destruct (handleFriendRequestResponse_valid requests w line (LLine actionLine :: rest) n
              Hl Hn Hrange) as (selected & Hsel & Hrun).
  exists selected. split; [exact Hsel |]. rewrite Hrun.
  rewrite (afterSelection_invalid selected
             (mkWorld (tty w) (LLine actionLine :: rest) (replies w)
                (log w ++ respondMenu u requests))
             actionLine rest eq_refl Hbad).
  cbn [tty log replies world_of]. split; [rewrite <- !app_assoc; reflexivity |].
  rewrite !httpCalls_app, respondMenu_httpCalls, actionMenu_httpCalls. simpl.
  now rewrite !app_nil_r.
Qed.

(** X6.  Whatever is typed and whatever the back end answers, the respond
    sub-flow never panics (the index into the eligible list is always in
    range) and sends at most one request; a request it sends answers a
    request of the eligible list, with accept or reject. *)
Theorem respond_is_safe (requests : list IncomingFriendRequest.t) (w : World) :
  (forall w', handleFriendRequestResponse u token requests w <> Panic w') /\
  exists evs,
    log (world_of (handleFriendRequestResponse u token requests w)) = (log w ++ evs)%list /\
    respondsToEligible u token requests evs.
Proof.
  unfold respondsToEligible.
  destruct (respondable u requests) as [| r0 l0] eqn:Hresp.
  - assert (H : handleFriendRequestResponse u token requests w =
                Done tt (mkWorld (tty w) (lines w) (replies w)
                  (log w ++
                   [Println "\nNo pending or rejected friend requests to respond to.";
                    Println "Only requests with 'pending' or 'rejected' status can be responded to."]))).
    { unfold handleFriendRequestResponse. rewrite Hresp. run. wsimpl. reflexivity. }
    rewrite H. split; [discriminate |]. eexists. split; [reflexivity |]. now left.
  - assert (Hne : respondable u requests <> []) by (rewrite Hresp; discriminate).
    rewrite <- Hresp.
    destruct (lines w) as [| [line | e] rest] eqn:Hl.
    + rewrite (handleFriendRequestResponse_menu u token requests w Hne Hl).
      split; [discriminate |]. eexists. split; [reflexivity |]. left.
      apply respondMenu_httpCalls.
    + destruct (Atoi (TrimSpace u line)) as [n |] eqn:Hn.
      * destruct (Z_lt_dec n 1) as [Hlow | Hlow];
          [| destruct (Z_gt_dec n (Z.of_nat (length (respondable u requests)))) as [Hhi | Hhi]].
        -- rewrite (handleFriendRequestResponse_invalid u token requests w line rest Hne Hl).
           ++ split; [discriminate |]. eexists. split; [reflexivity |]. left.
              rewrite httpCalls_app, respondMenu_httpCalls. reflexivity.
           ++ right. exists n. auto.
        -- rewrite (handleFriendRequestResponse_invalid u token requests w line rest Hne Hl).
           ++ split; [discriminate |]. eexists. split; [reflexivity |]. left.
              rewrite httpCalls_app, respondMenu_httpCalls. reflexivity.
           ++ right. exists n. auto.
        -- destruct (handleFriendRequestResponse_valid requests w line rest n Hl Hn)
             as (selected & Hsel & Hrun); [lia |].
           rewrite Hrun.
           destruct (afterSelection_cases selected
                       (mkWorld (tty w) rest (replies w) (log w ++ respondMenu u requests)))
             as (Hnp & evs & Hlog & Hcalls).
           split; [exact Hnp |].
           exists (respondMenu u requests ++ evs)%list.
           split; [rewrite Hlog; cbn [log]; now rewrite <- app_assoc |].
           rewrite httpCalls_app, respondMenu_httpCalls. simpl.
           destruct Hcalls as [H0 | (action & Ha & Hc)]; [now left |].
           right. exists selected, action. repeat split; auto.
           apply list_elem_of_In. eapply list_elem_of_lookup_2. exact Hsel.
      * rewrite (handleFriendRequestResponse_invalid u token requests w line rest Hne Hl);
          [| now left].
        split; [discriminate |]. eexists. split; [reflexivity |]. left.
        rewrite httpCalls_app, respondMenu_httpCalls. reflexivity.
    + rewrite (handleFriendRequestResponse_read_error requests w e rest Hne Hl).
      split; [discriminate |]. eexists. split; [reflexivity |]. left.
      rewrite httpCalls_app, respondMenu_httpCalls. reflexivity.
Qed.

End RespondAll.

Lemma nothing_to_respond_to_witness :
  handleFriendRequestResponse asciiOnly token0 [request0 1 "accepted"]
    (mkWorld terminal0 [LLine ("1" ++ nl)] [ReplyOK] []) =
  Done tt (mkWorld terminal0 [LLine ("1" ++ nl)] [ReplyOK]
             [Println "\nNo pending or rejected friend requests to respond to.";
              Println "Only requests with 'pending' or 'rejected' status can be responded to."]).
Proof.
  exact (proj2 (nothing_to_respond_to asciiOnly token0 [request0 1 "accepted"]
                  (mkWorld terminal0 [LLine ("1" ++ nl)] [ReplyOK] [])
                  ltac:(repeat constructor))).
Defined.

Lemma respond_sends_selected_action_witness :
  exists selected,
    respondable asciiOnly requests0 !! Z.to_nat (2 - 1) = Some selected /\
    handleFriendRequestResponse asciiOnly token0 requests0
      (mkWorld terminal0 [LLine ("2" ++ nl); LLine ("1" ++ nl)] [ReplyOK] []) =
    Done tt (mkWorld terminal0 [] []
               ([] ++ respondMenu asciiOnly requests0 ++ actionMenu selected ++
                [Http (PostRespondFriendRequest "tok"
                         (IncomingFriendRequest.SenderUsername selected) "accept")] ++
                respondReport "accept" (IncomingFriendRequest.SenderUsername selected) ReplyOK)).
Proof.
  exact (respond_sends_selected_action asciiOnly token0 requests0
           (mkWorld terminal0 [LLine ("2" ++ nl); LLine ("1" ++ nl)] [ReplyOK] [])
           ("2" ++ nl) ("1" ++ nl) [] 2 1 ReplyOK []
           eq_refl eq_refl ltac:(simpl; lia) eq_refl (or_introl eq_refl) eq_refl).
Defined.

Lemma respond_rejects_invalid_action_witness :
  exists selected,
    respondable asciiOnly requests0 !! Z.to_nat (1 - 1) = Some selected /\
    handleFriendRequestResponse asciiOnly token0 requests0
      (mkWorld terminal0 [LLine ("1" ++ nl); LLine ("3" ++ nl)] [ReplyOK] []) =
    Done tt (mkWorld terminal0 [] [ReplyOK]
               ([] ++ respondMenu asciiOnly requests0 ++ actionMenu selected ++
                [Println "Invalid choice."])) /\
    httpCalls (log (world_of (handleFriendRequestResponse asciiOnly token0 requests0
                  (mkWorld terminal0 [LLine ("1" ++ nl); LLine ("3" ++ nl)] [ReplyOK] [])))) =
      httpCalls [].
Proof.
  assert (Hbad : invalidAction (TrimSpace asciiOnly ("3" ++ nl))).
  { right. exists 3. split; [reflexivity |]. split; discriminate. }
  assert (Hrange : 1 <= 1 <= Z.of_nat (length (respondable asciiOnly requests0))).
  { change (respondable asciiOnly requests0)
      with [request0 2 "pending"; request0 3 "rejected"]. simpl. lia. }
  exact (respond_rejects_invalid_action asciiOnly token0 requests0
           (mkWorld terminal0 [LLine ("1" ++ nl); LLine ("3" ++ nl)] [ReplyOK] [])
           ("1" ++ nl) ("3" ++ nl) [] 1 eq_refl eq_refl Hrange Hbad).
Defined.

(** ** Errors of the handlers *)

Lemma handleSendMessage_read_failed (u : Unicode) (token : TokenData.t)
    (friend : Friend.t) (w : World) (e : error) (rest : list LineRead) :
  lines w = LErr e :: rest ->
  handleSendMessage u token friend w =
    Done (Some (Errorf "error reading message input: %v" e))
      (mkWorld (tty w) rest (replies w) (log w ++ composePrompt friend)).
Proof. intros Hl. unfold handleSendMessage. run. rewrite Hl. wsimpl. reflexivity. Qed.

Lemma handleSendMessage_send_failed (u : Unicode) (token : TokenData.t)
    (friend : Friend.t) (w : World) (line : string) (rest : list LineRead)
    (e : error) (rs : list Reply) :
  lines w = LLine line :: rest -> TrimSpace u line <> "" ->
  replies w = ReplyErr e :: rs ->
  handleSendMessage u token friend w =
    Done (Some (Errorf "failed to send message: %v" e))
      (mkWorld (tty w) rest rs
         (log w ++ composePrompt friend ++
          [Println "📤 Sending message...";
           Http (PostSendMessage (TokenData.Token token) (TrimSpace u line)
                   (Friend.GetUserID friend))])).
Proof.
  intros Hl Ht Hr. apply String.eqb_neq in Ht.
  unfold handleSendMessage. run. rewrite Hl. simpl. rewrite Ht. simpl. rewrite Hr.
  wsimpl. reflexivity.
Qed.

Section HandlerErrors.

Context (u : Unicode) (token : TokenData.t).

(** X7.  [handleSendMessage] returns an error in two cases and no other:
    the line cannot be read (nothing is sent), or the send request fails
    (it is the only request then: no refresh follows, and no further
    answer is consumed).  The error wraps the cause. *)
Theorem handleSendMessage_errors (friend : Friend.t) (w : World) :
  (forall e rest,
     lines w = LErr e :: rest ->
     handleSendMessage u token friend w =
       Done (Some (Errorf "error reading message input: %v" e))
         (mkWorld (tty w) rest (replies w) (log w ++ composePrompt friend))) /\
  (forall line rest e rs,
     lines w = LLine line :: rest -> TrimSpace u line <> "" ->
     replies w = ReplyErr e :: rs ->
     handleSendMessage u token friend w =
       Done (Some (Errorf "failed to send message: %v" e))
         (mkWorld (tty w) rest rs
            (log w ++ composePrompt friend ++
             [Println "📤 Sending message...";
              Http (PostSendMessage (TokenData.Token token) (TrimSpace u line)
                      (Friend.GetUserID friend))]))) /\
  (forall err w',
     handleSendMessage u token friend w = Done (Some err) w' ->
     (exists e rest, lines w = LErr e :: rest /\
                     err = Errorf "error reading message input: %v" e) \/
     (exists e rs, replies w = ReplyErr e :: rs /\
                   err = Errorf "failed to send message: %v" e)).
Proof.
  split; [| split].
  - intros e rest Hl. now apply handleSendMessage_read_failed.
  - intros line rest e rs Hl Ht Hr. now apply handleSendMessage_send_failed.
  - intros err w'. unfold handleSendMessage. run.
    destruct (lines w) as [| [line | e] rest] eqn:Hl; simpl; [discriminate | |].
    + destruct (TrimSpace u line =? "")%string; run; [discriminate |].
      destruct (replies w) as [| r1 rs] eqn:Hr; run; [discriminate |].
      destruct r1 as [e | |]; run.
      * intros H. inversion H; subst. right. eauto.
      * destruct rs as [| r2 rs]; run; [discriminate |]. destruct r2; run; discriminate.
      * destruct rs as [| r2 rs]; run; [discriminate |]. destruct r2; run; discriminate.
    + intros H. inversion H; subst. left. eauto.
Qed.

(** X8.  [handleIncomingRequests] returns an error exactly when the fetch
    of the requests fails: the error wraps the cause, nothing is displayed,
    raw mode is never entered and no key is read.  Once the requests are
    fetched, whatever happens in the key loop, it returns nil. *)
Theorem handleIncomingRequests_errors (keys : list KeyRead) (w : World) :
  (forall e rs,
     replies w = ReplyErr e :: rs ->
     handleIncomingRequests u token keys w =
       Done (Some (Errorf "failed to fetch incoming requests: %v" e))
         (mkWorld (tty w) (lines w) rs
            (log w ++
             [Println "\n📥 Fetching incoming friend requests...";
              Http (GetIncomingFriendRequests (TokenData.Token token) incomingURL)]))) /\
  (forall err w',
     handleIncomingRequests u token keys w = Done (Some err) w' ->
     exists e rs, replies w = ReplyErr e :: rs /\
                  err = Errorf "failed to fetch incoming requests: %v" e).
Proof.
  split.
  - intros e rs Hr. unfold handleIncomingRequests. run. rewrite Hr. wsimpl. reflexivity.
  - intros err w' H. unfold handleIncomingRequests in H.
    apply bind_inv in H as (x & w1 & Ho & H). apply out_inv in Ho. subst w1.
    apply bind_inv in H as ([resp e0] & w2 & Hf & H).
    unfold fetchIncomingFriendRequests in Hf.
    apply bind_inv in Hf as (r & w3 & Hrt & Hf).
    unfold roundTrip in Hrt. cbn [replies emit] in Hrt.
    destruct (replies w) as [| r' rs] eqn:Hr; [discriminate |].
    inversion Hrt; subst r' w3. clear Hrt.
    destruct r as [e | | resp0]; inversion Hf; subst.
    + inversion H; subst. eauto.
    + apply bind_inv in H as (x1 & w4 & _ & H).
      apply bind_inv in H as (x2 & w5 & _ & H).
      apply bind_inv in H as (x3 & w6 & _ & H). discriminate.
    + apply bind_inv in H as (x1 & w4 & _ & H).
      apply bind_inv in H as (x2 & w5 & _ & H).
      apply bind_inv in H as (x3 & w6 & _ & H). discriminate.
Qed.

End HandlerErrors.

(** ** The conversation loop, key by key *)

Section Keys.

Context (u : Unicode) (token : TokenData.t) (friend : Friend.t).





End Keys.



(** ** Sessions on a terminal that does not fail *)

Section Sessions.

Context (u : Unicode) (token : TokenData.t).



End Sessions.


(** ** Code that leaves the terminal device alone *)

Lemma keepsTty_ret {A} (a : A) : keepsTty (ret a).
Proof. intros w. reflexivity. Qed.

Lemma keepsTty_out (e : Event) : keepsTty (out e).
Proof. intros w. reflexivity. Qed.

Lemma keepsTty_panic {A} : keepsTty (@panic A).
Proof. intros w. reflexivity. Qed.

Lemma keepsTty_ReadString : keepsTty ReadString.
Proof. intros w. unfold ReadString. now destruct (lines w). Qed.

Lemma keepsTty_roundTrip (c : NetCall) : keepsTty (roundTrip c).
Proof. intros w. unfold roundTrip. cbn [replies emit]. now destruct (replies w). Qed.

Lemma keepsTty_bind {A B} (m : M A) (k : A -> M B) :
  keepsTty m -> (forall a, keepsTty (k a)) -> keepsTty (bind m k).
Proof.
  intros Hm Hk w. specialize (Hm w). unfold bind.
  destruct (m w) as [a w1 | | |]; simpl in *; auto.
  now rewrite Hk.
Qed.

Lemma keepsTty_forRange {A} (body : nat -> A -> M unit) (l : list A) (i : nat) :
  (forall i x, keepsTty (body i x)) -> keepsTty (forRange body i l).
Proof.
  intros Hb. revert i. induction l as [| x l IH]; intros i; simpl.
  - apply keepsTty_ret.
  - apply keepsTty_bind; auto.
Qed.

Ltac keepsTty_steps :=
  repeat first
    [ apply keepsTty_ret
    | apply keepsTty_ReadString
    | apply keepsTty_roundTrip
    | apply keepsTty_panic
    | apply keepsTty_out
    | apply keepsTty_forRange; intros
    | apply keepsTty_bind; [| intros]
    | match goal with
      | |- keepsTty (match ?x with _ => _ end) => destruct x
      | |- keepsTty (if ?b then _ else _) => destruct b
      end ].

Lemma fetchConversation_keepsTty (token : TokenData.t) (friend : Friend.t) :
  keepsTty (fetchConversation token friend).
Proof. unfold fetchConversation. keepsTty_steps. Qed.

Lemma handleSendMessage_keepsTty (u : Unicode) (token : TokenData.t) (friend : Friend.t) :
  keepsTty (handleSendMessage u token friend).
Proof.
  unfold handleSendMessage, sendMessageToFriend, fetchConversation. keepsTty_steps.
Qed.

Lemma handleFriendRequestResponse_keepsTty (u : Unicode) (token : TokenData.t)
    (requests : list IncomingFriendRequest.t) :
  keepsTty (handleFriendRequestResponse u token requests).
Proof.
  unfold handleFriendRequestResponse, respondToFriendRequest. keepsTty_steps.
Qed.

Lemma keepsTty_done {A} (m : M A) (w w' : World) (a : A) :
  keepsTty m -> m w = Done a w' -> tty w' = tty w.
Proof. intros Hk H. specialize (Hk w). now rewrite H in Hk. Qed.

Lemma raised_sound (s : termios) : sound (raised s).
Proof. split; reflexivity. Qed.

Lemma lowered_sound (s : termios) : sound (lowered s).
Proof. split; reflexivity. Qed.

Section Restored.

Context (u : Unicode) (token : TokenData.t).

Lemma restore_inv_sound (s s0 : termios) (w w1 : World) (err : option error) :
  tty w = raised s \/ tty w = lowered s ->
  restore (Some s0) w = Done err w1 -> tty w1 = lowered s0.
Proof.
  intros Ht H. rewrite restore_sound in H.
  - now inversion H.
  - destruct Ht as [-> | ->]; [apply raised_sound | apply lowered_sound].
Qed.

Lemma reenterRaw_inv_sound (s : termios) (w w' : World) (c : Ctl) :
  tty w = lowered s ->
  reenterRaw w = Done c w' -> c = Next (Some s) /\ tty w' = raised s.
Proof.
  intros Ht H. unfold reenterRaw, makeRawForReceiveMessage, bind in H.
  rewrite makeRaw_sound in H by (rewrite Ht; apply lowered_sound).
  rewrite Ht in H. inversion H. split; reflexivity.
Qed.

Lemma action_inv_sound (s : termios) (first : Event) (m : M (option error))
    (format : string) (w w' : World) (c : Ctl) :
  tty w = raised s -> keepsTty m ->
  (restoreForReceiveMessage (Some s) ;;;
   out first ;;;
   let* err := m in
   match err with
   | Some err => out (Printf format [AErr err])
   | None => ret tt
   end ;;;
   out promptKeys ;;;
   reenterRaw) w = Done c w' ->
  c = Next (Some s) /\ tty w' = raised s.
Proof.
  intros Ht Hk H.
  apply bind_inv in H as (e1 & w1 & Hres & H).
  apply (restore_inv_sound s s w w1 e1 (or_introl Ht)) in Hres.
  apply bind_inv in H as (x2 & w2 & Ho & H). apply out_inv in Ho.
  apply bind_inv in H as (err & w3 & Hm & H).
  apply (keepsTty_done m w2 w3 err Hk) in Hm.
  apply bind_inv in H as (x3 & w3' & Hrep & H).
  assert (Ht3 : tty w3' = tty w3).
  { destruct err; [apply out_inv in Hrep; now subst | now inversion Hrep]. }
  apply bind_inv in H as (x4 & w4 & Ho4 & H). apply out_inv in Ho4.
  apply (reenterRaw_inv_sound s w4 w' c); [| exact H].
  subst w4 w2. cbn [tty emit]. cbn [tty emit] in Hm. congruence.
Qed.

Lemma onKey_inv_sound (friend : Friend.t) (b : byte) (s : termios)
    (w w' : World) (c : Ctl) :
  tty w = raised s ->
  onKey u token friend b (Some s) w = Done c w' ->
  c = Next (Some s) /\ tty w' = raised s.
Proof.
  unfold onKey. intros Ht H.
  destruct (Byte.to_N b =? 18)%N eqn:E18.
  - apply N.eqb_eq in E18. rewrite E18 in H. simpl in H.
    apply bind_inv in H as (c1 & w1 & Hr & H).
    unfold onCtrlR in Hr.
    apply (action_inv_sound s _ _ _ w w1 c1 Ht (fetchConversation_keepsTty token friend))
      in Hr as [-> Ht1].
    inversion H; subst. auto.
  - apply bind_inv in H as (c1 & w1 & Hr & H). inversion Hr; subst c1 w1. clear Hr.
    destruct (Byte.to_N b =? 19)%N eqn:E19.
    + apply N.eqb_eq in E19. rewrite E19 in H. simpl in H.
      apply bind_inv in H as (c2 & w2 & Hs & H).
      unfold onCtrlS in Hs.
      apply (action_inv_sound s _ _ _ w w2 c2 Ht (handleSendMessage_keepsTty u token friend))
        in Hs as [-> Ht2].
      inversion H; subst. auto.
    + apply bind_inv in H as (c2 & w2 & Hr & H). inversion Hr; subst c2 w2. clear Hr.
      destruct (Byte.to_N b =? 3)%N.
      * apply bind_inv in H as (x & w2 & _ & H). discriminate.
      * inversion H; subst. auto.
Qed.

Lemma loop_inv_sound (friend : Friend.t) (keys : list KeyRead) (s : termios)
    (w w' : World) (x : unit) :
  tty w = raised s ->
  waitForCtrlRInReceiveMessage_loop u token friend (Some s) keys w = Done x w' ->
  tty w' = raised s.
Proof.
  revert w. induction keys as [| k keys IH]; intros w Ht H; simpl in H.
  - discriminate.
  - destruct k as [b | | e].
    + apply bind_inv in H as (c & w1 & Hk & H).
      apply (onKey_inv_sound friend b s w w1 c Ht) in Hk as [-> Ht1].
      now apply IH in H.
    + now apply IH in H.
    + apply out_inv in H. now subst.
Qed.

Lemma waitForCtrlR_loop_inv_sound (requests : list IncomingFriendRequest.t)
    (keys : list KeyRead) (s : termios) (w w' : World) (x : unit) :
  tty w = raised s ->
  waitForCtrlR_loop u token requests (Some s) keys w = Done x w' ->
  tty w' = raised s \/ tty w' = lowered s.
Proof.
  revert w. induction keys as [| k keys IH]; intros w Ht H; simpl in H.
  - discriminate.
  - destruct k as [b | | e].
    + destruct (Byte.to_N b =? 18)%N.
      * apply bind_inv in H as (err & w1 & Hres & H).
        apply (restore_inv_sound s s w w1 err (or_introl Ht)) in Hres.
        apply (keepsTty_done _ _ _ _ (handleFriendRequestResponse_keepsTty u token requests))
          in H.
        right. congruence.
      * destruct (Byte.to_N b =? 3)%N.
        -- apply bind_inv in H as (y & w1 & _ & H). discriminate.
        -- now apply IH in H.
    + now apply IH in H.
    + apply out_inv in H. subst. now left.
Qed.

(** X12.  On a terminal that does not fail, whenever a key loop function
    returns - after a failed key read, or after the respond action - the
    terminal device is exactly as the function found it: the settings it
    started from are back in place. *)
Theorem returning_session_leaves_terminal_as_found (friend : Friend.t)
    (requests : list IncomingFriendRequest.t) (keys : list KeyRead) (w w' : World) :
  sound (tty w) ->
  (waitForCtrlRInReceiveMessage u token friend keys w = Done tt w' -> tty w' = tty w) /\
  (waitForCtrlR u token requests keys w = Done tt w' -> tty w' = tty w).
Proof.
  intros Hs.
  assert (Hlow : tty w = lowered (settings (tty w))).
  { destruct Hs as [Hi Hf]. destruct (tty w) as [i st f]. simpl in *. now subst. }
  split; intros H.
  - unfold waitForCtrlRInReceiveMessage, makeRawForReceiveMessage in H.
    unfold bind at 1 in H. rewrite (makeRaw_sound w Hs) in H.
    apply defer_inv in H as (w2 & err & Hloop & Hres).
    apply (loop_inv_sound friend keys (settings (tty w))) in Hloop; [| reflexivity].
    unfold restoreForReceiveMessage in Hres.
    apply (restore_inv_sound (settings (tty w)) _ w2 w' err (or_introl Hloop)) in Hres.
    congruence.
  - unfold waitForCtrlR in H.
    unfold bind at 1 in H. rewrite (makeRaw_sound w Hs) in H.
    apply defer_inv in H as (w2 & err & Hloop & Hres).
    apply (waitForCtrlR_loop_inv_sound requests keys (settings (tty w))) in Hloop;
      [| reflexivity].
    apply (restore_inv_sound (settings (tty w)) _ w2 w' err Hloop) in Hres.
    congruence.
Qed.

End Restored.

Lemma returning_session_leaves_terminal_as_found_witness :
  let w := mkWorld terminal0 [LLine ("hi" ++ nl)] [ReplyOK; ReplyOK; ReplyOK] [] in
  let keys := [KByte x13; KByte x12; KErr (ErrorString "EOF")] in
  sound (tty w) /\
  tty (world_of (waitForCtrlRInReceiveMessage asciiOnly token0 friend0 keys w)) = tty w.
Proof.
  assert (Hs : sound terminal0) by (split; reflexivity).
  assert (Hrun : exists w',
             waitForCtrlRInReceiveMessage asciiOnly token0 friend0
               [KByte x13; KByte x12; KErr (ErrorString "EOF")]
               (mkWorld terminal0 [LLine ("hi" ++ nl)] [ReplyOK; ReplyOK; ReplyOK] []) =
             Done tt w').
  { eexists. vm_compute. reflexivity. }
  destruct Hrun as [w' Hrun].
  cbv zeta. split; [exact Hs |].
  rewrite Hrun.
  exact (proj1 (returning_session_leaves_terminal_as_found asciiOnly token0 friend0 requests0
                  [KByte x13; KByte x12; KErr (ErrorString "EOF")]
                  (mkWorld terminal0 [LLine ("hi" ++ nl)] [ReplyOK; ReplyOK; ReplyOK] [])
                  w' Hs) Hrun).
Defined.

(** ** Choosing a friend, starting a conversation *)

Section Start.

Context (u : Unicode).

Lemma selectFriend_menu (friends : FriendsData.t) (choice : string) (w : World) :
  selectFriendForReceiveMessage friends choice w =
    match Atoi choice with
    | None =>
        Done (None, Some (ErrorString "invalid choice: please enter a number"))
          (mkWorld (tty w) (lines w) (replies w) (log w ++ friendsMenu friends))
    | Some choiceNum =>
        if (choiceNum <? 1) ||
           (choiceNum >? Z.of_nat (length (FriendsData.Friends friends)))
        then
          Done (None,
                Some (ErrorString
                        ("invalid choice: please select a number between 1 and " ++
                         decimal (length (FriendsData.Friends friends)))))
            (mkWorld (tty w) (lines w) (replies w) (log w ++ friendsMenu friends))
        else
          match FriendsData.Friends friends !! Z.to_nat (choiceNum - 1) with
          | None => Panic (mkWorld (tty w) (lines w) (replies w) (log w ++ friendsMenu friends))
          | Some selectedFriend =>
              Done (Some selectedFriend, None)
                (mkWorld (tty w) (lines w) (replies w)
                   (log w ++ friendsMenu friends ++
                    [Printf "Selected: %s\n" [AStr (Friend.GetUsername selectedFriend)]]))
          end
    end.
Proof.
  unfold selectFriendForReceiveMessage, friendsMenu.
  unfold bind at 1. unfold out at 1. unfold bind at 1.
  rewrite (forRange_out friendLine) by reflexivity.
  unfold bind at 1. unfold out at 1.
  destruct (Atoi choice) as [n |]; [| unfold ret; wsimpl; reflexivity].
  destruct ((n <? 1) || (n >? Z.of_nat (length (FriendsData.Friends friends))));
    [unfold ret; wsimpl; reflexivity |].
  destruct (FriendsData.Friends friends !! Z.to_nat (n - 1));
    run; wsimpl; reflexivity.
Qed.

(** X13.  [selectFriendForReceiveMessage] prints the numbered friends
    list and then: for a number within the list it returns the friend at
    that place (counted from 1) and no error; for a word that is no number
    or a number outside the list it returns no friend and an error that
    says which.  It never indexes outside the list, and it leaves the
    terminal device and the answers of the back end untouched. *)
Theorem selectFriend_returns_the_numbered_friend (friends : FriendsData.t)
    (choice : string) (w : World) :
  let count := length (FriendsData.Friends friends) in
  (forall n,
     Atoi choice = Some n -> 1 <= n <= Z.of_nat count ->
     exists selected,
       FriendsData.Friends friends !! Z.to_nat (n - 1) = Some selected /\
       selectFriendForReceiveMessage friends choice w =
         Done (Some selected, None)
           (mkWorld (tty w) (lines w) (replies w)
              (log w ++ friendsMenu friends ++
               [Printf "Selected: %s\n" [AStr (Friend.GetUsername selected)]]))) /\
  (invalidChoice count choice ->
   selectFriendForReceiveMessage friends choice w =
     Done (None, Some (choiceError count choice))
       (mkWorld (tty w) (lines w) (replies w) (log w ++ friendsMenu friends))) /\
  (forall w', selectFriendForReceiveMessage friends choice w <> Panic w').
Proof.
  cbv zeta. rewrite selectFriend_menu. unfold invalidChoice, choiceError.
  split; [| split].
  - intros n Hn Hrange. rewrite Hn.
    assert (Hb : (n <? 1) || (n >? Z.of_nat (length (FriendsData.Friends friends))) = false).
    { apply orb_false_iff. split; [apply Z.ltb_ge | rewrite Z.gtb_ltb; apply Z.ltb_ge]; lia. }
    rewrite Hb.
    destruct (lookup_lt_is_Some_2 (FriendsData.Friends friends) (Z.to_nat (n - 1)))
      as (selected & Hsel); [lia |].
    exists selected. rewrite Hsel. auto.
  - intros [Hnone | (n & Hn & Hrange)].
    + rewrite Hnone. reflexivity.
    + rewrite Hn.
      assert (Hb : (n <? 1) || (n >? Z.of_nat (length (FriendsData.Friends friends))) = true).
      { apply orb_true_iff.
        destruct Hrange; [left; apply Z.ltb_lt | right; apply Z.gtb_lt]; lia. }
      rewrite Hb. reflexivity.
  - intros w'. destruct (Atoi choice) as [n |]; [| discriminate].
    destruct ((n <? 1) || (n >? Z.of_nat (length (FriendsData.Friends friends)))) eqn:Hb;
      [discriminate |].
    apply orb_false_iff in Hb as [H1 H2].
    apply Z.ltb_ge in H1. rewrite Z.gtb_ltb in H2. apply Z.ltb_ge in H2.
    destruct (lookup_lt_is_Some_2 (FriendsData.Friends friends) (Z.to_nat (n - 1)))
      as (selected & Hsel); [lia |].
    rewrite Hsel. discriminate.
Qed.

End Start.

(** ** Starting a conversation *)

Section Receive.

Context (u : Unicode).

Lemma selectFriend_invalid (friends : FriendsData.t) (choice : string) (w : World) :
  invalidChoice (length (FriendsData.Friends friends)) choice ->
  selectFriendForReceiveMessage friends choice w =
    Done (None, Some (choiceError (length (FriendsData.Friends friends)) choice))
      (mkWorld (tty w) (lines w) (replies w) (log w ++ friendsMenu friends)).
Proof.
  rewrite selectFriend_menu. unfold invalidChoice, choiceError.
  intros [Hnone | (n & Hn & Hrange)].
  - rewrite Hnone. reflexivity.
  - rewrite Hn.
    assert (Hb : (n <? 1) || (n >? Z.of_nat (length (FriendsData.Friends friends))) = true).
    { apply orb_true_iff.
      destruct Hrange; [left; apply Z.ltb_lt | right; apply Z.gtb_lt]; lia. }
    rewrite Hb. reflexivity.
Qed.

Lemma selectFriend_valid (friends : FriendsData.t) (choice : string) (w : World)
    (n : Z) (selected : Friend.t) :
  Atoi choice = Some n ->
  1 <= n ->
  FriendsData.Friends friends !! Z.to_nat (n - 1) = Some selected ->
  selectFriendForReceiveMessage friends choice w =
    Done (Some selected, None)
      (mkWorld (tty w) (lines w) (replies w)
         (log w ++ friendsMenu friends ++
          [Printf "Selected: %s\n" [AStr (Friend.GetUsername selected)]])).
Proof.
  intros Hn Hpos Hsel. rewrite selectFriend_menu, Hn.
  pose proof (lookup_lt_Some _ _ _ Hsel) as Hlt.
  assert (Hb : (n <? 1) || (n >? Z.of_nat (length (FriendsData.Friends friends))) = false).
  { apply orb_false_iff. split; [apply Z.ltb_ge | rewrite Z.gtb_ltb; apply Z.ltb_ge]; lia. }
  rewrite Hb, Hsel. reflexivity.
Qed.

(** After a valid selection [receive_message] goes on with the first fetch
    for the selected friend. *)
Lemma receive_message_selected (token : TokenData.t) (friends : FriendsData.t)
    (choice : string) (keys : list KeyRead) (w : World) (n : Z) (selected : Friend.t) :
  Atoi choice = Some n ->
  1 <= n ->
  FriendsData.Friends friends !! Z.to_nat (n - 1) = Some selected ->
  receive_message u (inl token) (inl friends) choice keys w =
    bind (fetchConversation token selected)
      (fun err =>
         match err with
         | Some err =>
             out (Printf "Error fetching conversation: %v\n" [AErr err]) ;;;
             osExit 1
         | None =>
             out promptKeys ;;;
             waitForCtrlRInReceiveMessage u token selected keys ;;;
             ret None
         end)
      (mkWorld (tty w) (lines w) (replies w)
         (log w ++ friendsMenu friends ++
          [Printf "Selected: %s\n" [AStr (Friend.GetUsername selected)]])).
Proof.
  intros Hn Hpos Hsel. unfold receive_message.
  pose proof (lookup_lt_Some _ _ _ Hsel) as Hlt.
  destruct (length (FriendsData.Friends friends) =? 0)%nat eqn:Hlen;
    [apply Nat.eqb_eq in Hlen; lia |].
  unfold bind at 1. rewrite (selectFriend_valid friends choice w n selected Hn Hpos Hsel).
  reflexivity.
Qed.

(** X14.  [receive_message] ends the process with exit code 1, after one
    line that names the cause, when the token cannot be read, when the
    friends cannot be fetched, when the friends list is empty, when the
    word typed selects no friend, and when the first fetch of the
    conversation fails.  In each case the terminal device is untouched and
    raw mode was never asked for; the conversation is requested in the last
    case only, once, for the selected friend. *)
Theorem receive_message_start_failures (friendsFetched : FriendsData.t + error)
    (choice : string) (keys : list KeyRead) (w : World) :
  (forall e,
     receive_message u (inr e) friendsFetched choice keys w =
       Exit 1 (mkWorld (tty w) (lines w) (replies w)
                 (log w ++ [Printf "Error reading token: %v\n" [AErr e]]))) /\
  (forall token e,
     receive_message u (inl token) (inr e) choice keys w =
       Exit 1 (mkWorld (tty w) (lines w) (replies w)
                 (log w ++ [Printf "Error fetching friends: %v\n" [AErr e]]))) /\
  (forall token friends,
     FriendsData.Friends friends = [] ->
     receive_message u (inl token) (inl friends) choice keys w =
       Exit 1 (mkWorld (tty w) (lines w) (replies w)
                 (log w ++ [Println "No friends found in your friends list."]))) /\
  (forall token friends,
     FriendsData.Friends friends <> [] ->
     invalidChoice (length (FriendsData.Friends friends)) choice ->
     receive_message u (inl token) (inl friends) choice keys w =
       Exit 1 (mkWorld (tty w) (lines w) (replies w)
                 (log w ++ friendsMenu friends ++
                  [Printf "Error selecting friend: %v\n"
                     [AErr (choiceError (length (FriendsData.Friends friends)) choice)]]))) /\
  (forall token friends n selected e rs,
     Atoi choice = Some n ->
     1 <= n ->
     FriendsData.Friends friends !! Z.to_nat (n - 1) = Some selected ->
     replies w = ReplyErr e :: rs ->
     receive_message u (inl token) (inl friends) choice keys w =
       Exit 1 (mkWorld (tty w) (lines w) rs
                 (log w ++ friendsMenu friends ++
                  [Printf "Selected: %s\n" [AStr (Friend.GetUsername selected)];
                   Http (GetConversation (TokenData.Token token) (Friend.GetUserID selected));
                   Printf "Error fetching conversation: %v\n" [AErr e]]))).
Proof.
  repeat match goal with |- _ /\ _ => split end.
  - intros e. reflexivity.
  - intros token e. reflexivity.
  - intros token friends Hnil. unfold receive_message. rewrite Hnil. reflexivity.
  - intros token friends Hne Hbad. unfold receive_message.
    destruct (length (FriendsData.Friends friends) =? 0)%nat eqn:Hlen.
    { apply Nat.eqb_eq in Hlen. destruct (FriendsData.Friends friends); [congruence | discriminate]. }
    unfold bind at 1. rewrite (selectFriend_invalid friends choice w Hbad).
    cbv beta iota. unfold bind, out, osExit, emit. cbn [tty lines replies log].
    rewrite <- !app_assoc. reflexivity.
  - intros token friends n selected e rs Hn Hpos Hsel Hr.
    rewrite (receive_message_selected token friends choice keys w n selected Hn Hpos Hsel).
    unfold bind at 1. unfold fetchConversation, roundTrip, bind at 1.
    cbn [emit replies]. rewrite Hr.
    unfold ret at 1. unfold bind, out, osExit, emit, set_replies.
    cbn [tty lines replies log]. rewrite <- !app_assoc. reflexivity.
Qed.

(** X15.  After a valid selection and a first fetch that is answered,
    [receive_message] prints the key prompt and runs the key loop for the
    friend at the selected place, with the token it read; whatever happens
    there, when [receive_message] returns it returns nil.  A raw mode that
    cannot be set up is therefore not reported to the caller. *)
Theorem receive_message_runs_the_session (token : TokenData.t) (friends : FriendsData.t)
    (choice : string) (keys : list KeyRead) (w : World) (n : Z) (selected : Friend.t)
    (r : Reply) (rs : list Reply) :
  Atoi choice = Some n ->
  1 <= n ->
  FriendsData.Friends friends !! Z.to_nat (n - 1) = Some selected ->
  replies w = r :: rs ->
  answeredOK r ->
  receive_message u (inl token) (inl friends) choice keys w =
    bind (waitForCtrlRInReceiveMessage u token selected keys) (fun _ => ret None)
      (mkWorld (tty w) (lines w) rs
         (log w ++ friendsMenu friends ++
          [Printf "Selected: %s\n" [AStr (Friend.GetUsername selected)];
           Http (GetConversation (TokenData.Token token) (Friend.GetUserID selected));
           promptKeys])) /\
  (forall result w',
     receive_message u (inl token) (inl friends) choice keys w = Done result w' ->
     result = None).
Proof.
  intros Hn Hpos Hsel Hr Hok.
  assert (Hrun : receive_message u (inl token) (inl friends) choice keys w =
                 bind (waitForCtrlRInReceiveMessage u token selected keys) (fun _ => ret None)
                   (mkWorld (tty w) (lines w) rs
                      (log w ++ friendsMenu friends ++
                       [Printf "Selected: %s\n" [AStr (Friend.GetUsername selected)];
                        Http (GetConversation (TokenData.Token token)
                                (Friend.GetUserID selected));
                        promptKeys]))).
  { rewrite (receive_message_selected token friends choice keys w n selected Hn Hpos Hsel).
    unfold bind at 1. unfold fetchConversation, roundTrip, bind at 1.
    cbn [emit replies]. rewrite Hr.
    destruct r as [e | |]; [exfalso; exact (Hok e eq_refl) | |];
      unfold ret at 1; unfold bind at 1; unfold out at 1;
      unfold emit, set_replies; cbn [tty lines replies log];
      rewrite <- !app_assoc; reflexivity. }
  split; [exact Hrun |].
  intros result w' H. rewrite Hrun in H.
  apply bind_inv in H as (x & w1 & _ & H). now inversion H.
Qed.

End Receive.

Lemma receive_message_runs_the_session_witness :
  let friends := FriendsData.mk [friend0] in
  let w := mkWorld pipe0 [] [ReplyOK] [] in
  Atoi "1" = Some 1 /\
  FriendsData.Friends friends !! Z.to_nat (1 - 1) = Some friend0 /\
  receive_message asciiOnly (inl token0) (inl friends) "1" [] w =
    Done None
      (mkWorld pipe0 [] []
         (friendsMenu friends ++
          [Printf "Selected: %s\n" [AStr "bob"];
           Http (GetConversation "tok" "u2");
           promptKeys;
           MakeRaw None;
           Printf setupFailed [AErr (Errno 25)]])).
Proof.
  assert (Hok : answeredOK ReplyOK) by (intros e; discriminate).
  assert (Hpos : 1 <= 1) by lia.
  split; [reflexivity |]. split; [reflexivity |].
  rewrite (proj1 (receive_message_runs_the_session asciiOnly token0 (FriendsData.mk [friend0])
                    "1" [] (mkWorld pipe0 [] [ReplyOK] []) 1 friend0 ReplyOK []
                    eq_refl Hpos eq_refl eq_refl Hok)).
  vm_compute. reflexivity.
Defined.

(** ** The friend requests menu *)

Section Manage.

Context (u : Unicode).

Lemma bind_done_ext {A B} (m : M A) (k k' : A -> M B) (w w1 : World) (a : A) :
  m w = Done a w1 -> k a w1 = k' a w1 -> bind m k w = bind m k' w.
Proof. intros Hm Hk. unfold bind. rewrite Hm. exact Hk. Qed.

Lemma displayFriendRequestMenu_run (typed : string) (w : World) :
  displayFriendRequestMenu typed w =
    Done
      match Atoi typed with
      | None => (0, Some (ErrorString "invalid choice: please enter a number"))
      | Some choiceNum =>
          if (choiceNum <? 1) || (choiceNum >? 2)
          then (0, Some (ErrorString "invalid choice: please select 1 or 2"))
          else (choiceNum, None)
      end
      (mkWorld (tty w) (lines w) (replies w) (log w ++ requestsMenu)).
Proof.
  unfold displayFriendRequestMenu, requestsMenu, bind, out, emit.
  cbn [tty lines replies log]. rewrite <- !app_assoc. cbn [app].
  destruct (Atoi typed) as [n |]; [| reflexivity].
  destruct ((n <? 1) || (n >? 2)); reflexivity.
Qed.

Lemma displayFriendRequestMenu_valid (typed : string) (n : Z) (w : World) :
  Atoi typed = Some n -> n = 1 \/ n = 2 ->
  displayFriendRequestMenu typed w =
    Done (n, None) (mkWorld (tty w) (lines w) (replies w) (log w ++ requestsMenu)).
Proof.
  intros Hn Hrange. rewrite displayFriendRequestMenu_run, Hn.
  destruct Hrange; subst n; reflexivity.
Qed.

Lemma displayFriendRequestMenu_invalid (typed : string) (w : World) :
  invalidMenuChoice typed ->
  displayFriendRequestMenu typed w =
    Done (0, Some (menuError typed))
      (mkWorld (tty w) (lines w) (replies w) (log w ++ requestsMenu)).
Proof.
  rewrite displayFriendRequestMenu_run. unfold menuError.
  intros [Hnone | (n & Hn & Hrange)].
  - rewrite Hnone. reflexivity.
  - rewrite Hn.
    assert (Hb : (n <? 1) || (n >? 2) = true).
    { apply orb_true_iff.
      destruct Hrange; [left; apply Z.ltb_lt | right; apply Z.gtb_lt]; lia. }
    rewrite Hb. reflexivity.
Qed.

(** X16.  [manageFriendRequests] is decided by its first reading of the
    token and of the menu choice: the branch that prints "Invalid choice.
    Please try again." and starts over is never taken, because
    [displayFriendRequestMenu] returns 1 or 2 or an error.  A token that
    cannot be read, and a word at the menu that is no number or a number
    other than 1 and 2, end the process with exit code 1 after one line
    that names the cause. *)
Theorem manageFriendRequests_first_round_decides (round : Round) (rounds : list Round)
    (outgoing : OutgoingFriendRequestsResponse.t + error) (keys : list KeyRead) (w : World) :
  (forall rounds',
     manageFriendRequests u (round :: rounds) outgoing keys w =
     manageFriendRequests u (round :: rounds') outgoing keys w) /\
  (forall e typed,
     round = (inr e, typed) ->
     manageFriendRequests u (round :: rounds) outgoing keys w =
       Exit 1 (mkWorld (tty w) (lines w) (replies w)
                 (log w ++ [Printf "Error reading token: %v\n" [AErr e]]))) /\
  (forall token typed,
     round = (inl token, typed) ->
     invalidMenuChoice typed ->
     manageFriendRequests u (round :: rounds) outgoing keys w =
       Exit 1 (mkWorld (tty w) (lines w) (replies w)
                 (log w ++ requestsMenu ++
                  [Printf "Error getting user choice: %v\n" [AErr (menuError typed)]]))).
Proof.
  split; [| split].
  - intros rounds'. destruct round as [[token | e] typed]; [| reflexivity].
    cbn [manageFriendRequests].
    eapply bind_done_ext; [apply displayFriendRequestMenu_run |].
    destruct (Atoi typed) as [n |]; [| reflexivity].
    destruct ((n <? 1) || (n >? 2)) eqn:Hb; [reflexivity |].
    apply orb_false_iff in Hb as [H1 H2].
    apply Z.ltb_ge in H1. rewrite Z.gtb_ltb in H2. apply Z.ltb_ge in H2.
    cbv beta iota zeta.
    destruct (n =? 1) eqn:E1; [reflexivity |].
    destruct (n =? 2) eqn:E2; [reflexivity |].
    apply Z.eqb_neq in E1, E2. lia.
  - intros e typed ->. reflexivity.
  - intros token typed -> Hbad. cbn [manageFriendRequests]. unfold bind at 1.
    rewrite (displayFriendRequestMenu_invalid typed w Hbad).
    cbv beta iota. unfold bind, out, osExit, emit. cbn [tty lines replies log].
    rewrite <- !app_assoc. reflexivity.
Qed.

Lemma displayOutgoingFriendRequests_prints (response : OutgoingFriendRequestsResponse.t) :
  printsOnly (displayOutgoingFriendRequests response).
Proof.
  unfold displayOutgoingFriendRequests.
  repeat (apply printsOnly_seq; [auto with prints |]).
  - destruct (negb _); auto with prints.
  - destruct (_ =? _)%nat; [auto with prints |].
    repeat (apply printsOnly_seq; [auto with prints |]); auto with prints.
    apply printsOnly_forRange. intros i x.
    repeat (apply printsOnly_seq; [auto with prints |]).
    destruct (_ <? _); auto with prints.
Qed.

(** X17.  Choice 2 of the menu, the outgoing requests: the function
    prints them and returns nil, or - when they cannot be fetched - ends
    the process with exit code 1 after a line that wraps the cause.  Either
    way, once the fetch has answered, it only prints: the terminal device
    is untouched, raw mode is never asked for and no key is read. *)
Theorem manageFriendRequests_outgoing (token : TokenData.t) (typed : string)
    (rounds : list Round) (keys : list KeyRead) (w : World) :
  Atoi typed = Some 2 ->
  (forall e,
     manageFriendRequests u ((inl token, typed) :: rounds) (inr e) keys w =
       Exit 1 (mkWorld (tty w) (lines w) (replies w)
                 (log w ++ requestsMenu ++
                  [Println "\n📤 Fetching outgoing friend requests...";
                   Printf "Error handling friend requests: %v\n"
                     [AErr (Errorf "failed to fetch outgoing requests: %v" e)]]))) /\
  (forall response,
     exists evs,
       forallb isOutput evs = true /\
       manageFriendRequests u ((inl token, typed) :: rounds) (inl response) keys w =
         Done None
           (mkWorld (tty w) (lines w) (replies w)
              (log w ++ requestsMenu ++
               [Println "\n📤 Fetching outgoing friend requests..."] ++ evs))).
Proof.
  intros Hn. split.
  - intros e. cbn [manageFriendRequests]. unfold bind at 1.
    rewrite (displayFriendRequestMenu_valid typed 2 w Hn (or_intror eq_refl)).
    cbv beta iota zeta. change (2 =? 1) with false. change (2 =? 2) with true.
    cbv beta iota. unfold handleOutgoingRequests, bind, out, ret, osExit, emit.
    cbn [tty lines replies log]. rewrite <- !app_assoc. reflexivity.
  - intros response.
    destruct (displayOutgoingFriendRequests_prints response
                (mkWorld (tty w) (lines w) (replies w)
                   (log w ++ requestsMenu ++
                    [Println "\n📤 Fetching outgoing friend requests..."])))
      as (evs & Hout & Hrun).
    cbn [tty lines replies log] in Hrun.
    exists evs. split; [exact Hout |].
    cbn [manageFriendRequests]. unfold bind at 1.
    rewrite (displayFriendRequestMenu_valid typed 2 w Hn (or_intror eq_refl)).
    cbv beta iota zeta. change (2 =? 1) with false. change (2 =? 2) with true.
    cbv beta iota. unfold handleOutgoingRequests.
    unfold bind at 1. unfold bind at 1. unfold out at 1. unfold emit.
    cbn [tty lines replies log]. rewrite <- !app_assoc.
    unfold bind at 1. rewrite Hrun. unfold ret. rewrite <- !app_assoc. reflexivity.
Qed.

Lemma handleIncomingRequests_fetch_failed (token : TokenData.t) (keys : list KeyRead)
    (w : World) (e : error) (rs : list Reply) :
  replies w = ReplyErr e :: rs ->
  handleIncomingRequests u token keys w =
    Done (Some (Errorf "failed to fetch incoming requests: %v" e))
      (mkWorld (tty w) (lines w) rs
         (log w ++
          [Println "\n📥 Fetching incoming friend requests...";
           Http (GetIncomingFriendRequests (TokenData.Token token) incomingURL)])).
Proof.
  intros Hr. unfold handleIncomingRequests. run. rewrite Hr. wsimpl. reflexivity.
Qed.

(** X18.  Choice 1 of the menu, the incoming requests, when they cannot
    be fetched: the error of [handleIncomingRequests] is printed, wrapped
    twice, and the process ends with exit code 1; one request went to the
    back end, raw mode was never asked for and no key was read. *)
Theorem manageFriendRequests_incoming_fetch_failed (token : TokenData.t) (typed : string)
    (rounds : list Round) (outgoing : OutgoingFriendRequestsResponse.t + error)
    (keys : list KeyRead) (w : World) (e : error) (rs : list Reply) :
  Atoi typed = Some 1 ->
  replies w = ReplyErr e :: rs ->
  manageFriendRequests u ((inl token, typed) :: rounds) outgoing keys w =
    Exit 1 (mkWorld (tty w) (lines w) rs
              (log w ++ requestsMenu ++
               [Println "\n📥 Fetching incoming friend requests...";
                Http (GetIncomingFriendRequests (TokenData.Token token) incomingURL);
                Printf "Error handling friend requests: %v\n"
                  [AErr (Errorf "failed to fetch incoming requests: %v" e)]])).
Proof.
  intros Hn Hr. cbn [manageFriendRequests]. unfold bind at 1.
  rewrite (displayFriendRequestMenu_valid typed 1 w Hn (or_introl eq_refl)).
  cbv beta iota zeta. change (1 =? 1) with true. cbv beta iota.
  unfold bind at 1.
  rewrite (handleIncomingRequests_fetch_failed token keys
             (mkWorld (tty w) (lines w) (replies w) (log w ++ requestsMenu)) e rs Hr).
  unfold bind, out, osExit, emit. cbn [tty lines replies log].
  rewrite <- !app_assoc. reflexivity.
Qed.

(** X19.  Whenever [manageFriendRequests] returns, it returns nil: every
    error it meets - of the token, of the menu, of either handler - ends
    the process instead. *)
Theorem manageFriendRequests_returns_nil (rounds : list Round)
    (outgoing : OutgoingFriendRequestsResponse.t + error) (keys : list KeyRead)
    (w w' : World) (result : option error) :
  manageFriendRequests u rounds outgoing keys w = Done result w' ->
  result = None.
Proof.
  revert w. induction rounds as [| [[token | e] typed] rounds IH]; intros w H.
  - discriminate.
  - cbn [manageFriendRequests] in H.
    apply bind_inv in H as ([choice err] & w1 & _ & H).
    destruct err as [err |].
    + apply bind_inv in H as (x & w2 & _ & H). discriminate.
    + cbv zeta in H. destruct (choice =? 1).
      * apply bind_inv in H as ([err |] & w2 & _ & H).
        -- apply bind_inv in H as (x & w3 & _ & H). discriminate.
        -- now inversion H.
      * destruct (choice =? 2).
        -- apply bind_inv in H as ([err |] & w2 & _ & H).
           ++ apply bind_inv in H as (x & w3 & _ & H). discriminate.
           ++ now inversion H.
        -- apply bind_inv in H as (x & w2 & _ & H). exact (IH _ H).
  - cbn [manageFriendRequests] in H.
    apply bind_inv in H as (x & w1 & _ & H). discriminate.
Qed.

End Manage.

Lemma manageFriendRequests_outgoing_witness :
  Atoi "2" = Some 2 /\
  manageFriendRequests asciiOnly [(inl token0, "2")] (inr (ErrorString "down")) [] world0 =
    Exit 1 (mkWorld terminal0 [] []
              (requestsMenu ++
               [Println "\n📤 Fetching outgoing friend requests...";
                Printf "Error handling friend requests: %v\n"
                  [AErr (Errorf "failed to fetch outgoing requests: %v"
                           (ErrorString "down"))]])).
Proof.
  split; [reflexivity |].
  exact (proj1 (manageFriendRequests_outgoing asciiOnly token0 "2" [] [] world0 eq_refl)
           (ErrorString "down")).
Defined.

Lemma manageFriendRequests_incoming_fetch_failed_witness :
  let w := mkWorld terminal0 [] [ReplyErr (ErrorString "down")] [] in
  Atoi "1" = Some 1 /\
  replies w = [ReplyErr (ErrorString "down")] /\
  manageFriendRequests asciiOnly [(inl token0, "1")] (inr (ErrorString "unused")) [] w =
    Exit 1 (mkWorld terminal0 [] []
              (requestsMenu ++
               [Println "\n📥 Fetching incoming friend requests...";
                Http (GetIncomingFriendRequests "tok" incomingURL);
                Printf "Error handling friend requests: %v\n"
                  [AErr (Errorf "failed to fetch incoming requests: %v"
                           (ErrorString "down"))]])).
Proof.
  split; [reflexivity |]. split; [reflexivity |].
  exact (manageFriendRequests_incoming_fetch_failed asciiOnly token0 "1" []
           (inr (ErrorString "unused")) []
           (mkWorld terminal0 [] [ReplyErr (ErrorString "down")] [])
           (ErrorString "down") [] eq_refl eq_refl).
Defined.

Lemma manageFriendRequests_returns_nil_witness :
  exists w',
    manageFriendRequests asciiOnly [(inl token0, "2")]
      (inl (OutgoingFriendRequestsResponse.mk [] 0 "" "u1")) [] world0 = Done None w'.
Proof.
  assert (Hrun : exists result w',
             manageFriendRequests asciiOnly [(inl token0, "2")]
               (inl (OutgoingFriendRequestsResponse.mk [] 0 "" "u1")) [] world0 =
             Done result w').
  { eexists. eexists. vm_compute. reflexivity. }
  destruct Hrun as (result & w' & Hrun).
  exists w'.
  rewrite <- (manageFriendRequests_returns_nil asciiOnly _ _ _ _ _ _ Hrun).
  exact Hrun.
Defined.

(** ** The conversation on the screen *)

Section Display.

Context (clock : Clock) (token : TokenData.t).

Lemma filteredMessages_acc (friendUserID : string) (conversation acc : list Message.t) :
  fold_left
    (fun filtered msg =>
       if exchanged token friendUserID msg then (filtered ++ [msg])%list else filtered)
    conversation acc
  = (acc ++ List.filter (exchanged token friendUserID) conversation)%list.
Proof.
  revert acc. induction conversation as [| m conversation IH]; intros acc; simpl.
  - now rewrite app_nil_r.
  - rewrite IH. destruct (exchanged token friendUserID m); simpl; auto.
    now rewrite <- app_assoc.
Qed.

Lemma filteredMessages_filter (friendUserID : string) (conversation : list Message.t) :
  filteredMessages token friendUserID conversation =
  List.filter (exchanged token friendUserID) conversation.
Proof. unfold filteredMessages. now rewrite filteredMessages_acc. Qed.

Lemma shownIDs_app (l1 l2 : list Event) :
  shownIDs (l1 ++ l2) = (shownIDs l1 ++ shownIDs l2)%list.
Proof. unfold shownIDs. apply flat_map_app. Qed.

(** One message on the screen: a header, a status, the id, a rule. *)
Lemma displayMessage_run (friendUsername : string) (msg : Message.t) :
  exists header status,
    isOutput header = true /\ isOutput status = true /\
    shownID header = None /\ shownID status = None /\
    forall w,
      displayMessage clock token friendUsername msg w =
        Done tt
          (mkWorld (tty w) (lines w) (replies w)
             (log w ++
              [header; status;
               Printf "   Message ID: %d\n" [AInt (Message.MessageID msg)];
               Println (Repeat "-" 40)])).
Proof.
  unfold displayMessage.
  destruct (Message.Sender msg =? TokenData.UserID token)%string;
    destruct (Message.IsRead msg); cbn [negb];
    (eexists; eexists;
     (split; [| split; [| split; [| split]]]);
     [| | | | intros w; unfold bind, out, emit; cbn [tty lines replies log];
              rewrite <- !app_assoc; cbn [app]; reflexivity];
     reflexivity).
Qed.

Lemma displayMessages_run (friendUsername : string) (messages : list Message.t) (i : nat) :
  exists evs,
    forallb isOutput evs = true /\
    shownIDs evs = map Message.MessageID messages /\
    forall w,
      forRange (fun _ msg => displayMessage clock token friendUsername msg) i messages w =
        Done tt (mkWorld (tty w) (lines w) (replies w) (log w ++ evs)).
Proof.
  revert i. induction messages as [| msg messages IH]; intros i.
  - exists []. split; [reflexivity |]. split; [reflexivity |].
    intros w. cbn [forRange]. unfold ret. rewrite app_nil_r. now destruct w.
  - destruct (displayMessage_run friendUsername msg)
      as (header & status & Hh & Hs & Ih & Is & Hrun).
    destruct (IH (S i)) as (evs & Hout & Hids & Hrest).
    exists ([header; status;
             Printf "   Message ID: %d\n" [AInt (Message.MessageID msg)];
             Println (Repeat "-" 40)] ++ evs)%list.
    split; [| split].
    + rewrite forallb_app, Hout. cbn [forallb]. rewrite Hh, Hs. reflexivity.
    + rewrite shownIDs_app, Hids. unfold shownIDs at 1. cbn [flat_map].
      rewrite Ih, Is. reflexivity.
    + intros w. cbn [forRange]. unfold bind. rewrite Hrun, Hrest.
      cbn [tty lines replies log]. rewrite <- !app_assoc. reflexivity.
Qed.

(** X20.  [displayConversation] only prints, and the messages it shows
    are exactly those of the answer that went between the user of the
    token and the friend, in either direction: one "Message ID" line for
    each, in the order of the answer; messages of the answer between other
    pairs of users are left out. *)
Theorem displayConversation_shows_exchanged (friend : Friend.t)
    (conversation : ConversationResponse.t) (w : World) :
  exists evs,
    forallb isOutput evs = true /\
    displayConversation clock token friend conversation w =
      Done tt (mkWorld (tty w) (lines w) (replies w) (log w ++ evs)) /\
    shownIDs evs =
      map Message.MessageID
        (List.filter (exchanged token (Friend.GetUserID friend))
           (ConversationResponse.Conversation conversation)).
Proof.
  unfold displayConversation. cbv zeta. rewrite filteredMessages_filter.
  set (filtered := List.filter (exchanged token (Friend.GetUserID friend))
                     (ConversationResponse.Conversation conversation)).
  destruct (length filtered =? 0)%nat eqn:Hlen.
  - apply Nat.eqb_eq in Hlen. destruct filtered; [| discriminate].
    eexists. split; [| split].
    2: { unfold bind, out, emit. cbn [tty lines replies log].
         rewrite <- !app_assoc. cbn [app]. reflexivity. }
    + reflexivity.
    + reflexivity.
  - destruct (displayMessages_run (Friend.GetUsername friend) filtered 0)
      as (evs & Hout & Hids & Hrun).
    exists ([Printf "\n=== Conversation with %s ===\n" [AStr (Friend.GetUsername friend)];
             Printf "Total messages in conversation: %d\n"
               [AInt (ConversationResponse.TotalMessages conversation)];
             Printf "Participants: %v\n"
               [AStr (formatStrings (ConversationResponse.Participants conversation))];
             Printf "Last updated: %s\n" [AStr (lastUpdated clock)];
             Println (Repeat "=" 50);
             Printf "\nMessages between you and %s (%d messages):\n\n"
               [AStr (Friend.GetUsername friend); AInt (Z.of_nat (length filtered))]] ++
            evs ++
            [Printf "\nEnd of conversation with %s\n" [AStr (Friend.GetUsername friend)]])%list.
    split; [| split].
    + rewrite forallb_app, forallb_app, Hout. reflexivity.
    + unfold bind at 1 2 3 4 5 6. unfold out at 1 2 3 4 5 6. unfold bind at 1.
      unfold emit. cbn [tty lines replies log]. rewrite Hrun.
      unfold out, emit. cbn [tty lines replies log].
      rewrite <- !app_assoc. cbn [app]. reflexivity.
    + rewrite shownIDs_app, shownIDs_app, Hids.
      change (shownIDs [Printf "\nEnd of conversation with %s\n"
                          [AStr (Friend.GetUsername friend)]]) with (@nil Z).
      rewrite app_nil_r. reflexivity.
Qed.

End Display.
